(** * Validation and materialisation of the parameter and protocol catalogs

    A shallow embedding of the validation engine
    ([src/validation/json_validator.py], [custom_validator.py],
    [cross_reference_validator.py], [main_validator.py]) and of the
    database generator ([generators/database_generator.py]), followed by
    the properties of the specification that are settled against it.

    Conventions of the embedding.
    - A loaded YAML document is a [value]: scalars ([atom]), sequences and
      mappings with string keys.  Floats, timestamps and binaries that YAML
      can also produce are outside the model.  A Python [str] is a [string]
      whose characters are read as code points below 256.
    - A Python exception is a [Raise e] result; [try ... except Exception]
      is a [match] on the result.
    - An error message is the f-string template that builds it, kept as a
      constructor of [msg] together with the interpolated values.
    - Sets of hashable values are [gset key]; dictionaries that are iterated
      are association lists in insertion order. *)

From stdpp Require Import gmap strings list pretty.
From Stdlib Require Import ZArith Ascii.

Set Warnings "-register-all".

Open Scope Z_scope.

(** ** Python values *)

Inductive atom :=
| ANone
| ABool (b : bool)
| AInt (z : Z)
| AStr (s : string).

Inductive value :=
| VAtom (a : atom)
| VList (items : list value)
| VDict (entries : list (string * value)).

Abbreviation VNone := (VAtom ANone).
Abbreviation VStr s := (VAtom (AStr s)).
Abbreviation VInt z := (VAtom (AInt z)).

(** Identity of a hashable value inside a [set] or as a [dict] key:
    [True == 1] and [False == 0] hash and compare alike. *)
Inductive key :=
| KNone
| KInt (z : Z)
| KStr (s : string).

#[global] Instance key_eq_dec : EqDecision key.
Proof. solve_decision. Defined.

#[global] Instance key_countable : Countable key.
Proof.
  refine (inj_countable'
            (λ k, match k with
                  | KNone => inl ()
                  | KInt z => inr (inl z)
                  | KStr s => inr (inr s)
                  end)
            (λ x, match x with
                  | inl _ => KNone
                  | inr (inl z) => KInt z
                  | inr (inr s) => KStr s
                  end) _).
  by intros [].
Defined.

Definition key_of (a : atom) : key :=
  match a with
  | ANone => KNone
  | ABool b => KInt (if b then 1 else 0)
  | AInt z => KInt z
  | AStr s => KStr s
  end.

(** ** Exceptions *)

Inductive exn :=
| FileNotFoundError
| OSError
| YAMLError
| ValueError
| TypeError
| AttributeError
| KeyError
| OverflowError
| InterfaceError
| IntegrityError
| OperationalError
| LibraryError.   (* any other exception of an external library *)

Inductive result (A : Type) :=
| Ok (a : A)
| Raise (e : exn).
Arguments Ok {A} a.
Arguments Raise {A} e.

#[global] Instance result_ret : MRet result := @Ok.
#[global] Instance result_bind : MBind result :=
  λ A B f r, match r with Ok a => f a | Raise e => Raise e end.

(** ** Python operations on loaded documents *)

(** [bool(v)] *)
Definition truthy (v : value) : bool :=
  match v with
  | VAtom ANone => false
  | VAtom (ABool b) => b
  | VAtom (AInt z) => negb (Z.eqb z 0)
  | VAtom (AStr s) => negb (String.eqb s "")
  | VList l => negb (bool_decide (l = []))
  | VDict l => negb (bool_decide (l = []))
  end.

Fixpoint assoc (k : string) (entries : list (string * value)) : option value :=
  match entries with
  | [] => None
  | (k', v) :: rest => if String.eqb k k' then Some v else assoc k rest
  end.

(** [v.get(k, dflt)]; only mappings have the method. *)
Definition py_get (v : value) (k : string) (dflt : value) : result value :=
  match v with
  | VDict es => Ok (default dflt (assoc k es))
  | _ => Raise AttributeError
  end.

(** [needle in hay] on two strings: substring search. *)
Fixpoint is_prefix (p s : list ascii) : bool :=
  match p, s with
  | [], _ => true
  | c :: p', d :: s' => Ascii.eqb c d && is_prefix p' s'
  | _ :: _, [] => false
  end.

Fixpoint is_infix (p s : list ascii) : bool :=
  is_prefix p s ||
  match s with
  | [] => false
  | _ :: s' => is_infix p s'
  end.

Definition str_contains (needle hay : string) : bool :=
  is_infix (String.list_ascii_of_string needle) (String.list_ascii_of_string hay).

(** [s.endswith(suffix)] *)
Definition endswith (s suffix : string) : bool :=
  is_prefix (rev (String.list_ascii_of_string suffix)) (rev (String.list_ascii_of_string s)).

Definition is_str (k : string) (v : value) : bool :=
  match v with
  | VAtom (AStr s) => String.eqb k s
  | _ => false
  end.

(** ['k' in data]: key test on a mapping, element test on a sequence,
    substring test on a string, [TypeError] on the other scalars. *)
Definition py_in (k : string) (data : value) : result bool :=
  match data with
  | VDict es => Ok (bool_decide (is_Some (assoc k es)))
  | VList l => Ok (existsb (is_str k) l)
  | VAtom (AStr s) => Ok (str_contains k s)
  | VAtom _ => Raise TypeError
  end.

(** [data['k']] *)
Definition py_getitem (data : value) (k : string) : result value :=
  match data with
  | VDict es =>
      match assoc k es with
      | Some v => Ok v
      | None => Raise KeyError
      end
  | _ => Raise TypeError
  end.

(** The values a [for] loop draws from [v]: the elements of a sequence,
    the keys of a mapping, the characters of a string. *)
Definition py_iter (v : value) : result (list value) :=
  match v with
  | VList l => Ok l
  | VDict es => Ok (map (λ e, VStr (fst e)) es)
  | VAtom (AStr s) =>
      Ok (map (λ c, VStr (String c EmptyString)) (String.list_ascii_of_string s))
  | VAtom _ => Raise TypeError
  end.

(** [hash(v)], as needed by [set.add], [in] on a set and [dict] keys. *)
Definition py_hash (v : value) : result key :=
  match v with
  | VAtom a => Ok (key_of a)
  | _ => Raise TypeError
  end.

(** [a == b] when [a] is hashable. *)
Definition py_eq (a : atom) (v : value) : bool :=
  match v with
  | VAtom b => bool_decide (key_of a = key_of b)
  | _ => false
  end.

(** The idiom [if 'k' in data: for x in data['k']: ...]: the items the
    loop visits, [None] when the key is absent. *)
Definition section_items (data : value) (k : string) : result (option (list value)) :=
  b ← py_in k data;
  if b : bool then
    v ← py_getitem data k;
    l ← py_iter v;
    mret (Some l)
  else mret None.

(** A [dict] with hashable keys, in insertion order.  Assigning to a key
    that is already present (under [==]) replaces the value and keeps the
    key object and its position. *)
Definition pydict := list (atom * value).

Fixpoint dict_set (d : pydict) (k : atom) (v : value) : pydict :=
  match d with
  | [] => [(k, v)]
  | (k', v') :: rest =>
      if bool_decide (key_of k' = key_of k) then (k', v) :: rest
      else (k', v') :: dict_set rest k v
  end.

Fixpoint dict_find (d : pydict) (h : key) : option value :=
  match d with
  | [] => None
  | (k', v') :: rest =>
      if bool_decide (key_of k' = h) then Some v' else dict_find rest h
  end.

(** The hashable value behind [v], [TypeError: unhashable type] otherwise. *)
Definition py_hashable (v : value) : result atom :=
  match v with
  | VAtom a => Ok a
  | _ => Raise TypeError
  end.

(** [len(v)]; a mapping counts its keys. *)
Definition py_len (v : value) : result nat :=
  match v with
  | VList l => Ok (length l)
  | VDict es => Ok (length (remove_dups (map fst es)))
  | VAtom (AStr s) => Ok (String.length s)
  | VAtom _ => Raise TypeError
  end.

(** [v == w]: scalars compare as keys do, sequences element by element,
    mappings key by key whatever the order of their entries. *)
Fixpoint py_equal (v w : value) {struct v} : bool :=
  match v, w with
  | VAtom a, VAtom b => bool_decide (key_of a = key_of b)
  | VList l, VList m =>
      (fix elementwise (l m : list value) {struct l} : bool :=
         match l, m with
         | [], [] => true
         | x :: l', y :: m' => py_equal x y && elementwise l' m'
         | _, _ => false
         end) l m
  | VDict es, VDict fs =>
      forallb (λ k, bool_decide (is_Some (assoc k es))) (map fst fs) &&
      (fix entrywise (seen : list string) (es : list (string * value)) {struct es} : bool :=
         match es with
         | [] => true
         | (k, x) :: es' =>
             (if bool_decide (k ∈ seen) then true
              else match assoc k fs with
                   | Some y => py_equal x y
                   | None => false
                   end)
             && entrywise (k :: seen) es'
         end) [] es
  | _, _ => false
  end.

(** [x in l] on a list: a scan with [==]. *)
Definition py_contains (l : list value) (x : value) : bool :=
  existsb (λ e, py_equal e x) l.

(** [d[k] = v] on the entries of a mapping: the value is replaced where
    the key is, a new entry goes to the end. *)
Fixpoint assign (k : string) (v : value) (entries : list (string * value))
  : list (string * value) :=
  match entries with
  | [] => [(k, v)]
  | (k', v') :: rest =>
      if String.eqb k k' then (k', v) :: rest else (k', v') :: assign k v rest
  end.

(** Statements that update [data] one after the other, one per key; an
    exception ends the sequence. *)
Fixpoint in_turn (step : value → string → result value) (data : value)
    (keys : list string) : result value :=
  match keys with
  | [] => mret data
  | k :: rest =>
      data' ← step data k;
      in_turn step data' rest
  end.

(** ** The files on disk *)

Inductive file :=
| NoFile
| Unreadable
| BadYaml
| Yaml (v : value).

Definition filesystem := string → file.

(** [Path(p).exists()] *)
Definition exists_ (fs : filesystem) (p : string) : bool :=
  match fs p with
  | NoFile => false
  | _ => true
  end.

(** [with open(p) as f: yaml.safe_load(f)] *)
Definition safe_load (fs : filesystem) (p : string) : result value :=
  match fs p with
  | NoFile => Raise FileNotFoundError
  | Unreadable => Raise OSError
  | BadYaml => Raise YAMLError
  | Yaml v => Ok v
  end.

(** [with open(p, 'w') as f: yaml.dump(v, f)].  The write is taken to
    succeed, and [yaml.safe_load] to read back what [yaml.dump] wrote. *)
Definition write (fs : filesystem) (p : string) (v : value) : filesystem :=
  λ q, if String.eqb q p then Yaml v else fs q.

(** [os.remove(p)] *)
Definition os_remove (fs : filesystem) (p : string) : result filesystem :=
  match fs p with
  | NoFile => Raise FileNotFoundError
  | _ => Ok (λ q, if String.eqb q p then NoFile else fs q)
  end.

(** ** Messages

    One constructor per message template of the validators; the doc comment
    of each gives the f-string it stands for. *)

Inductive path_elem :=
| PKey (k : string)
| PIndex (i : nat).

(** A [jsonschema.ValidationError]: its [path] and its [message]. *)
Record schema_error := { error_path : list path_elem; error_message : string }.

Inductive msg :=
(* json_validator.py *)
| SchemaViolation (data_type : string) (e : schema_error)
    (** "{data_type.title()} validation error at '{error_path}': {error.message}" *)
| ValidationSuccessful            (** "Validation successful" *)
| YamlParsingError                (** "YAML parsing error: {e}" *)
| FileNotFound (p : string)       (** "File not found: {yaml_file_path}" *)
| ValidationFailure (e : exn)     (** "Validation error: {e}" *)
| SchemaValidationFailed (e : exn) (** "Schema validation failed: {e}" *)
(* custom_validator.py *)
| DuplicateParameterId (param_id : value)
    (** "Duplicate parameter ID: {param_id}" *)
| DuplicateParameterName (field_name : value)
    (** "Duplicate parameter field_name: '{field_name}'" *)
| NotSnakeCase (field_name : value)
    (** "Parameter '{field_name}': protobuf_field must be in snake_case" *)
| InvalidReason (field_name reason_added : value)
    (** "Parameter '{field_name}': invalid reason_added '{reason_added}'. Must be one of: ..." *)
| BadProtocolReference (field_name : value)
    (** "Parameter '{field_name}': protocol_reference must end with '_protocols'" *)
| BadBreadcrumbLink (pos : nat)
    (** "Breadcrumb {i+1}: invalid URL or not from docs.motive.com domain" *)
| BadVg5Link (pos : nat)
    (** "VG5 field {i+1}: invalid URL or not from docs.motive.com/vg5/ path" *)
| BadAbbrValue (pos : nat) (abbr_value : value)
    (** "Abbreviation {i+1}: '{abbr_value}' must be 2-6 uppercase letters" *)
| BadAbbrLink (pos : nat)
    (** "Abbreviation {i+1}: abbr_link must be from docs.motive.com/abbr/ path" *)
| BadMetricsLink (pos : nat)
    (** "Abbreviation {i+1}: metrics_link must be from redash.motive.com domain" *)
| DuplicateGroupId (group_id : value)
    (** "Duplicate protocol group ID: {group_id}" *)
| DuplicateGroupName (group_name : value)
    (** "Duplicate protocol group name: '{group_name}'" *)
| InvalidStandard (protocol_num : nat) (standard : value)
    (** "Protocol {protocol_num}: invalid protocol_standard '{standard}'. Must be one of: ..." *)
| BadProtocolAbbr (protocol_num : nat) (abbr : value)
    (** "Protocol {protocol_num}: abbreviation '{abbr}' must be 2-6 uppercase letters" *)
| BadJ1939Pgn (protocol_num : nat)
    (** "Protocol {protocol_num}: J1939 pgn_pid should be numeric (e.g., '61444')" *)
| BadJ1979Pid (protocol_num : nat)
    (** "Protocol {protocol_num}: J1979 pgn_pid should be hex format (e.g., '0x0C/0xF40C')" *)
| CustomValidationPassed          (** "Custom validation passed" *)
| CustomValidationError (e : exn) (** "Custom validation error: {e}" *)
(* cross_reference_validator.py *)
| NonExistentGroup (field_name protocol_ref : value)
    (** "Parameter '{field_name}' references non-existent protocol group '{protocol_ref}'" *)
| NonExistentParameter (group_name param_ref : value)
    (** "Protocol group '{group_name}' references non-existent parameter '{param_ref}'" *)
| BreadcrumbRef (pos : nat) (param_id : value)
    (** "Breadcrumb field {i+1} references non-existent parameter ID {param_id}" *)
| Vg5Ref (pos : nat) (param_id : value)
    (** "VG5 field {i+1} references non-existent parameter ID {param_id}" *)
| AbbrMetricRef (pos : nat) (param_id : value)
    (** "Abbreviation metric {i+1} references non-existent parameter ID {param_id}" *)
| ProtocolRef (pos : nat) (group_id : value)
    (** "Protocol {i+1} references non-existent protocol group ID {group_id}" *)
| CrossReferencePassed            (** "Cross-reference validation passed" *)
| CrossReferenceError (e : exn)   (** "Cross-reference validation error: {e}" *)
| Inconsistent (param_name protocol_name expected_param : value)
    (** "Bidirectional inconsistency: Parameter '{param_name}' references protocol
        '{protocol_name}', but protocol references parameter '{expected_param}'" *)
| GroupDoesNotExist (param_name protocol_name : value)
    (** "Parameter '{param_name}' references protocol '{protocol_name}' but protocol
        group does not exist" *)
| ParameterDoesNotExist (protocol_name param_name : value)
    (** "Protocol group '{protocol_name}' references parameter '{param_name}' but
        parameter does not exist" *)
| DifferentProtocol (protocol_name param_name : value)
    (** "Protocol group '{protocol_name}' references parameter '{param_name}' but
        parameter references different protocol" *)
| BidirectionalPassed             (** "Bidirectional consistency validation passed" *)
| BidirectionalError (e : exn)    (** "Bidirectional consistency validation error: {e}" *)
(* main_validator.py *)
| RequiredFilesMissing            (** "Required files do not exist" *).

(** [return len(errors) == 0, errors if errors else [passed]] *)
Definition verdict (passed : msg) (errors : list msg) : bool * list msg :=
  (bool_decide (length errors = 0%nat),
   match errors with
   | [] => [passed]
   | _ :: _ => errors
   end).

(** A [for] loop whose body appends to [errors]; an exception in the body
    leaves the loop. *)
Fixpoint for_each {A} (body : A → result (list msg)) (l : list A) : result (list msg) :=
  match l with
  | [] => mret []
  | x :: rest =>
      e ← body x;
      es ← for_each body rest;
      mret (e ++ es)
  end.

(** [for i, x in enumerate(l)], [i] counted from [start]. *)
Fixpoint for_enumerate {A} (body : nat → A → result (list msg)) (start : nat) (l : list A)
  : result (list msg) :=
  match l with
  | [] => mret []
  | x :: rest =>
      e ← body start x;
      es ← for_enumerate body (S start) rest;
      mret (e ++ es)
  end.

(** [if 'k' in data: <loop over data['k']>]: no errors when the key is absent. *)
Definition in_section (data : value) (k : string) (loop : list value → result (list msg))
  : result (list msg) :=
  items ← section_items data k;
  match items with
  | Some l => loop l
  | None => mret []
  end.

(** [if 'k' in data: errors.extend(check(data['k']))] *)
Definition when_present (data : value) (k : string) (check : value → result (list msg))
  : result (list msg) :=
  b ← py_in k data;
  if b : bool then
    v ← py_getitem data k;
    check v
  else mret [].

(** ** cross_reference_validator.py *)

Module CrossReferenceValidator.

Definition _load_yaml_file (fs : filesystem) (file_path : string) : result value :=
  match safe_load fs file_path with
  | Raise FileNotFoundError => Raise FileNotFoundError
  | Raise YAMLError => Raise ValueError
  | r => r
  end.

(** The loops that fill a set with the values of [field] that pass
    [keep]: [if group_name: names.add(group_name)] and
    [if param_id is not None: ids.add(param_id)]. *)
Fixpoint collect (field : string) (keep : value → bool) (items : list value)
    (acc : gset key) : result (gset key) :=
  match items with
  | [] => mret acc
  | it :: rest =>
      v ← py_get it field VNone;
      if keep v then
        h ← py_hash v;
        collect field keep rest ({[ h ]} ∪ acc)
      else collect field keep rest acc
  end.

Definition is_not_none (v : value) : bool :=
  match v with
  | VAtom ANone => false
  | _ => true
  end.

Definition collect_section (data : value) (k field : string) (keep : value → bool)
  : result (gset key) :=
  items ← section_items data k;
  match items with
  | Some l => collect field keep l ∅
  | None => mret ∅
  end.

Definition _validate_parameter_to_protocol_refs (parameters_data protocols_data : value)
  : result (list msg) :=
  protocol_group_names ← collect_section protocols_data "protocol_groups" "group_name" truthy;
  in_section parameters_data "parameters" (for_each (λ param,
    field_name ← py_get param "field_name" (VStr "Unknown");
    protocol_ref ← py_get param "protocol_reference" VNone;
    if truthy protocol_ref then
      h ← py_hash protocol_ref;
      if bool_decide (h ∉ protocol_group_names)
      then mret [NonExistentGroup field_name protocol_ref]
      else mret []
    else mret [])).

Definition _validate_protocol_to_parameter_refs (parameters_data protocols_data : value)
  : result (list msg) :=
  parameter_names ← collect_section parameters_data "parameters" "field_name" truthy;
  in_section protocols_data "protocol_groups" (for_each (λ group,
    group_name ← py_get group "group_name" (VStr "Unknown");
    param_ref ← py_get group "parameter_reference" VNone;
    if truthy param_ref then
      h ← py_hash param_ref;
      if bool_decide (h ∉ parameter_names)
      then mret [NonExistentParameter group_name param_ref]
      else mret []
    else mret [])).

(** One of the four foreign-key loops:
    [if ref is not None and ref not in ids: errors.append(...)]. *)
Definition check_refs (ids : gset key) (field : string) (report : nat → value → msg)
    (items : list value) : result (list msg) :=
  for_enumerate (λ i record,
    ref ← py_get record field VNone;
    if is_not_none ref then
      h ← py_hash ref;
      if bool_decide (h ∉ ids)
      then mret [report (i + 1)%nat ref]
      else mret []
    else mret []) 0%nat items.

Definition _validate_internal_parameter_refs (parameters_data : value) : result (list msg) :=
  parameter_ids ← collect_section parameters_data "parameters" "id" is_not_none;
  e1 ← in_section parameters_data "breadcrumb_fields"
         (check_refs parameter_ids "parameter_id" BreadcrumbRef);
  e2 ← in_section parameters_data "vg5_fields"
         (check_refs parameter_ids "parameter_id" Vg5Ref);
  e3 ← in_section parameters_data "abbr_metrics"
         (check_refs parameter_ids "parameter_id" AbbrMetricRef);
  mret (e1 ++ e2 ++ e3).

Definition _validate_internal_protocol_refs (protocols_data : value) : result (list msg) :=
  group_ids ← collect_section protocols_data "protocol_groups" "id" is_not_none;
  in_section protocols_data "protocols" (check_refs group_ids "group_id" ProtocolRef).

(** The body of the [try] of [validate_cross_references], on the two
    loaded documents. *)
Definition cross_references_checks (parameters_data protocols_data : value)
  : result (list msg) :=
  e1 ← _validate_parameter_to_protocol_refs parameters_data protocols_data;
  e2 ← _validate_protocol_to_parameter_refs parameters_data protocols_data;
  e3 ← _validate_internal_parameter_refs parameters_data;
  e4 ← _validate_internal_protocol_refs protocols_data;
  mret (e1 ++ e2 ++ e3 ++ e4).

Definition validate_cross_references (fs : filesystem) (parameters_file protocols_file : string)
  : bool * list msg :=
  match
    parameters_data ← _load_yaml_file fs parameters_file;
    protocols_data ← _load_yaml_file fs protocols_file;
    cross_references_checks parameters_data protocols_data
  with
  | Ok errors => verdict CrossReferencePassed errors
  | Raise e => (false, [CrossReferenceError e])
  end.

(** The loops that build [param_to_protocol] and [protocol_to_param]:
    [if name and ref: d[name] = ref]. *)
Fixpoint build_refs (name_field ref_field : string) (items : list value) (d : pydict)
  : result pydict :=
  match items with
  | [] => mret d
  | it :: rest =>
      name ← py_get it name_field VNone;
      ref ← py_get it ref_field VNone;
      if truthy name && truthy ref then
        k ← py_hashable name;
        build_refs name_field ref_field rest (dict_set d k ref)
      else build_refs name_field ref_field rest d
  end.

Definition build_refs_section (data : value) (k name_field ref_field : string)
  : result pydict :=
  items ← section_items data k;
  match items with
  | Some l => build_refs name_field ref_field l []
  | None => mret []
  end.

(** [for param_name, protocol_name in param_to_protocol.items(): ...] *)
Definition check_parameters (protocol_to_param : pydict) (param_to_protocol : pydict)
  : result (list msg) :=
  for_each (λ '(param_name, protocol_name),
    h ← py_hash protocol_name;
    match dict_find protocol_to_param h with
    | Some expected_param =>
        if negb (py_eq param_name expected_param)
        then mret [Inconsistent (VAtom param_name) protocol_name expected_param]
        else mret []
    | None => mret [GroupDoesNotExist (VAtom param_name) protocol_name]
    end) param_to_protocol.

(** [for protocol_name, param_name in protocol_to_param.items(): ...] *)
Definition check_groups (param_to_protocol : pydict) (protocol_to_param : pydict)
  : result (list msg) :=
  for_each (λ '(protocol_name, param_name),
    h ← py_hash param_name;
    match dict_find param_to_protocol h with
    | None => mret [ParameterDoesNotExist (VAtom protocol_name) param_name]
    | Some protocol =>
        if negb (py_eq protocol_name protocol)
        then mret [DifferentProtocol (VAtom protocol_name) param_name]
        else mret []
    end) protocol_to_param.

(** The body of the [try] of [validate_bidirectional_consistency], on
    the two loaded documents. *)
Definition bidirectional_checks (parameters_data protocols_data : value)
  : result (list msg) :=
  param_to_protocol ←
    build_refs_section parameters_data "parameters" "field_name" "protocol_reference";
  protocol_to_param ←
    build_refs_section protocols_data "protocol_groups" "group_name" "parameter_reference";
  e1 ← check_parameters protocol_to_param param_to_protocol;
  e2 ← check_groups param_to_protocol protocol_to_param;
  mret (e1 ++ e2).

Definition validate_bidirectional_consistency (fs : filesystem)
    (parameters_file protocols_file : string) : bool * list msg :=
  match
    parameters_data ← _load_yaml_file fs parameters_file;
    protocols_data ← _load_yaml_file fs protocols_file;
    bidirectional_checks parameters_data protocols_data
  with
  | Ok errors => verdict BidirectionalPassed errors
  | Raise e => (false, [BidirectionalError e])
  end.

(** What [get_reference_summary] returns: the six counts and the two
    maps, or the dictionary with the single ['error'] entry. *)
Record reference_summary := {
  parameter_count : nat;
  protocol_group_count : nat;
  protocol_count : nat;
  breadcrumb_count : nat;
  vg5_count : nat;
  abbr_metrics_count : nat;
  parameter_to_protocol_refs : pydict;
  protocol_to_parameter_refs : pydict
}.

Inductive summary_outcome :=
| Summary (s : reference_summary)
| ErrorGeneratingSummary (e : exn)   (** "Error generating summary: {e}" *).

(** [len(data.get(k, []))] *)
Definition count (data : value) (k : string) : result nat :=
  section ← py_get data k (VList []);
  py_len section.

Definition get_reference_summary (fs : filesystem) (parameters_file protocols_file : string)
  : summary_outcome :=
  match
    parameters_data ← _load_yaml_file fs parameters_file;
    protocols_data ← _load_yaml_file fs protocols_file;
    n1 ← count parameters_data "parameters";
    n2 ← count protocols_data "protocol_groups";
    n3 ← count protocols_data "protocols";
    n4 ← count parameters_data "breadcrumb_fields";
    n5 ← count parameters_data "vg5_fields";
    n6 ← count parameters_data "abbr_metrics";
    param_to_protocol ←
      build_refs_section parameters_data "parameters" "field_name" "protocol_reference";
    protocol_to_param ←
      build_refs_section protocols_data "protocol_groups" "group_name" "parameter_reference";
    mret {| parameter_count := n1; protocol_group_count := n2; protocol_count := n3;
            breadcrumb_count := n4; vg5_count := n5; abbr_metrics_count := n6;
            parameter_to_protocol_refs := param_to_protocol;
            protocol_to_parameter_refs := protocol_to_param |}
  with
  | Ok s => Summary s
  | Raise e => ErrorGeneratingSummary e
  end.

End CrossReferenceValidator.

(** ** custom_validator.py *)

Module CustomValidator.

Definition valid_protocol_standards : list string := ["J1939"; "J1587"; "J1979"].

Definition valid_reasons : list string :=
  ["ELD Mandate"; "Driver Performance"; "Driver Scorecard"; "Safety";
   "Engine Insight"; "Value add for customer"; "Safety_Monitoring"].

(** [v in strings], a list scan with [==]. *)
Definition in_strings (v : value) (strings : list string) : bool :=
  existsb (λ s, is_str s v) strings.

(** *** Character classes and the three regular expressions *)

Definition between (lo hi : nat) (c : ascii) : bool :=
  Nat.leb lo (nat_of_ascii c) && Nat.leb (nat_of_ascii c) hi.

Definition is_lower : ascii → bool := between 97 122.   (* [a-z] *)
Definition is_upper : ascii → bool := between 65 90.    (* [A-Z] *)
Definition is_09 : ascii → bool := between 48 57.       (* [0-9] *)
Definition is_hex (c : ascii) : bool := is_09 c || between 65 70 c.  (* [0-9A-F] *)
Definition is_underscore (c : ascii) : bool := Nat.eqb (nat_of_ascii c) 95.
Definition is_newline (c : ascii) : bool := Nat.eqb (nat_of_ascii c) 10.

(** [re.match('^...$', text)]: [$] matches at the end of the text and
    also just before a newline that ends it. *)
Definition anchored (body : list ascii → bool) (text : string) : bool :=
  let l := String.list_ascii_of_string text in
  body l ||
  match rev l with
  | c :: before => is_newline c && body (rev before)
  | [] => false
  end.

(** [[a-z][a-z0-9_]*[a-z0-9]] *)
Definition snake_case_body (l : list ascii) : bool :=
  match l with
  | first :: rest =>
      is_lower first &&
      match rev rest with
      | last :: middle =>
          (is_lower last || is_09 last) &&
          forallb (λ c, is_lower c || is_09 c || is_underscore c) middle
      | [] => false
      end
  | [] => false
  end.

(** [[A-Z]{2,6}] *)
Definition abbreviation_body (l : list ascii) : bool :=
  Nat.leb 2 (length l) && Nat.leb (length l) 6 && forallb is_upper l.

Fixpoint drop_hex (l : list ascii) : list ascii :=
  match l with
  | c :: rest => if is_hex c then drop_hex rest else l
  | [] => []
  end.

(** [0x[0-9A-F]+], returning what follows the digits. *)
Definition hex_literal (l : list ascii) : option (list ascii) :=
  match l with
  | z :: x :: d :: rest =>
      if Nat.eqb (nat_of_ascii z) 48 && Nat.eqb (nat_of_ascii x) 120 && is_hex d
      then Some (drop_hex rest)
      else None
  | _ => None
  end.

(** [0x[0-9A-F]+(/0x[0-9A-F]+)?] *)
Definition j1979_body (l : list ascii) : bool :=
  match hex_literal l with
  | Some [] => true
  | Some (slash :: second) =>
      Nat.eqb (nat_of_ascii slash) 47 &&
      match hex_literal second with
      | Some [] => true
      | _ => false
      end
  | None => false
  end.

(** [re.match] raises [TypeError] on anything but a string. *)
Definition re_match (body : list ascii → bool) (text : value) : result bool :=
  match text with
  | VAtom (AStr s) => Ok (anchored body s)
  | _ => Raise TypeError
  end.

Definition _is_valid_snake_case := re_match snake_case_body.
Definition _is_valid_abbreviation := re_match abbreviation_body.
Definition _is_valid_j1979_pid := re_match j1979_body.

(** [text.isdigit()]: every character is a digit and there is at least
    one; below code point 256 the digits are 0-9 and the superscripts
    one, two and three. *)
Definition is_digit_char (c : ascii) : bool :=
  is_09 c || Nat.eqb (nat_of_ascii c) 178 || Nat.eqb (nat_of_ascii c) 179
  || Nat.eqb (nat_of_ascii c) 185.

Definition isdigit (text : value) : result bool :=
  match text with
  | VAtom (AStr s) =>
      let l := String.list_ascii_of_string s in
      Ok (negb (bool_decide (l = [])) && forallb is_digit_char l)
  | _ => Raise AttributeError
  end.

(** [text.endswith(suffix)] *)
Definition py_endswith (text : value) (suffix : string) : result bool :=
  match text with
  | VAtom (AStr s) => Ok (endswith s suffix)
  | _ => Raise AttributeError
  end.

(** *** Duplicate detection with a running set *)

Fixpoint check_duplicates (field : string) (report : value → msg) (items : list value)
    (seen : gset key) : result (list msg) :=
  match items with
  | [] => mret []
  | it :: rest =>
      v ← py_get it field VNone;
      h ← py_hash v;
      if bool_decide (h ∈ seen) then
        es ← check_duplicates field report rest seen;
        mret (report v :: es)
      else check_duplicates field report rest ({[ h ]} ∪ seen)
  end.

Definition _check_duplicate_parameter_ids (parameters : value) : result (list msg) :=
  items ← py_iter parameters;
  check_duplicates "id" DuplicateParameterId items ∅.

Definition _check_duplicate_parameter_names (parameters : value) : result (list msg) :=
  items ← py_iter parameters;
  check_duplicates "field_name" DuplicateParameterName items ∅.

Definition _check_duplicate_group_ids (protocol_groups : value) : result (list msg) :=
  items ← py_iter protocol_groups;
  check_duplicates "id" DuplicateGroupId items ∅.

Definition _check_duplicate_group_names (protocol_groups : value) : result (list msg) :=
  items ← py_iter protocol_groups;
  check_duplicates "group_name" DuplicateGroupName items ∅.

(** [errors.append(m)] under [if value and not ok(value)]. *)
Definition unless_valid (v : value) (ok : value → result bool) (m : msg) : result (list msg) :=
  if truthy v then
    b ← ok v;
    mret (if b : bool then [] else [m])
  else mret [].

Definition _validate_single_parameter (param : value) (param_num : nat) : result (list msg) :=
  field_name ← py_get param "field_name" (VStr ("Parameter " +:+ pretty param_num));
  protobuf_field ← py_get param "protobuf_field" (VStr "");
  e1 ← unless_valid protobuf_field _is_valid_snake_case (NotSnakeCase field_name);
  reason_added ← py_get param "reason_added" (VStr "");
  e2 ← unless_valid reason_added (λ v, mret (in_strings v valid_reasons))
         (InvalidReason field_name reason_added);
  protocol_ref ← py_get param "protocol_reference" (VStr "");
  e3 ← unless_valid protocol_ref (λ v, py_endswith v "_protocols")
         (BadProtocolReference field_name);
  mret (e1 ++ e2 ++ e3).

Definition _validate_single_protocol (protocol : value) (protocol_num : nat)
  : result (list msg) :=
  standard ← py_get protocol "protocol_standard" (VStr "");
  e1 ← unless_valid standard (λ v, mret (in_strings v valid_protocol_standards))
         (InvalidStandard protocol_num standard);
  abbr ← py_get protocol "abbr" (VStr "");
  e2 ← unless_valid abbr _is_valid_abbreviation (BadProtocolAbbr protocol_num abbr);
  e3 ← (if is_str "J1939" standard then
          pgn_pid ← py_get protocol "pgn_pid" (VStr "");
          unless_valid pgn_pid isdigit (BadJ1939Pgn protocol_num)
        else if is_str "J1979" standard then
          pgn_pid ← py_get protocol "pgn_pid" (VStr "");
          unless_valid pgn_pid _is_valid_j1979_pid (BadJ1979Pid protocol_num)
        else mret []);
  mret (e1 ++ e2 ++ e3).

(** *** URL rules; [urlparse] is the standard library's *)

Record parse_result := { scheme : string; netloc : string; path : string }.

Section Urls.
Variable urlparse : value → result parse_result.

Definition http_or_https (parsed : parse_result) : bool :=
  bool_decide (scheme parsed ∈ ["http"; "https"]).

(** [try: parsed = urlparse(url); return rule(parsed)
     except: return False] *)
Definition url_rule (rule : parse_result → bool) (url : value) : result bool :=
  match urlparse url with
  | Ok parsed => Ok (rule parsed)
  | Raise _ => Ok false
  end.

Definition _is_valid_motive_docs_url :=
  url_rule (λ parsed,
    http_or_https parsed && str_contains "docs.motive.com" (netloc parsed)).

Definition _is_valid_vg5_url :=
  url_rule (λ parsed,
    http_or_https parsed && str_contains "docs.motive.com" (netloc parsed)
    && str_contains "/vg5/" (path parsed)).

Definition _is_valid_abbr_url :=
  url_rule (λ parsed,
    http_or_https parsed && str_contains "docs.motive.com" (netloc parsed)
    && str_contains "/abbr/" (path parsed)).

Definition _is_valid_metrics_url :=
  url_rule (λ parsed,
    http_or_https parsed && str_contains "redash.motive.com" (netloc parsed)).

Definition _validate_breadcrumb_fields (breadcrumb_fields : value) : result (list msg) :=
  items ← py_iter breadcrumb_fields;
  for_enumerate (λ i breadcrumb,
    link ← py_get breadcrumb "breadcrumb_link" (VStr "");
    unless_valid link _is_valid_motive_docs_url (BadBreadcrumbLink (i + 1)%nat))
    0%nat items.

Definition _validate_vg5_fields (vg5_fields : value) : result (list msg) :=
  items ← py_iter vg5_fields;
  for_enumerate (λ i vg5,
    link ← py_get vg5 "vg5_link" (VStr "");
    unless_valid link _is_valid_vg5_url (BadVg5Link (i + 1)%nat))
    0%nat items.

Definition _validate_abbr_metrics (abbr_metrics : value) : result (list msg) :=
  items ← py_iter abbr_metrics;
  for_enumerate (λ i abbr,
    abbr_value ← py_get abbr "abbr_value" (VStr "");
    e1 ← unless_valid abbr_value _is_valid_abbreviation
           (BadAbbrValue (i + 1)%nat abbr_value);
    abbr_link ← py_get abbr "abbr_link" (VStr "");
    e2 ← unless_valid abbr_link _is_valid_abbr_url (BadAbbrLink (i + 1)%nat);
    metrics_link ← py_get abbr "metrics_link" (VStr "");
    e3 ← unless_valid metrics_link _is_valid_metrics_url (BadMetricsLink (i + 1)%nat);
    mret (e1 ++ e2 ++ e3))
    0%nat items.

(** The three checks made on [data['parameters']]. *)
Definition parameters_rules (parameters : value) : result (list msg) :=
  e1 ← _check_duplicate_parameter_ids parameters;
  e2 ← _check_duplicate_parameter_names parameters;
  items ← py_iter parameters;
  e3 ← for_enumerate (λ i param, _validate_single_parameter param (i + 1)%nat)
         0%nat items;
  mret (e1 ++ e2 ++ e3).

(** The body of the [try] of [validate_parameters_business_logic],
    after the load. *)
Definition parameters_checks (data : value) : result (list msg) :=
  e1 ← when_present data "parameters" parameters_rules;
  e2 ← when_present data "breadcrumb_fields" _validate_breadcrumb_fields;
  e3 ← when_present data "vg5_fields" _validate_vg5_fields;
  e4 ← when_present data "abbr_metrics" _validate_abbr_metrics;
  mret (e1 ++ e2 ++ e3 ++ e4).

Definition validate_parameters_business_logic (fs : filesystem) (yaml_file_path : string)
  : bool * list msg :=
  match data ← safe_load fs yaml_file_path; parameters_checks data with
  | Ok errors => verdict CustomValidationPassed errors
  | Raise e => (false, [CustomValidationError e])
  end.

End Urls.

Definition groups_rules (protocol_groups : value) : result (list msg) :=
  e1 ← _check_duplicate_group_ids protocol_groups;
  e2 ← _check_duplicate_group_names protocol_groups;
  mret (e1 ++ e2).

Definition protocols_rules (protocols : value) : result (list msg) :=
  items ← py_iter protocols;
  for_enumerate (λ i protocol, _validate_single_protocol protocol (i + 1)%nat)
    0%nat items.

Definition protocols_checks (data : value) : result (list msg) :=
  e1 ← when_present data "protocol_groups" groups_rules;
  e2 ← when_present data "protocols" protocols_rules;
  mret (e1 ++ e2).

Definition validate_protocols_business_logic (fs : filesystem) (yaml_file_path : string)
  : bool * list msg :=
  match data ← safe_load fs yaml_file_path; protocols_checks data with
  | Ok errors => verdict CustomValidationPassed errors
  | Raise e => (false, [CustomValidationError e])
  end.

End CustomValidator.

(** ** json_validator.py *)

Module JSONSchemaValidator.

Section Schemas.
(** The two schema documents loaded by the constructor, and
    [Draft7Validator(schema).iter_errors(data)] of the jsonschema
    library, which may itself raise. *)
Variable schema : Type.
Variable iter_errors : schema → value → result (list schema_error).
Variables parameters_schema protocols_schema : schema.

Definition _validate_data (data : value) (sch : schema) (data_type : string)
  : bool * list msg :=
  match iter_errors sch data with
  | Ok [] => (true, [ValidationSuccessful])
  | Ok errors => (false, map (SchemaViolation data_type) errors)
  | Raise e => (false, [SchemaValidationFailed e])
  end.

(** The [try] around the load, with its three [except] clauses. *)
Definition validate_file (fs : filesystem) (yaml_file_path : string) (sch : schema)
    (data_type : string) : bool * list msg :=
  match safe_load fs yaml_file_path with
  | Ok yaml_data => _validate_data yaml_data sch data_type
  | Raise YAMLError => (false, [YamlParsingError])
  | Raise FileNotFoundError => (false, [FileNotFound yaml_file_path])
  | Raise e => (false, [ValidationFailure e])
  end.

Definition validate_parameters_file (fs : filesystem) (yaml_file_path : string) :=
  validate_file fs yaml_file_path parameters_schema "parameters".

Definition validate_protocols_file (fs : filesystem) (yaml_file_path : string) :=
  validate_file fs yaml_file_path protocols_schema "protocols".

Definition validate_new_parameter_data (parameter_data : value) : bool * list msg :=
  _validate_data parameter_data parameters_schema "parameter".

Definition validate_new_protocol_data (protocol_data : value) : bool * list msg :=
  _validate_data protocol_data protocols_schema "protocol".

End Schemas.

End JSONSchemaValidator.

(** ** Messages of the data-entry code

    The messages of [validate_new_parameter_data] and
    [validate_new_protocol_data] of main_validator.py and of the two
    [add_new_..._with_validation] functions of app.py; a message taken over
    from a validator is kept as it is. *)

Inductive note :=
| Reported (m : msg)
| NewParameterDataPassed          (** "New parameter data validation passed" *)
| NewProtocolDataPassed           (** "New protocol data validation passed" *)
| ParameterIdExists (id : value)  (** "Parameter ID {param['id']} already exists" *)
| ParameterNameExists (field_name : value)
    (** "Parameter name '{param['field_name']}' already exists" *)
| ParameterAdded
    (** "Parameter added successfully and database regenerated" *)
| ErrorAddingParameter (e : exn)  (** "Error adding parameter: {e}" *)
| GroupIdExists (id : value)      (** "Protocol group ID {group['id']} already exists" *)
| GroupNameExists (group_name : value)
    (** "Protocol group name '{group['group_name']}' already exists" *)
| ProtocolAdded
    (** "Protocol added successfully and database regenerated" *)
| ErrorAddingProtocol (e : exn)   (** "Error adding protocol: {e}" *).

(** ** main_validator.py *)

Module MainValidator.

Inductive status := passed | failed.

(** The dictionary a stage returns.  The [file_existence] entry has no
    ['warnings'] key, hence the option; ['details'] is never read back. *)
Record step := {
  step_status : status;
  step_errors : list msg;
  step_warnings : option (list msg);
  step_details : list (string * (bool * list msg))
}.

Record summary_t := {
  total_steps : nat;
  passed_steps : nat;
  failed_steps : nat;
  all_passed : bool;
  step_results : list (string * status)
}.

(** The [results] dictionary.  [summary] is [None] while it is still the
    empty dictionary it is created with; [validation_duration_seconds]
    is [None] while the key has not been set.  The timestamp is the clock
    reading itself and the duration a difference of readings. *)
Record report := {
  validation_timestamp : Z;
  files_validated : string * string;
  overall_valid : bool;
  validation_steps : list (string * step);
  summary : option summary_t;
  errors : list msg;
  warnings : list msg;
  validation_duration_seconds : option Z
}.

(** [datetime.now()]: successive calls read successive values of the
    wall clock. *)
Record clock := { readings : nat → Z; reads : nat }.

Definition now (c : clock) : Z * clock :=
  (readings c (reads c), {| readings := readings c; reads := S (reads c) |}).

(** What [get_validation_status] returns. *)
Record quick_status := {
  qs_overall_valid : bool;
  error_count : nat;
  warning_count : nat;
  qs_validation_timestamp : Z;
  duration_seconds : Z
}.

Definition _check_file_existence (fs : filesystem) (parameters_file protocols_file : string)
  : bool :=
  let params_exist := exists_ fs parameters_file in
  let protocols_exist := exists_ fs protocols_file in
  params_exist && protocols_exist.

(** The tail shared by the three stage runners: the stage fails when
    either call is invalid and then carries the messages of the invalid
    calls. *)
Definition stage (name1 name2 : string) (r1 r2 : bool * list msg) : step :=
  let '(valid1, messages1) := r1 in
  let '(valid2, messages2) := r2 in
  {| step_status := if negb valid1 || negb valid2 then failed else passed;
     step_errors :=
       if negb valid1 || negb valid2
       then (if negb valid1 then messages1 else []) ++
            (if negb valid2 then messages2 else [])
       else [];
     step_warnings := Some [];
     step_details := [(name1, (valid1, messages1)); (name2, (valid2, messages2))] |}.

Definition _generate_summary (validation_steps : list (string * step)) : summary_t :=
  fold_left (λ summary '(step_name, step_results_),
    match step_status step_results_ with
    | passed =>
        {| total_steps := total_steps summary;
           passed_steps := passed_steps summary + 1;
           failed_steps := failed_steps summary;
           all_passed := all_passed summary;
           step_results := step_results summary ++ [(step_name, passed)] |}
    | failed =>
        {| total_steps := total_steps summary;
           passed_steps := passed_steps summary;
           failed_steps := failed_steps summary + 1;
           all_passed := false;
           step_results := step_results summary ++ [(step_name, failed)] |}
    end)
    validation_steps
    {| total_steps := length validation_steps;
       passed_steps := 0;
       failed_steps := 0;
       all_passed := true;
       step_results := [] |}.

(** [for step in steps: if failed: errors.extend(step.get('errors', []))] *)
Definition collect_errors (validation_steps : list (string * step)) : list msg :=
  flat_map (λ '(_, s),
    match step_status s with
    | failed => step_errors s
    | passed => []
    end) validation_steps.

(** [for step in steps: warnings.extend(step.get('warnings', []))] *)
Definition collect_warnings (validation_steps : list (string * step)) : list msg :=
  flat_map (λ '(_, s), default [] (step_warnings s)) validation_steps.

Section Validators.
Variable schema : Type.
Variable iter_errors : schema → value → result (list schema_error).
Variables parameters_schema protocols_schema : schema.
Variable urlparse : value → result CustomValidator.parse_result.

Definition _run_json_schema_validation (fs : filesystem)
    (parameters_file protocols_file : string) : step :=
  stage "parameters" "protocols"
    (JSONSchemaValidator.validate_parameters_file schema iter_errors parameters_schema
       fs parameters_file)
    (JSONSchemaValidator.validate_protocols_file schema iter_errors protocols_schema
       fs protocols_file).

Definition _run_custom_validation (fs : filesystem)
    (parameters_file protocols_file : string) : step :=
  stage "parameters_custom" "protocols_custom"
    (CustomValidator.validate_parameters_business_logic urlparse fs parameters_file)
    (CustomValidator.validate_protocols_business_logic fs protocols_file).

Definition _run_cross_reference_validation (fs : filesystem)
    (parameters_file protocols_file : string) : step :=
  stage "cross_references" "bidirectional_consistency"
    (CrossReferenceValidator.validate_cross_references fs parameters_file protocols_file)
    (CrossReferenceValidator.validate_bidirectional_consistency fs parameters_file
       protocols_file).

Definition validate_all (fs : filesystem) (parameters_file protocols_file : string)
    (c : clock) : report * clock :=
  let '(validation_start, c) := now c in
  let files_exist := _check_file_existence fs parameters_file protocols_file in
  if negb files_exist then
    ({| validation_timestamp := validation_start;
        files_validated := (parameters_file, protocols_file);
        overall_valid := false;
        validation_steps :=
          [("file_existence",
            {| step_status := failed;
               step_errors := [RequiredFilesMissing];
               step_warnings := None;
               step_details := [] |})];
        summary := None;
        errors := [RequiredFilesMissing];
        warnings := [];
        validation_duration_seconds := None |}, c)
  else
    let schema_results := _run_json_schema_validation fs parameters_file protocols_file in
    let custom_results := _run_custom_validation fs parameters_file protocols_file in
    let cross_ref_results :=
      _run_cross_reference_validation fs parameters_file protocols_file in
    let steps :=
      [("json_schema", schema_results);
       ("custom_logic", custom_results);
       ("cross_references", cross_ref_results)] in
    let summary_ := _generate_summary steps in
    let '(validation_end, c) := now c in
    ({| validation_timestamp := validation_start;
        files_validated := (parameters_file, protocols_file);
        overall_valid := all_passed summary_;
        validation_steps := steps;
        summary := Some summary_;
        errors := collect_errors steps;
        warnings := collect_warnings steps;
        validation_duration_seconds := Some (validation_end - validation_start) |}, c).

(** [results['validation_duration_seconds']] raises [KeyError] when the
    key was never set. *)
Definition get_validation_status (fs : filesystem) (parameters_file protocols_file : string)
    (c : clock) : result quick_status * clock :=
  let '(results, c) := validate_all fs parameters_file protocols_file c in
  (match validation_duration_seconds results with
   | Some duration =>
       Ok {| qs_overall_valid := overall_valid results;
             error_count := length (errors results);
             warning_count := length (warnings results);
             qs_validation_timestamp := validation_timestamp results;
             duration_seconds := duration |}
   | None => Raise KeyError
   end, c).

(** The body shared by [validate_new_parameter_data] and
    [validate_new_protocol_data]: the schema check is the only one made. *)
Definition validate_new_data (json_result : bool * list msg) (passed : note)
  : bool * list note :=
  let '(json_valid, json_messages) := json_result in
  let errors := if negb json_valid then map Reported json_messages else [] in
  (bool_decide (length errors = 0%nat),
   match errors with
   | [] => [passed]
   | _ :: _ => errors
   end).

Definition validate_new_parameter_data (new_parameter_data : value) : bool * list note :=
  validate_new_data
    (JSONSchemaValidator.validate_new_parameter_data schema iter_errors parameters_schema
       new_parameter_data)
    NewParameterDataPassed.

Definition validate_new_protocol_data (new_protocol_data : value) : bool * list note :=
  validate_new_data
    (JSONSchemaValidator.validate_new_protocol_data schema iter_errors protocols_schema
       new_protocol_data)
    NewProtocolDataPassed.

End Validators.

End MainValidator.

(** ** database_generator.py

    The SQLite engine is not part of the repository.  What the generator
    relies on is modelled here: how Python values are bound to statement
    parameters, the type affinity of the declared columns, the
    [INTEGER PRIMARY KEY], [UNIQUE NOT NULL] and [AUTOINCREMENT] rules of
    [_create_tables], and what the [sqlite3] module commits.  Foreign keys
    are declared but not enforced (the generator never turns the pragma
    on).  The [created_at] columns, filled by their default, are left
    out. *)

Module DatabaseGenerator.

(** A value bound to a [?] placeholder. *)
Inductive bound :=
| BNull
| BInteger (z : Z)
| BText (s : string).

(** A stored value; a REAL is [mantissa * 2 ^ exponent]. *)
Inductive sqlval :=
| SNull
| SInteger (z : Z)
| SReal (mantissa exponent : Z)
| SText (s : string).

#[global] Instance sqlval_eq_dec : EqDecision sqlval.
Proof. solve_decision. Defined.

Inductive affinity := INTEGER | TEXT.

(** A row: its rowid (the [id] column) and the other columns in the order
    of the INSERT statement. *)
Record row := { row_id : Z; cells : list sqlval }.

Definition table := list row.

(** The connection: the six tables, rows in insertion order. *)
Record database := {
  parameters : table;
  breadcrumb_fields : table;
  vg5_fields : table;
  abbr_metrics : table;
  protocol_groups : table;
  protocols : table
}.

Inductive outcome :=
| Created (output_path : string)   (** "Database created successfully: {path}" *)
| GenerationFailed (e : exn)       (** "Database generation failed: {e}" *).

(** The sqlite3 module binds [None], [int] (and [bool]) and [str];
    integers must fit 64 bits; sequences and mappings are refused, with
    [InterfaceError] up to Python 3.10 and [ProgrammingError] since. *)
Definition bind_value (v : value) : result bound :=
  match v with
  | VAtom ANone => Ok BNull
  | VAtom (ABool b) => Ok (BInteger (if b then 1 else 0))
  | VAtom (AInt z) =>
      if bool_decide (- 2 ^ 63 ≤ z < 2 ^ 63) then Ok (BInteger z) else Raise OverflowError
  | VAtom (AStr s) => Ok (BText s)
  | _ => Raise InterfaceError
  end.

(** [tuple(record.get(c) for c in columns)], bound left to right. *)
Fixpoint bind_columns (record : value) (columns : list string) : result (list bound) :=
  match columns with
  | [] => mret []
  | c :: rest =>
      v ← py_get record c VNone;
      b ← bind_value v;
      bs ← bind_columns record rest;
      mret (b :: bs)
  end.

(** The columns of the six INSERT statements, without the [id] the two
    owning tables also receive, and the affinities [_create_tables]
    declares for them. *)
Definition parameters_columns : list string :=
  ["field_name"; "reserved_enum_val"; "description"; "unit"; "reason_added";
   "protobuf_field"; "protocol_reference"].
Definition parameters_affinities : list affinity :=
  [TEXT; INTEGER; TEXT; TEXT; TEXT; TEXT; TEXT].

Definition breadcrumb_columns : list string := ["parameter_id"; "breadcrumb_link"; "note"].
Definition breadcrumb_affinities : list affinity := [INTEGER; TEXT; TEXT].

Definition vg5_columns : list string := ["parameter_id"; "vg5_link"].
Definition vg5_affinities : list affinity := [INTEGER; TEXT].

Definition abbr_columns : list string :=
  ["parameter_id"; "abbr_value"; "abbr_link"; "metrics_link"].
Definition abbr_affinities : list affinity := [INTEGER; TEXT; TEXT; TEXT].

Definition groups_columns : list string :=
  ["group_name"; "description"; "parameter_reference"].
Definition groups_affinities : list affinity := [TEXT; TEXT; TEXT].

Definition protocols_columns : list string :=
  ["group_id"; "abbr"; "protocol_standard"; "pgn_pid"; "spn"; "precision";
   "spec_range"; "max_valid_val"; "units"; "description"; "states"].
Definition protocols_affinities : list affinity :=
  [INTEGER; TEXT; TEXT; TEXT; TEXT; TEXT; TEXT; TEXT; TEXT; TEXT; TEXT].

Section Engine.
(** What a column of INTEGER affinity stores for a text: an integer or
    a real when the text reads as one, the text itself otherwise. *)
Variable numeric_of_text : string → sqlval.

(** The rowids the engine draws at random for an insert into a table
    whose largest rowid is taken: at most a hundred, each between 1 and
    2^62. *)
Variable draws : table → list Z.

Definition store (a : affinity) (b : bound) : sqlval :=
  match a, b with
  | _, BNull => SNull
  | INTEGER, BInteger z => SInteger z
  | INTEGER, BText s => numeric_of_text s
  | TEXT, BInteger z => SText (pretty z)
  | TEXT, BText s => SText s
  end.

Fixpoint store_all (affinities : list affinity) (bs : list bound) : list sqlval :=
  match affinities, bs with
  | a :: affinities', b :: bs' => store a b :: store_all affinities' bs'
  | _, _ => []
  end.

(** The largest rowid in use, none in an empty table. *)
Definition largest_rowid (t : table) : option Z :=
  foldr (λ r m, Some (from_option (Z.max (row_id r)) (row_id r) m)) None t.

(** The rowid of a new row of a table declared [id INTEGER PRIMARY KEY]:
    the one supplied, which must be an unused integer, or one more than
    the largest in use (1 in an empty table).  When the largest possible
    rowid is in use the engine takes the first of its random draws that is
    not in use, and gives up with "database or disk is full" when there is
    none. *)
Definition assign_rowid (t : table) (supplied : sqlval) : result Z :=
  match supplied with
  | SNull =>
      match largest_rowid t with
      | None => Ok 1
      | Some largest =>
          if bool_decide (largest < 2 ^ 63 - 1) then Ok (largest + 1)
          else
            match filter (λ z, z ∉ map row_id t) (draws t) with
            | z :: _ => Ok z
            | [] => Raise OperationalError
            end
      end
  | SInteger z =>
      if bool_decide (z ∈ map row_id t) then Raise IntegrityError else Ok z
  | _ => Raise IntegrityError
  end.

(** The rowid of a new row of a table declared
    [id INTEGER PRIMARY KEY AUTOINCREMENT] when none is supplied: one more
    than the largest ever in use, which in a table nothing was deleted from
    is the largest in use.  There is no random draw: when the largest
    possible rowid is taken the insert fails. *)
Definition autoincrement_rowid (t : table) : result Z :=
  match largest_rowid t with
  | None => Ok 1
  | Some largest =>
      if bool_decide (largest < 2 ^ 63 - 1) then Ok (largest + 1)
      else Raise OperationalError
  end.

(** INSERT into a table declared
    [id INTEGER PRIMARY KEY, <name> VARCHAR UNIQUE NOT NULL, ...]:
    the first bound value is the id, the second the name. *)
Definition insert_owner (affinities : list affinity) (t : table) (bs : list bound)
  : result table :=
  match bs with
  | id :: others =>
      rowid ← assign_rowid t (store INTEGER id);
      let stored := store_all affinities others in
      match stored with
      | name :: _ =>
          if bool_decide (name = SNull) then Raise IntegrityError
          else if bool_decide (Some name ∈ map (λ r, head (cells r)) t)
               then Raise IntegrityError
               else Ok (t ++ [{| row_id := rowid; cells := stored |}])
      | [] => Raise InterfaceError
      end
  | [] => Raise InterfaceError
  end.

(** INSERT into a table declared [id INTEGER PRIMARY KEY AUTOINCREMENT, ...]
    without supplying the id. *)
Definition insert_dependent (affinities : list affinity) (t : table) (bs : list bound)
  : result table :=
  rowid ← autoincrement_rowid t;
  Ok (t ++ [{| row_id := rowid; cells := store_all affinities bs |}]).

(** [for record in items: cursor.execute(INSERT ..., (record.get(c), ...))] *)
Fixpoint insert_all (insert : table → list bound → result table) (columns : list string)
    (items : list value) (t : table) : result table :=
  match items with
  | [] => mret t
  | record :: rest =>
      bs ← bind_columns record columns;
      t' ← insert t bs;
      insert_all insert columns rest t'
  end.

(** [if 'k' in data: for record in data['k']: ...] *)
Definition insert_section (data : value) (k : string)
    (insert : table → list bound → result table) (columns : list string) (t : table)
  : result table :=
  items ← section_items data k;
  match items with
  | Some l => insert_all insert columns l t
  | None => mret t
  end.

Definition _create_tables : database :=
  {| parameters := []; breadcrumb_fields := []; vg5_fields := [];
     abbr_metrics := []; protocol_groups := []; protocols := [] |}.

Definition _insert_parameters_data (db : database) (data : value) : result database :=
  t1 ← insert_section data "parameters"
         (insert_owner parameters_affinities) ("id" :: parameters_columns)
         (parameters db);
  t2 ← insert_section data "breadcrumb_fields"
         (insert_dependent breadcrumb_affinities) breadcrumb_columns
         (breadcrumb_fields db);
  t3 ← insert_section data "vg5_fields"
         (insert_dependent vg5_affinities) vg5_columns
         (vg5_fields db);
  t4 ← insert_section data "abbr_metrics"
         (insert_dependent abbr_affinities) abbr_columns
         (abbr_metrics db);
  mret {| parameters := t1; breadcrumb_fields := t2; vg5_fields := t3;
          abbr_metrics := t4; protocol_groups := protocol_groups db;
          protocols := protocols db |}.

Definition _insert_protocols_data (db : database) (data : value) : result database :=
  t1 ← insert_section data "protocol_groups"
         (insert_owner groups_affinities) ("id" :: groups_columns)
         (protocol_groups db);
  t2 ← insert_section data "protocols"
         (insert_dependent protocols_affinities) protocols_columns
         (protocols db);
  mret {| parameters := parameters db; breadcrumb_fields := breadcrumb_fields db;
          vg5_fields := vg5_fields db; abbr_metrics := abbr_metrics db;
          protocol_groups := t1; protocols := t2 |}.

(** [artifact] is the database file at [output_path], none when there is
    no file; the function returns what it leaves there.  The path is
    taken to be none of the two YAML files, and creating the output
    directory, removing the previous file and opening the connection are
    taken to succeed.

    The two files are loaded first: when a load raises, the previous file
    has not been touched.  After that the previous file is gone.  Each
    CREATE TABLE is committed as it is executed, while the INSERTs run in
    one transaction that only [conn.commit()] makes durable: an exception
    in an insert leaves a database of six empty tables. *)
Definition generate_database (output_path : string) (fs : filesystem)
    (parameters_file protocols_file : string) (artifact : option database)
  : (bool * outcome) * option database :=
  match
    parameters_data ← safe_load fs parameters_file;
    protocols_data ← safe_load fs protocols_file;
    mret (parameters_data, protocols_data)
  with
  | Raise e => ((false, GenerationFailed e), artifact)
  | Ok (parameters_data, protocols_data) =>
      match
        db ← _insert_parameters_data _create_tables parameters_data;
        _insert_protocols_data db protocols_data
      with
      | Ok db => ((true, Created output_path), Some db)
      | Raise e => ((false, GenerationFailed e), Some _create_tables)
      end
  end.

End Engine.

End DatabaseGenerator.

(** ** cli/validate.py

    What the two modes of the command-line tool return as exit status.
    Printing is left out, except where the expression printed can raise. *)

Module Cli.
Import MainValidator.

(** The parsed arguments that the two modes read. *)
Record args := {
  parameters : string;
  protocols : string;
  verbose : bool;
  save_report : bool
}.

(** [print_concise_summary]: the keys it reads from the report. *)
Definition print_concise_summary (results : report) : result unit :=
  match summary results with
  | None => Raise KeyError                  (* summary['passed_steps'] *)
  | Some _ =>
      match validation_duration_seconds results with
      | None => Raise KeyError              (* results['validation_duration_seconds'] *)
      | Some _ => Ok tt
      end
  end.

Section Tool.
Variable schema : Type.
Variable iter_errors : schema → value → result (list schema_error).
Variables parameters_schema protocols_schema : schema.
Variable urlparse : value → result CustomValidator.parse_result.

Definition run_quick_validation (fs : filesystem) (a : args) (c : clock) : Z * clock :=
  let '(status, c) :=
    get_validation_status schema iter_errors parameters_schema protocols_schema urlparse
      fs (parameters a) (protocols a) c in
  (match status with
   | Ok status => if qs_overall_valid status then 0 else 1
   | Raise _ => 1
   end, c).

(** [save_validation_report] catches what it raises and its outcome is
    only printed; [validate_all] prints its own summary, from a complete
    report, when [verbose] is set. *)
Definition run_full_validation (fs : filesystem) (a : args) (c : clock) : Z * clock :=
  let '(results, c) :=
    validate_all schema iter_errors parameters_schema protocols_schema urlparse
      fs (parameters a) (protocols a) c in
  (match (if negb (verbose a) then print_concise_summary results else Ok tt) with
   | Ok _ => if overall_valid results then 0 else 1
   | Raise _ => 1
   end, c).

End Tool.

End Cli.

(** ** app.py: the data-entry functions

    Documents are taken to be free of YAML aliases, so that no list is
    shared between two places of a loaded document.  The constructor of
    [MainValidator], which every function calls first, has loaded the
    schemas.  The database file at [DATABASE_NAME] is carried next to the
    files. *)

Module App.
Import MainValidator DatabaseGenerator.

Definition DATABASE_NAME : string := "output/vehicle_params.db".

(** [[p[field] for p in existing_data.get(k, [])]] *)
Definition column (existing_data : value) (k field : string) : result (list value) :=
  section ← py_get existing_data k (VList []);
  items ← py_iter section;
  mapM (λ p, py_getitem p field) items.

(** The loop that looks each new record up in the existing ids and
    names, and returns at the first one found. *)
Fixpoint first_clash (id_field name_field : string) (id_exists name_exists : value → note)
    (existing_ids existing_names : list value) (items : list value) : result (option note) :=
  match items with
  | [] => mret None
  | record :: rest =>
      id ← py_getitem record id_field;
      if py_contains existing_ids id then mret (Some (id_exists id))
      else
        name ← py_getitem record name_field;
        if py_contains existing_names name then mret (Some (name_exists name))
        else first_clash id_field name_field id_exists name_exists
               existing_ids existing_names rest
  end.

(** [if k in new_data: existing_data.setdefault(k, []).extend(new_data[k])] *)
Definition extend_section (new_data : value) (existing_data : value) (k : string)
  : result value :=
  b ← py_in k new_data;
  if b : bool then
    match existing_data with
    | VDict entries =>
        match default (VList []) (assoc k entries) with
        | VList l =>
            addition ← py_getitem new_data k;
            items ← py_iter addition;
            mret (VDict (assign k (VList (l ++ items)) entries))
        | _ => Raise AttributeError
        end
    | _ => Raise AttributeError
    end
  else mret existing_data.

(** The steps after the schema check, shared by the two functions: the
    document to write, or the message of the first clash. *)
Definition merged (fs : filesystem) (file owners id_field name_field : string)
    (id_exists name_exists : value → note) (sections : list string) (new_data : value)
  : result (note + value) :=
  existing_data ← safe_load fs file;
  existing_ids ← column existing_data owners id_field;
  existing_names ← column existing_data owners name_field;
  section ← py_get new_data owners (VList []);
  items ← py_iter section;
  clash ← first_clash id_field name_field id_exists name_exists
            existing_ids existing_names items;
  match clash with
  | Some message => mret (inl message)
  | None =>
      updated ← in_turn (extend_section new_data) existing_data sections;
      mret (inr updated)
  end.

Section Service.
Variable schema : Type.
Variable iter_errors : schema → value → result (list schema_error).
Variables parameters_schema protocols_schema : schema.
Variable urlparse : value → result CustomValidator.parse_result.
Variable numeric_of_text : string → sqlval.
Variable draws : table → list Z.

(** [validate_all] raises nothing: the [except] clause is not reached. *)
Definition validate_yaml_files (fs : filesystem) (c : clock) : report * clock :=
  validate_all schema iter_errors parameters_schema protocols_schema urlparse
    fs "data/parameters.yaml" "data/protocols.yaml" c.

(** [artifact] is the database file at [DATABASE_NAME].  The outcome
    is printed, not returned; [generate_database] catches every exception
    of its own, so that the [except] clause is not reached. *)
Definition regenerate_database (fs : filesystem) (artifact : option database)
  : (bool * outcome) * option database :=
  generate_database numeric_of_text draws DATABASE_NAME fs
    "data/parameters.yaml" "data/protocols.yaml" artifact.

(** The functions return the pair of the source together with the files
    and the database file as they leave them. *)
Definition add_new_parameter_with_validation (fs : filesystem) (artifact : option database)
    (new_parameter_data : value) : (bool * list note) * (filesystem * option database) :=
  let '(is_valid, error_messages) :=
    validate_new_parameter_data schema iter_errors parameters_schema new_parameter_data in
  if negb is_valid then ((false, error_messages), (fs, artifact))
  else
    match
      merged fs "data/parameters.yaml" "parameters" "id" "field_name"
        ParameterIdExists ParameterNameExists
        ["parameters"; "breadcrumb_fields"; "vg5_fields"; "abbr_metrics"]
        new_parameter_data
    with
    | Ok (inl message) => ((false, [message]), (fs, artifact))
    | Ok (inr existing_data) =>
        let fs := write fs "data/parameters.yaml" existing_data in
        let artifact := (regenerate_database fs artifact).2 in
        ((true, [ParameterAdded]), (fs, artifact))
    | Raise e => ((false, [ErrorAddingParameter e]), (fs, artifact))
    end.

Definition add_new_protocol_with_validation (fs : filesystem) (artifact : option database)
    (new_protocol_data : value) : (bool * list note) * (filesystem * option database) :=
  let '(is_valid, error_messages) :=
    validate_new_protocol_data schema iter_errors protocols_schema new_protocol_data in
  if negb is_valid then ((false, error_messages), (fs, artifact))
  else
    match
      merged fs "data/protocols.yaml" "protocol_groups" "id" "group_name"
        GroupIdExists GroupNameExists
        ["protocol_groups"; "protocols"]
        new_protocol_data
    with
    | Ok (inl message) => ((false, [message]), (fs, artifact))
    | Ok (inr existing_data) =>
        let fs := write fs "data/protocols.yaml" existing_data in
        let artifact := (regenerate_database fs artifact).2 in
        ((true, [ProtocolAdded]), (fs, artifact))
    | Raise e => ((false, [ErrorAddingProtocol e]), (fs, artifact))
    end.

End Service.

End App.

(** ** .github/scripts/merge_pending_files.py

    The list of pending files is what [glob.glob] returned. *)

Module MergePendingFiles.

(** [if k in pending_data: main_data[k].extend(pending_data[k])] *)
Definition merge_section (pending_data : value) (main_data : value) (k : string)
  : result value :=
  b ← py_in k pending_data;
  if b : bool then
    target ← py_getitem main_data k;
    match main_data, target with
    | VDict entries, VList l =>
        addition ← py_getitem pending_data k;
        items ← py_iter addition;
        mret (VDict (assign k (VList (l ++ items)) entries))
    | _, _ => Raise AttributeError
    end
  else mret main_data.

(** The loop over the pending files: each one is loaded, merged into
    [main_data] and deleted.  An exception leaves the loop, and the
    script, with the files as they are at that point. *)
Fixpoint merge_files (sections : list string) (pending_files : list string)
    (fs : filesystem) (main_data : value) : result value * filesystem :=
  match pending_files with
  | [] => (Ok main_data, fs)
  | pending_file :: rest =>
      match
        pending_data ← safe_load fs pending_file;
        main_data ← in_turn (merge_section pending_data) main_data sections;
        fs ← os_remove fs pending_file;
        mret (main_data, fs)
      with
      | Ok (main_data, fs) => merge_files sections rest fs main_data
      | Raise e => (Raise e, fs)
      end
  end.

Definition merge_pending (file : string) (sections : list string)
    (pending_files : list string) (fs : filesystem) : result unit * filesystem :=
  match safe_load fs file with
  | Ok main_data =>
      match merge_files sections pending_files fs main_data with
      | (Ok main_data, fs) => (Ok tt, write fs file main_data)
      | (Raise e, fs) => (Raise e, fs)
      end
  | Raise e => (Raise e, fs)
  end.

Definition merge_pending_parameters :=
  merge_pending "data/parameters.yaml"
    ["parameters"; "breadcrumb_fields"; "vg5_fields"; "abbr_metrics"].

Definition merge_pending_protocols :=
  merge_pending "data/protocols.yaml" ["protocol_groups"; "protocols"].

End MergePendingFiles.

(** ** Sample documents and library instances

    The documents of the specification's scenarios and a few malformed
    ones, with instances of the external libraries that suffice to run the
    validators on them. *)

Module Sample.

(** A schema validator that finds nothing to report. *)
Definition iter_errors (_ : unit) (_ : value) : result (list schema_error) := Ok [].

(** A [urlparse] that splits nothing: no sample document carries a link. *)
Definition urlparse (_ : value) : result CustomValidator.parse_result :=
  Raise ValueError.

(** An engine that reads no text as a number. *)
Definition numeric_of_text (s : string) : DatabaseGenerator.sqlval :=
  DatabaseGenerator.SText s.

(** An engine whose random draws are 1, 2 and 3. *)
Definition draws (_ : DatabaseGenerator.table) : list Z := [1; 2; 3].

Definition wall_clock : MainValidator.clock :=
  {| MainValidator.readings := λ n, Z.of_nat n; MainValidator.reads := 0 |}.

Definition parameter (id : Z) (field_name protocol_reference : string) : value :=
  VDict [("id", VInt id); ("field_name", VStr field_name);
         ("reserved_enum_val", VInt 0);
         ("reason_added", VStr "ELD Mandate");
         ("protobuf_field", VStr "speed_engine_rpm");
         ("protocol_reference", VStr protocol_reference)].

Definition group (id : Z) (group_name parameter_reference : string) : value :=
  VDict [("id", VInt id); ("group_name", VStr group_name);
         ("parameter_reference", VStr parameter_reference)].

Definition parameters_doc (parameters breadcrumbs : list value) : value :=
  VDict [("parameters", VList parameters); ("breadcrumb_fields", VList breadcrumbs);
         ("vg5_fields", VList []); ("abbr_metrics", VList [])].

Definition protocols_doc (groups protocols : list value) : value :=
  VDict [("protocol_groups", VList groups); ("protocols", VList protocols)].

(** A disk with the two documents under their default paths. *)
Definition disk (parameters_doc protocols_doc : file) : filesystem :=
  λ p, if String.eqb p "data/parameters.yaml" then parameters_doc
       else if String.eqb p "data/protocols.yaml" then protocols_doc
       else NoFile.

Definition engine_speed := parameter 1 "Engine Speed" "ESPD_protocols".
Definition espd := group 1 "ESPD_protocols" "Engine Speed".

Definition espd_entry : value :=
  VDict [("group_id", VInt 1); ("abbr", VStr "ESPD");
         ("protocol_standard", VStr "J1939"); ("pgn_pid", VStr "61444")].

Definition breadcrumb (parameter_id : Z) : value :=
  VDict [("parameter_id", VInt parameter_id)].

(** Scenario A. *)
Definition scenario_a_parameters := parameters_doc [engine_speed] [breadcrumb 1].
Definition scenario_a_protocols := protocols_doc [espd] [espd_entry].
Definition scenario_a : filesystem :=
  disk (Yaml scenario_a_parameters) (Yaml scenario_a_protocols).

(** Scenario B: the group points at "Road Speed". *)
Definition scenario_b : filesystem :=
  disk (Yaml scenario_a_parameters) (Yaml (protocols_doc [group 1 "ESPD_protocols" "Road Speed"] [])).

(** Scenario C: a protocol entry with a lowercase abbreviation. *)
Definition lowercase_entry : value :=
  VDict [("group_id", VInt 1); ("abbr", VStr "espd");
         ("protocol_standard", VStr "J1939"); ("pgn_pid", VStr "61444")].
Definition scenario_c : filesystem :=
  disk (Yaml scenario_a_parameters) (Yaml (protocols_doc [espd] [lowercase_entry])).

(** Scenario D: a breadcrumb pointing at parameter 99. *)
Definition scenario_d_parameters :=
  parameters_doc [engine_speed] [breadcrumb 1; breadcrumb 99].
Definition scenario_d : filesystem :=
  disk (Yaml scenario_d_parameters) (Yaml scenario_a_protocols).

(** Two groups of the same name, the later one pointing back. *)
Definition road_speed_group := group 1 "ESPD_protocols" "Road Speed".
Definition shadowed_protocols := protocols_doc [road_speed_group; espd] [].
Definition shadowed_parameters := parameters_doc [engine_speed] [].
Definition shadowed_group : filesystem :=
  disk (Yaml shadowed_parameters) (Yaml shadowed_protocols).

(** A parameter that has a [protocol_reference] but no [field_name], next
    to the linked pair of scenario A. *)
Definition nameless_parameter : value :=
  VDict [("id", VInt 2); ("protocol_reference", VStr "ESPD_protocols")].
Definition nameless_parameter_doc := parameters_doc [nameless_parameter; engine_speed] [].
Definition with_nameless_parameter : filesystem :=
  disk (Yaml nameless_parameter_doc) (Yaml (protocols_doc [espd] [])).

(** A group that has a [parameter_reference] but no [group_name], next to
    the linked pair of scenario A. *)
Definition nameless_group : value :=
  VDict [("id", VInt 2); ("parameter_reference", VStr "Engine Speed")].
Definition nameless_group_doc := protocols_doc [nameless_group; espd] [].
Definition with_nameless_group : filesystem :=
  disk (Yaml shadowed_parameters) (Yaml nameless_group_doc).





(** Two parameters with the same [id]. *)
Definition road_speed := parameter 1 "Road Speed" "RSPD_protocols".

Definition duplicate_ids : filesystem :=
  disk (Yaml (parameters_doc [engine_speed; road_speed] []))
       (Yaml (protocols_doc [] [])).

(** The parameters document is missing. *)
Definition no_parameters : filesystem :=
  disk NoFile (Yaml (protocols_doc [espd] [])).



(** A breadcrumb pointing at parameter 99, followed by a record that is
    no mapping. *)
Definition torn_parameters := parameters_doc [engine_speed] [breadcrumb 99; VStr "oops"].
Definition torn_breadcrumbs : filesystem :=
  disk (Yaml torn_parameters) (Yaml scenario_a_protocols).

(** A breadcrumb without [parameter_id] in the documents of scenario A. *)
Definition orphan_breadcrumb : value := VDict [("note", VStr "orphan")].
Definition orphan_parameters := parameters_doc [engine_speed] [orphan_breadcrumb].
Definition orphan : filesystem :=
  disk (Yaml orphan_parameters) (Yaml scenario_a_protocols).




(** A protocol entry whose [pgn_pid] is written without quotes. *)
Definition unquoted_pgn_entry : value :=
  VDict [("group_id", VInt 1); ("abbr", VStr "ESPD");
         ("protocol_standard", VStr "J1939"); ("pgn_pid", VInt 61444)].
Definition unquoted_pgn : filesystem :=
  disk (Yaml scenario_a_parameters) (Yaml (protocols_doc [espd] [unquoted_pgn_entry])).

(** Additions to the files of scenario A: two parameters with the same
    [id]; a parameter that points at a group; a group that points at a
    parameter. *)
Definition oil_pressure : value :=
  VDict [("id", VInt 2); ("field_name", VStr "Oil Pressure")].
Definition oil_temperature : value :=
  VDict [("id", VInt 2); ("field_name", VStr "Oil Temperature")].
Definition twin_addition : value :=
  VDict [("parameters", VList [oil_pressure; oil_temperature])].

Definition linked_parameter := parameter 2 "Road Speed" "RSPD_protocols".
Definition linked_parameter_addition : value :=
  VDict [("parameters", VList [linked_parameter])].

Definition linked_group := group 2 "RSPD_protocols" "Road Speed".
Definition linked_group_addition : value :=
  VDict [("protocol_groups", VList [linked_group])].

(** A disk with two pending files next to the files of scenario A, the
    second of which is not YAML. *)
Definition pending_disk : filesystem :=
  λ p, if String.eqb p "data/pending_parameters/oil.yaml"
       then Yaml (VDict [("parameters", VList [oil_pressure])])
       else if String.eqb p "data/pending_parameters/torn.yaml" then BadYaml
       else scenario_a p.

End Sample.

(** * Vocabulary of the properties

    The notions in which the properties below are stated.  None of them is
    part of the program. *)

(** ** Records and their fields *)

(** The records of a top-level list, none when the key is absent. *)
Definition records (data : value) (k : string) : list value :=
  match section_items data k with
  | Ok (Some l) => l
  | _ => []
  end.

(** The field is absent from the record or holds the empty string. *)
Definition blank (entries : list (string * value)) (field : string) : Prop :=
  assoc field entries = None ∨ assoc field entries = Some (VStr "").

(** The message reports on the given rule-checked field. *)
Definition reports_on (field : string) (m : msg) : bool :=
  match m with
  | NotSnakeCase _ => String.eqb field "protobuf_field"
  | InvalidReason _ _ => String.eqb field "reason_added"
  | BadProtocolReference _ => String.eqb field "protocol_reference"
  | _ => false
  end.

(** The values of [field] across the records, when every record is a
    mapping and every value hashable. *)
Fixpoint hashable_fields (field : string) (items : list value) : result (list atom) :=
  match items with
  | [] => mret []
  | it :: rest =>
      v ← py_get it field VNone;
      a ← py_hashable v;
      others ← hashable_fields field rest;
      mret (a :: others)
  end.

(** How many times [h] occurs in [ks]. *)
Definition occurrences (h : key) (ks : list key) : nat :=
  length (filter (λ k, k = h) ks).


(** ** Link parsers *)


(** ** Names and links *)

(** The key under which a record is named: its name is a truthy scalar. *)
Definition name_key (field : string) (it : value) : option key :=
  match py_get it field VNone with
  | Ok (VAtom a) => if truthy (VAtom a) then Some (key_of a) else None
  | _ => None
  end.

Definition names_of (field : string) (items : list value) : list key :=
  omap (name_key field) items.

(** The entry a record contributes to the map of references: it has
    both a name and a reference. *)
Definition entry_of (name_field ref_field : string) (it : value) : option (atom * value) :=
  match py_get it name_field VNone, py_get it ref_field VNone with
  | Ok (VAtom a), Ok r =>
      if truthy (VAtom a) && truthy r then Some (a, r) else None
  | _, _ => None
  end.

(** The record has both fields, with truthy values. *)
Definition has_both (name_field ref_field : string) (it : value) : Prop :=
  ∃ a r, entry_of name_field ref_field it = Some (a, r).



(** ** Rows of the artifact *)

Section Rows.
Import DatabaseGenerator.

Variable numeric_of_text : string → sqlval.
Variable draws : table → list Z.

(** The row an owning table holds for a record: the columns after the id
    as the engine stores them, under the rowid the engine assigned for
    the stored id. *)
Definition owner_row (columns : list string) (affinities : list affinity)
    (record : value) (r : row) : Prop :=
  ∃ id others t,
    bind_columns record ("id" :: columns) = Ok (id :: others) ∧
    assign_rowid draws t (store numeric_of_text INTEGER id) = Ok (row_id r) ∧
    cells r = store_all numeric_of_text affinities others.

(** The row a dependent table holds for a record. *)
Definition dependent_row (columns : list string) (affinities : list affinity)
    (record : value) (r : row) : Prop :=
  ∃ bs, bind_columns record columns = Ok bs ∧
        cells r = store_all numeric_of_text affinities bs.


End Rows.

(** ** Steps of a run *)

#[global] Instance status_eq_dec : EqDecision MainValidator.status.
Proof. solve_decision. Defined.

(** ** Entries of the maps of references *)

(** The key a reference is looked up under. *)
Definition link (e : atom * value) : key :=
  match e.2 with
  | VAtom a => key_of a
  | _ => KNone
  end.

(** ** Texts *)

(** The text made of one line break. *)
Definition newline : string := String (ascii_of_nat 10) EmptyString.

(** The text holds no line break. *)
Definition one_line (s : string) : bool :=
  forallb (λ c, negb (CustomValidator.is_newline c)) (String.list_ascii_of_string s).

(** ** Records as the tables take them *)

(** The columns of the record can be bound: each is a scalar, an integer
    within 64 bits. *)
Definition bindable (columns : list string) (record : value) : Prop :=
  ∃ bs, DatabaseGenerator.bind_columns record columns = Ok bs.

(** A record of an owning list as the schemas describe it: its [id] is an
    integer within 64 bits, its name a text, and its other columns can be
    bound. *)
Definition typed_owner (name_field : string) (columns : list string) (record : value)
  : Prop :=
  (∃ z, py_get record "id" VNone = Ok (VInt z) ∧ - 2 ^ 63 ≤ z < 2 ^ 63) ∧
  (∃ s, py_get record name_field VNone = Ok (VStr s)) ∧
  bindable columns record.

(** * Properties *)

(** ** The scenarios of the specification *)

Example scenario_a_is_valid :
  let results :=
    (MainValidator.validate_all unit Sample.iter_errors tt tt Sample.urlparse
       Sample.scenario_a "data/parameters.yaml" "data/protocols.yaml" Sample.wall_clock).1 in
  MainValidator.overall_valid results = true ∧ MainValidator.errors results = [].
Proof. split; by vm_compute. Qed.

Example scenario_b_is_inconsistent :
  CrossReferenceValidator.validate_bidirectional_consistency Sample.scenario_b
    "data/parameters.yaml" "data/protocols.yaml"
  = (false,
     [Inconsistent (VStr "Engine Speed") (VStr "ESPD_protocols") (VStr "Road Speed");
      ParameterDoesNotExist (VStr "ESPD_protocols") (VStr "Road Speed")]).
Proof. by vm_compute. Qed.

Example scenario_c_is_rejected :
  CustomValidator.validate_protocols_business_logic Sample.scenario_c "data/protocols.yaml"
  = (false, [BadProtocolAbbr 1 (VStr "espd")]).
Proof. by vm_compute. Qed.

Example scenario_d_is_rejected :
  CrossReferenceValidator.validate_cross_references Sample.scenario_d
    "data/parameters.yaml" "data/protocols.yaml"
  = (false, [BreadcrumbRef 2 (VInt 99)]).
Proof. by vm_compute. Qed.

Example patterns :
  CustomValidator._is_valid_snake_case (VStr "speed_engine_rpm") = Ok true ∧
  CustomValidator._is_valid_snake_case (VStr "speed_") = Ok false ∧
  CustomValidator._is_valid_snake_case (VStr "s") = Ok false ∧
  CustomValidator._is_valid_snake_case (VInt 5) = Raise TypeError ∧
  CustomValidator._is_valid_abbreviation (VStr "ESPD") = Ok true ∧
  CustomValidator._is_valid_abbreviation (VStr "E") = Ok false ∧
  CustomValidator._is_valid_abbreviation (VStr "TOOLONG") = Ok false ∧
  CustomValidator._is_valid_j1979_pid (VStr "0x0C/0xF40C") = Ok true ∧
  CustomValidator._is_valid_j1979_pid (VStr "0x0C/") = Ok false ∧
  CustomValidator._is_valid_j1979_pid (VStr "0x0c") = Ok false ∧
  CustomValidator.py_endswith (VStr "ESPD_protocols") "_protocols" = Ok true ∧
  CustomValidator.isdigit (VStr "61444") = Ok true ∧
  CustomValidator.isdigit (VStr "0xF004") = Ok false.
Proof. repeat split; by vm_compute. Qed.

(** ** The exception monad *)

Lemma bind_Ok {A B} (r : result A) (k : A → result B) (b : B) :
  r ≫= k = Ok b ↔ ∃ a, r = Ok a ∧ k a = Ok b.
Proof.
  destruct r as [a|e]; simpl.
  - split; [eauto | by intros (? & [= <-] & ?)].
  - split; [done | by intros (? & ? & ?)].
Qed.

Lemma bind_Raise {A B} (r : result A) (k : A → result B) (e : exn) :
  r = Raise e → r ≫= k = Raise e.
Proof. by intros ->. Qed.

(** Splits a hypothesis [x ← r; k = Ok b] into its steps. *)
Ltac inv_bind H :=
  repeat match type of H with
    | mbind _ _ = Ok _ =>
        let a := fresh "a" in
        let Ha := fresh "H" a in
        apply bind_Ok in H as (a & Ha & H)
    | mret _ = Ok _ => injection H as H
    | Ok _ = Ok _ => injection H as H
    end.

Lemma verdict_valid (ok : msg) (errors : list msg) :
  (verdict ok errors).1 = true ↔ errors = [].
Proof. destruct errors; simpl; split; done. Qed.

Lemma verdict_invalid (ok : msg) (errors : list msg) :
  errors ≠ [] → verdict ok errors = (false, errors).
Proof. by destruct errors. Qed.

Lemma for_enumerate_lookup {A} (body : nat → A → result (list msg)) start l errs i x e :
  for_enumerate body start l = Ok errs →
  l !! i = Some x →
  body (start + i)%nat x = Ok e →
  e ⊆ errs.
Proof.
  revert start errs i. induction l as [|y l IH]; intros start errs i Hrun Hi He; [done|].
  simpl in Hrun. inv_bind Hrun. subst errs.
  destruct i as [|i]; simpl in Hi.
  - injection Hi as ->. rewrite Nat.add_0_r in He. rewrite He in Ha. injection Ha as ->.
    set_solver.
  - replace (start + S i)%nat with (S start + i)%nat in He by lia.
    specialize (IH _ _ _ Ha0 Hi He). set_solver.
Qed.

(** ** Rule validation of a single parameter *)

Import CustomValidator.

Lemma blank_falsy entries field :
  blank entries field → truthy (default (VStr "") (assoc field entries)) = false.
Proof. by intros [-> | ->]. Qed.

Lemma unless_valid_falsy v ok m : truthy v = false → unless_valid v ok m = Ok [].
Proof. unfold unless_valid. by intros ->. Qed.

Lemma unless_valid_Ok v ok m errs :
  unless_valid v ok m = Ok errs → errs = [] ∨ (errs = [m] ∧ truthy v = true).
Proof.
  unfold unless_valid. destruct (truthy v); [|intros [= <-]; by left].
  intros H. inv_bind H. destruct a; subst; eauto.
Qed.

(** Case analysis on membership in a list given by its elements. *)
Ltac elems H :=
  apply list_elem_of_In in H; simpl in H;
  repeat match type of H with
    | _ ∨ _ => destruct H as [H | H]
    | False => destruct H
    end; subst.

(** C9. A rule-checked field of a parameter record ([protobuf_field],
    [reason_added], [protocol_reference]) that is absent or the empty
    string draws no error from [_validate_single_parameter]; when all three
    are, the record has no error at all, and a document made of that one
    parameter (its [id] and [field_name] scalars or absent) passes
    [validate_parameters_business_logic]. *)
Theorem blank_fields_are_not_checked (entries : list (string * value)) (n : nat) :
  (∀ field errs m,
     field ∈ ["protobuf_field"; "reason_added"; "protocol_reference"] →
     blank entries field →
     _validate_single_parameter (VDict entries) n = Ok errs →
     m ∈ errs → reports_on field m = false) ∧
  ((∀ field, field ∈ ["protobuf_field"; "reason_added"; "protocol_reference"] →
             blank entries field) →
   _validate_single_parameter (VDict entries) n = Ok [] ∧
   ∀ urlparse fs path id name,
     py_get (VDict entries) "id" VNone = Ok (VAtom id) →
     py_get (VDict entries) "field_name" VNone = Ok (VAtom name) →
     fs path = Yaml (VDict [("parameters", VList [VDict entries])]) →
     validate_parameters_business_logic urlparse fs path = (true, [CustomValidationPassed])).
Proof.
  split.
  - intros field errs m Hfield Hblank Hrun Hm.
    apply blank_falsy in Hblank.
    unfold _validate_single_parameter in Hrun. simpl in Hrun. inv_bind Hrun. subst errs.
    apply unless_valid_Ok in Ha, Ha0, Ha1.
    apply list_elem_of_In in Hfield. simpl in Hfield.
    destruct Hfield as [<- | [<- | [<- | []]]].
    + rewrite Hblank in Ha.
      destruct Ha as [-> | [_ ?]]; [|done].
      destruct Ha0 as [-> | [-> _]], Ha1 as [-> | [-> _]]; elems Hm; done.
    + rewrite Hblank in Ha0.
      destruct Ha0 as [-> | [_ ?]]; [|done].
      destruct Ha as [-> | [-> _]], Ha1 as [-> | [-> _]]; elems Hm; done.
    + rewrite Hblank in Ha1.
      destruct Ha1 as [-> | [_ ?]]; [|done].
      destruct Ha as [-> | [-> _]], Ha0 as [-> | [-> _]]; elems Hm; done.
  - intros Hblank.
    assert (∀ n', _validate_single_parameter (VDict entries) n' = Ok []) as Hany.
    { intros n'. unfold _validate_single_parameter. simpl.
      rewrite !unless_valid_falsy; [done | apply blank_falsy, Hblank ..];
        apply list_elem_of_In; simpl; auto. }
    split; [done|].
    intros urlparse fs path id name [= Hid] [= Hname] Hfile.
    unfold validate_parameters_business_logic, safe_load. rewrite Hfile.
    cbn -[_validate_single_parameter]. rewrite Hany, Hid, Hname. done.
Qed.

(** ** The orchestrator *)

Section Orchestrator.
Import MainValidator.

Variable schema : Type.
Variable iter_errors : schema → value → result (list schema_error).
Variables parameters_schema protocols_schema : schema.
Variable urlparse : value → result CustomValidator.parse_result.

Local Abbreviation validate_all :=
  (validate_all schema iter_errors parameters_schema protocols_schema urlparse).
Local Abbreviation get_validation_status :=
  (get_validation_status schema iter_errors parameters_schema protocols_schema urlparse).
Local Abbreviation _run_json_schema_validation :=
  (_run_json_schema_validation schema iter_errors parameters_schema protocols_schema).
Local Abbreviation _run_custom_validation := (_run_custom_validation urlparse).

(** C2. When both source files exist, the report of [validate_all] holds
    the results of the three stages, schema, business rules and
    cross-references, in that order, each computed from the files
    whatever the outcome of the others; when one of the files is missing,
    the report is the one built at the early return: the failed
    [file_existence] step alone, no summary and the single error. *)
Theorem only_missing_files_short_circuit (fs : filesystem)
    (parameters_file protocols_file : string) (c : clock) :
  let results := (validate_all fs parameters_file protocols_file c).1 in
  (exists_ fs parameters_file = true ∧ exists_ fs protocols_file = true →
   validation_steps results =
     [("json_schema", _run_json_schema_validation fs parameters_file protocols_file);
      ("custom_logic", _run_custom_validation fs parameters_file protocols_file);
      ("cross_references",
       _run_cross_reference_validation fs parameters_file protocols_file)]) ∧
  (exists_ fs parameters_file = false ∨ exists_ fs protocols_file = false →
   validation_steps results =
     [("file_existence",
       {| step_status := failed; step_errors := [RequiredFilesMissing];
          step_warnings := None; step_details := [] |})] ∧
   overall_valid results = false ∧
   errors results = [RequiredFilesMissing] ∧
   warnings results = [] ∧
   summary results = None ∧
   validation_duration_seconds results = None).
Proof.
  unfold MainValidator.validate_all, _check_file_existence. simpl.
  split.
  - intros [-> ->]. done.
  - intros [-> | ->]; [done|].
    rewrite andb_false_r. done.
Qed.

(** C8. Two successive runs of [validate_all] on the same files, the
    second starting from the clock the first one left, agree on
    [overall_valid], on the error and warning lists, on the stage results
    and on the summary; only the timestamp and the duration depend on the
    clock. *)
Theorem validation_is_repeatable (fs : filesystem)
    (parameters_file protocols_file : string) (c : clock) :
  let first := validate_all fs parameters_file protocols_file c in
  let second := validate_all fs parameters_file protocols_file first.2 in
  overall_valid first.1 = overall_valid second.1 ∧
  errors first.1 = errors second.1 ∧
  warnings first.1 = warnings second.1 ∧
  validation_steps first.1 = validation_steps second.1 ∧
  summary first.1 = summary second.1 ∧
  files_validated first.1 = files_validated second.1.
Proof.
  unfold MainValidator.validate_all. simpl.
  destruct (_check_file_existence fs parameters_file protocols_file); simpl; done.
Qed.

(** C5, on the code as it is.  When a source file is missing,
    [validate_all] returns the report of its early return, which has no
    [validation_duration_seconds] and an empty summary, and
    [get_validation_status] raises [KeyError] on it. *)
Theorem status_of_missing_files_raises (fs : filesystem)
    (parameters_file protocols_file : string) (c : clock) :
  exists_ fs parameters_file = false ∨ exists_ fs protocols_file = false →
  validation_duration_seconds (validate_all fs parameters_file protocols_file c).1 = None ∧
  summary (validate_all fs parameters_file protocols_file c).1 = None ∧
  (get_validation_status fs parameters_file protocols_file c).1 = Raise KeyError.
Proof.
  intros Hmissing.
  assert (_check_file_existence fs parameters_file protocols_file = false) as Hcheck.
  { unfold _check_file_existence. destruct Hmissing as [-> | ->]; [done|].
    apply andb_false_r. }
  unfold MainValidator.get_validation_status, MainValidator.validate_all. simpl.
  rewrite Hcheck. done.
Qed.

End Orchestrator.

(** ** Exceptions inside a validator *)





Section Isolation.
Import MainValidator CustomValidator CrossReferenceValidator.

Variable schema : Type.
Variable iter_errors : schema → value → result (list schema_error).
Variables parameters_schema protocols_schema : schema.
Variable urlparse : value → result parse_result.



End Isolation.


(** ** Duplicate detection *)

Lemma occurrences_cons h k ks :
  occurrences h (k :: ks) = ((if decide (k = h) then 1 else 0) + occurrences h ks)%nat.
Proof. unfold occurrences. rewrite filter_cons. by destruct (decide (k = h)). Qed.

Lemma occurrences_lookup h ks i : ks !! i = Some h → (1 ≤ occurrences h ks)%nat.
Proof.
  revert i. induction ks as [|k ks IH]; intros [|i] Hi; simplify_eq/=;
    rewrite occurrences_cons.
  - rewrite decide_True by done. lia.
  - specialize (IH _ Hi). lia.
Qed.

Lemma occurrences_twice h ks i j :
  i ≠ j → ks !! i = Some h → ks !! j = Some h → (2 ≤ occurrences h ks)%nat.
Proof.
  revert i j. induction ks as [|k ks IH]; intros [|i] [|j] Hne Hi Hj; simplify_eq/=;
    rewrite occurrences_cons.
  - rewrite decide_True by done. pose proof (occurrences_lookup _ _ _ Hj). lia.
  - rewrite decide_True by done. pose proof (occurrences_lookup _ _ _ Hi). lia.
  - assert (i ≠ j) as Hne' by congruence. specialize (IH _ _ Hne' Hi Hj). lia.
Qed.

Lemma py_hash_Ok v h : py_hash v = Ok h → ∃ a, v = VAtom a ∧ h = key_of a.
Proof. destruct v; simpl; intros [= <-]; eauto. Qed.

Lemma hashable_fields_lookup field items values i r :
  hashable_fields field items = Ok values →
  items !! i = Some r →
  ∃ a, values !! i = Some a ∧ py_get r field VNone = Ok (VAtom a).
Proof.
  revert values i. induction items as [|it items IH]; intros values i Hv Hi; [done|].
  simpl in Hv. inv_bind Hv. subst values.
  destruct a as [a| |]; simplify_eq/=.
  destruct i as [|i]; simplify_eq/=; eauto.
Qed.

Section Duplicates.
Import CustomValidator.

Variable field : string.
Variable report : value → msg.

(** The errors of the loop, for any set of values seen before it starts. *)
Lemma check_duplicates_counts items seen errs :
  check_duplicates field report items seen = Ok errs →
  ∃ values dups,
    hashable_fields field items = Ok values ∧
    errs = (report ∘ VAtom) <$> dups ∧
    sublist dups values ∧
    ∀ h, occurrences h (key_of <$> dups) =
         if decide (h ∈ seen) then occurrences h (key_of <$> values)
         else pred (occurrences h (key_of <$> values)).
Proof.
  revert seen errs. induction items as [|it items IH]; intros seen errs Hrun.
  { injection Hrun as <-. exists [], []. repeat split; [constructor|].
    intros h. by destruct (decide (h ∈ seen)). }
  simpl in Hrun. inv_bind Hrun.
  apply py_hash_Ok in Ha0 as (v & -> & ->).
  destruct (bool_decide_reflect (key_of v ∈ seen)) as [Hseen|Hseen].
  - inv_bind Hrun. subst errs.
    destruct (IH _ _ Ha0) as (values & dups & Hvalues & -> & Hsub & Hcount).
    exists (v :: values), (v :: dups). simpl. rewrite Ha, Hvalues. simpl.
    repeat split; [by constructor|].
    intros h. rewrite ?fmap_cons, !occurrences_cons, Hcount.
    destruct (decide (h ∈ seen)); [done|].
    rewrite decide_False by (intros <-; done). done.
  - destruct (IH _ _ Hrun) as (values & dups & Hvalues & -> & Hsub & Hcount).
    exists (v :: values), dups. simpl. rewrite Ha, Hvalues. simpl.
    repeat split; [by constructor|].
    intros h. rewrite ?fmap_cons, !occurrences_cons, Hcount.
    destruct (decide (key_of v = h)) as [<-|Hne].
    + rewrite decide_True by (by apply elem_of_union_l, elem_of_singleton).
      rewrite decide_False by done. done.
    + destruct (decide (h ∈ seen)).
      * rewrite decide_True by (by apply elem_of_union_r). done.
      * rewrite decide_False; [done|].
        rewrite elem_of_union, elem_of_singleton. intros [?|?]; congruence.
Qed.


(** Two records that carry the same value leave at least one error. *)
Lemma check_duplicates_nonempty items errs i j ri rj a b :
  check_duplicates field report items ∅ = Ok errs →
  i ≠ j → items !! i = Some ri → items !! j = Some rj →
  py_get ri field VNone = Ok (VAtom a) →
  py_get rj field VNone = Ok (VAtom b) →
  key_of a = key_of b →
  errs ≠ [].
Proof.
  intros Hrun Hne Hi Hj Ha Hb Hab.
  destruct (check_duplicates_counts _ _ _ Hrun) as (values & dups & Hvalues & -> & _ & Hcount).
  destruct (hashable_fields_lookup _ _ _ _ _ Hvalues Hi) as (a' & Hia & Ha').
  destruct (hashable_fields_lookup _ _ _ _ _ Hvalues Hj) as (b' & Hjb & Hb').
  rewrite Ha in Ha'. injection Ha' as <-. rewrite Hb in Hb'. injection Hb' as <-.
  specialize (Hcount (key_of a)). rewrite decide_False in Hcount by apply not_elem_of_empty.
  assert (2 ≤ occurrences (key_of a) (key_of <$> values))%nat as Htwice.
  { apply (occurrences_twice _ _ i j); [done | |]; rewrite list_lookup_fmap.
    - by rewrite Hia.
    - rewrite Hjb. simpl. by rewrite Hab. }
  destruct dups; [|done]. simpl in Hcount. unfold occurrences in Hcount at 1.
  simpl in Hcount. lia.
Qed.

End Duplicates.

Lemma when_present_found entries k v check :
  assoc k entries = Some v → when_present (VDict entries) k check = check v.
Proof. unfold when_present. simpl. by intros ->. Qed.

Lemma when_present_missing entries k check :
  assoc k entries = None → when_present (VDict entries) k check = Ok [].
Proof. unfold when_present. simpl. by intros ->. Qed.




Section DuplicateRules.
Import CustomValidator.



End DuplicateRules.


(** ** Dangling foreign keys *)

Section ForeignKeys.
Import CrossReferenceValidator.

(** The set built by [collect] holds the initial elements and the hashes
    of the kept values, nothing else. *)
Lemma collect_spec field keep items acc s :
  collect field keep items acc = Ok s →
  ∀ h, h ∈ s ↔
       h ∈ acc ∨
       ∃ it v, it ∈ items ∧ py_get it field VNone = Ok v ∧ keep v = true
               ∧ py_hash v = Ok h.
Proof.
  revert acc s. induction items as [|it items IH]; intros acc s Hrun h.
  { injection Hrun as <-. split; [auto|]. intros [?|(? & ? & H & _)]; [done|].
    by apply elem_of_nil in H. }
  simpl in Hrun. inv_bind Hrun.
  destruct (keep a) eqn:Hkeep.
  - inv_bind Hrun. rewrite (IH _ _ Hrun h), elem_of_union, elem_of_singleton.
    split.
    + intros [[->|?]|(it' & v & Hin & ?)]; [right|left|right]; [|done|].
      * exists it, a. split; [apply list_elem_of_here|done].
      * exists it', v. split; [by apply list_elem_of_further|done].
    + intros [?|(it' & v & Hin & Hget & Hk & Hh)]; [auto|].
      apply elem_of_cons in Hin as [->|Hin].
      * rewrite Ha in Hget. injection Hget as <-. rewrite Ha0 in Hh.
        injection Hh as <-. auto.
      * right. eauto 8.
  - rewrite (IH _ _ Hrun h). split.
    + intros [?|(it' & v & Hin & ?)]; [auto|right].
      exists it', v. split; [by apply list_elem_of_further|done].
    + intros [?|(it' & v & Hin & Hget & Hk & Hh)]; [auto|].
      apply elem_of_cons in Hin as [->|Hin].
      * rewrite Ha in Hget. injection Hget as <-. congruence.
      * right. eauto 8.
Qed.

Lemma collect_section_spec data k field keep s :
  collect_section data k field keep = Ok s →
  ∀ h, h ∈ s ↔
       ∃ it v, it ∈ records data k ∧ py_get it field VNone = Ok v ∧ keep v = true
               ∧ py_hash v = Ok h.
Proof.
  unfold collect_section, records. intros Hrun h. inv_bind Hrun.
  rewrite Ha. destruct a as [l|].
  - rewrite (collect_spec _ _ _ _ _ Hrun h). split; [|auto].
    intros [H|?]; [|done]. by apply not_elem_of_empty in H.
  - injection Hrun as <-. split; [intros H; by apply not_elem_of_empty in H|].
    intros (? & ? & H & _). by apply elem_of_nil in H.
Qed.

(** A record whose reference is not null and matches no collected id is
    reported with its 1-based position. *)
Lemma check_refs_reports ids field report items errs i record ref :
  check_refs ids field report items = Ok errs →
  items !! i = Some record →
  py_get record field VNone = Ok (VAtom ref) →
  ref ≠ ANone →
  key_of ref ∉ ids →
  report (i + 1)%nat (VAtom ref) ∈ errs.
Proof.
  intros Hrun Hi Hget Hnone Hids.
  eapply (for_enumerate_lookup _ _ _ _ _ _ [report (i + 1)%nat (VAtom ref)] Hrun Hi);
    [|apply list_elem_of_here].
  simpl. rewrite Hget. simpl.
  destruct ref; [done|..]; simpl; by rewrite bool_decide_eq_true_2.
Qed.

Lemma in_section_records data k loop errs :
  in_section data k loop = Ok errs →
  records data k = [] ∧ errs = [] ∨ loop (records data k) = Ok errs.
Proof.
  unfold in_section, records. intros Hrun. inv_bind Hrun. rewrite Ha.
  destruct a; [by right|]. injection Hrun as <-. by left.
Qed.

(** C6, as the code has it.  Let the cross-reference checks run to
    completion on two loaded documents.  A breadcrumb field, VG5 field or abbreviation metric at
    position [i] (from 0) whose [parameter_id] is not null and is the
    [id] of no parameter, and a protocol entry whose [group_id] is not
    null and is the [id] of no protocol group, is reported by the
    message of its kind with position [i + 1] and the dangling id, and
    [validate_cross_references] returns invalid with the errors found.
    Validation is invalid for such a record even when the checks do not
    complete. *)
Theorem dangling_reference_is_reported (fs : filesystem)
    (parameters_file protocols_file : string) (parameters_data protocols_data : value)
    (section owners field : string) (report : nat → value → msg) (data : value)
    (i : nat) (record : value) (ref : atom) :
  (section, owners, field, report, data) ∈
    [("breadcrumb_fields", "parameters", "parameter_id", BreadcrumbRef,
      parameters_data);
     ("vg5_fields", "parameters", "parameter_id", Vg5Ref,
      parameters_data);
     ("abbr_metrics", "parameters", "parameter_id", AbbrMetricRef,
      parameters_data);
     ("protocols", "protocol_groups", "group_id", ProtocolRef,
      protocols_data)] →
  fs parameters_file = Yaml parameters_data →
  fs protocols_file = Yaml protocols_data →
  records data section !! i = Some record →
  py_get record field VNone = Ok (VAtom ref) →
  ref ≠ ANone →
  (∀ owner id, owner ∈ records data owners →
               py_get owner "id" VNone = Ok (VAtom id) → key_of id ≠ key_of ref) →
  (validate_cross_references fs parameters_file protocols_file).1 = false ∧
  ∀ errs, cross_references_checks parameters_data protocols_data = Ok errs →
          report (i + 1)%nat (VAtom ref) ∈ errs ∧
          validate_cross_references fs parameters_file protocols_file = (false, errs).
Proof.
  intros Hkind Hfile1 Hfile2 Hi Hget Hnone Hfresh.
  assert (∀ errs, cross_references_checks parameters_data protocols_data = Ok errs →
                  report (i + 1)%nat (VAtom ref) ∈ errs) as Hreported.
  { intros errs Hrun. unfold cross_references_checks in Hrun. inv_bind Hrun. subst errs.
    assert (∀ ids loop_errs,
              collect_section data owners "id" is_not_none = Ok ids →
              in_section data section (check_refs ids field report) = Ok loop_errs →
              report (i + 1)%nat (VAtom ref) ∈ loop_errs) as Hloop.
    { intros ids loop_errs Hids Hsection.
      apply in_section_records in Hsection as [[Hnil _]|Hsection].
      { by rewrite Hnil in Hi. }
      apply (check_refs_reports _ _ _ _ _ _ _ _ Hsection Hi Hget Hnone).
      rewrite (collect_section_spec _ _ _ _ _ Hids).
      intros (owner & v & Hin & Hid & _ & Hhash).
      apply py_hash_Ok in Hhash as (id & -> & Hkey).
      by apply (Hfresh owner id). }
    unfold _validate_internal_parameter_refs in Ha1. inv_bind Ha1.
    unfold _validate_internal_protocol_refs in Ha2. inv_bind Ha2.
    subst. rewrite !elem_of_app.
    elems Hkind; simplify_eq; eauto 10. }
  unfold validate_cross_references, _load_yaml_file, safe_load.
  rewrite Hfile1, Hfile2. simpl.
  destruct (cross_references_checks parameters_data protocols_data) as [errs|e] eqn:Hrun.
  - specialize (Hreported _ eq_refl).
    assert (errs ≠ []) as Hne by (intros ->; by apply elem_of_nil in Hreported).
    rewrite verdict_invalid by done. split; [done|].
    by intros ? [= <-].
  - split; [done|]. by intros ? [=].
Qed.

End ForeignKeys.

(** C6, as stated, fails.  In the first sample the first breadcrumb
    points at parameter 99, which no parameter has for [id]; the second
    breadcrumb is no mapping, reading it raises, and the validator returns
    the message of the exception: the first breadcrumb is not named.  In
    the second sample the breadcrumb has no [parameter_id]: it is the [id]
    of no parameter, and the validation passes. *)
Lemma faulting_record_hides_dangling_reference :
  (let outcome :=
     CrossReferenceValidator.validate_cross_references Sample.torn_breadcrumbs
       "data/parameters.yaml" "data/protocols.yaml" in
   records Sample.torn_parameters "parameters" = [Sample.engine_speed] ∧
   records Sample.torn_parameters "breadcrumb_fields" = [Sample.breadcrumb 99; VStr "oops"] ∧
   py_get Sample.engine_speed "id" VNone = Ok (VInt 1) ∧
   py_get (Sample.breadcrumb 99) "parameter_id" VNone = Ok (VInt 99) ∧
   outcome = (false, [CrossReferenceError AttributeError]) ∧
   BreadcrumbRef 1 (VInt 99) ∉ outcome.2) ∧
  (records Sample.orphan_parameters "parameters" = [Sample.engine_speed] ∧
   records Sample.orphan_parameters "breadcrumb_fields" = [Sample.orphan_breadcrumb] ∧
   py_get Sample.orphan_breadcrumb "parameter_id" VNone = Ok VNone ∧
   CrossReferenceValidator.validate_cross_references Sample.orphan
     "data/parameters.yaml" "data/protocols.yaml" = (true, [CrossReferencePassed])).
Proof.
  split; [|repeat split; by vm_compute].
  do 4 (split; [by vm_compute|]).
  assert (CrossReferenceValidator.validate_cross_references Sample.torn_breadcrumbs
            "data/parameters.yaml" "data/protocols.yaml"
          = (false, [CrossReferenceError AttributeError])) as -> by (by vm_compute).
  split; [done|]. simpl. intros H. elems H. done.
Qed.

(** ** Bidirectional consistency *)

Lemma for_each_nil {A} (body : A → result (list msg)) l x :
  for_each body l = Ok [] → x ∈ l → body x = Ok [].
Proof.
  induction l as [|y l IH]; intros Hrun Hx; [by apply elem_of_nil in Hx|].
  simpl in Hrun. inv_bind Hrun.
  apply app_eq_nil in Hrun as [-> ->].
  apply elem_of_cons in Hx as [->|Hx]; auto.
Qed.

Lemma for_each_elem {A} (body : A → result (list msg)) l errs x e :
  for_each body l = Ok errs → x ∈ l → body x = Ok e → e ⊆ errs.
Proof.
  revert errs. induction l as [|y l IH]; intros errs Hrun Hx He;
    [by apply elem_of_nil in Hx|].
  simpl in Hrun. inv_bind Hrun. subst errs.
  intros m Hm. apply elem_of_app.
  apply elem_of_cons in Hx as [->|Hx].
  - left. rewrite He in Ha. by injection Ha as <-.
  - right. by apply (IH _ Ha0 Hx He).
Qed.

Lemma for_each_origin {A} (body : A → result (list msg)) l errs m :
  for_each body l = Ok errs → m ∈ errs → ∃ x e, x ∈ l ∧ body x = Ok e ∧ m ∈ e.
Proof.
  revert errs. induction l as [|y l IH]; intros errs Hrun Hm.
  { injection Hrun as <-. by apply elem_of_nil in Hm. }
  simpl in Hrun. inv_bind Hrun. subst errs.
  apply elem_of_app in Hm as [Hm|Hm].
  - exists y, a. split; [apply list_elem_of_here|done].
  - destruct (IH _ Ha0 Hm) as (x & e & Hx & He & Hme).
    exists x, e. split; [by apply list_elem_of_further|done].
Qed.

(** Truth of a scalar depends on its identity as a key only. *)
Lemma truthy_key a b : key_of a = key_of b → truthy (VAtom a) = truthy (VAtom b).
Proof.
  destruct a as [|[]|?|?], b as [|[]|?|?]; simpl; intros [=]; subst; done.
Qed.

Lemma py_eq_true a v : py_eq a v = true ↔ ∃ b, v = VAtom b ∧ key_of a = key_of b.
Proof.
  destruct v as [b| |]; simpl.
  - rewrite bool_decide_eq_true. split; [eauto|]. by intros (? & [= <-] & ?).
  - split; [done|]. by intros (? & ? & _).
  - split; [done|]. by intros (? & ? & _).
Qed.

Lemma dict_find_elem d k r : dict_find d k = Some r → ∃ a, (a, r) ∈ d ∧ key_of a = k.
Proof.
  induction d as [|[a v] d IH]; simpl; [done|].
  destruct (bool_decide_reflect (key_of a = k)).
  - intros [= <-]. exists a. split; [apply list_elem_of_here|done].
  - intros (a' & ? & ?)%IH. exists a'. split; [by apply list_elem_of_further|done].
Qed.

Lemma dict_find_app_None d d' k :
  dict_find d k = None → dict_find (d ++ d') k = dict_find d' k.
Proof.
  induction d as [|[a v] d IH]; simpl; [done|].
  by destruct (bool_decide (key_of a = k)).
Qed.

Lemma dict_set_fresh d a v :
  dict_find d (key_of a) = None → dict_set d a v = d ++ [(a, v)].
Proof.
  induction d as [|[a' v'] d IH]; simpl; [done|].
  destruct (bool_decide (key_of a' = key_of a)); [done|].
  intros H. by rewrite IH.
Qed.

(** The key objects of an updated dictionary are the old ones and, at
    most, the new one. *)
Lemma dict_set_keys d a v a' v' :
  (a', v') ∈ dict_set d a v → a' = a ∨ ∃ old, (a', old) ∈ d.
Proof.
  induction d as [|[b w] d IH]; simpl.
  - intros [= -> ->]%list_elem_of_singleton. by left.
  - destruct (bool_decide (key_of b = key_of a)).
    + intros [[= -> ->]|?]%elem_of_cons; right.
      * exists w. apply list_elem_of_here.
      * exists v'. by apply list_elem_of_further.
    + intros [[= -> ->]|H]%elem_of_cons.
      * right. exists w. apply list_elem_of_here.
      * destruct (IH H) as [?|[old ?]]; [by left|right].
        exists old. by apply list_elem_of_further.
Qed.

Section References.
Import CrossReferenceValidator.

Variables name_field ref_field : string.

Lemma entry_of_Some it a r :
  entry_of name_field ref_field it = Some (a, r) ↔
  py_get it name_field VNone = Ok (VAtom a) ∧ truthy (VAtom a) = true ∧
  py_get it ref_field VNone = Ok r ∧ truthy r = true.
Proof.
  unfold entry_of.
  destruct (py_get it name_field VNone) as [[b| |]|];
    destruct (py_get it ref_field VNone) as [w|];
    try (split; [done|]; intros ([=] & _ & _ & _); done);
    try (split; [done|]; intros (_ & _ & [=] & _); done).
  destruct (truthy (VAtom b)) eqn:Hb, (truthy w) eqn:Hw;
    (split;
     [cbn [andb]; try done; by intros [= <- <-]
     |intros ([= <-] & ? & [= <-] & ?); cbn [andb]; congruence]).
Qed.

Lemma names_unique items it1 it2 k :
  NoDup (names_of name_field items) →
  it1 ∈ items → it2 ∈ items →
  name_key name_field it1 = Some k → name_key name_field it2 = Some k →
  it1 = it2.
Proof.
  unfold names_of. induction items as [|x items IH]; intros Hnodup H1 H2 Hk1 Hk2;
    [by apply elem_of_nil in H1|].
  simpl in Hnodup.
  assert (∀ it, it ∈ items → name_key name_field it = Some k →
                k ∈ omap (name_key name_field) items) as Hin.
  { intros it ? ?. apply list_elem_of_omap. eauto. }
  apply elem_of_cons in H1 as [->|H1], H2 as [->|H2]; [done|..].
  - rewrite Hk1 in Hnodup. apply NoDup_cons in Hnodup as [Hfresh _].
    destruct Hfresh. eauto.
  - rewrite Hk2 in Hnodup. apply NoDup_cons in Hnodup as [Hfresh _].
    destruct Hfresh. eauto.
  - apply IH; [|done..]. destruct (name_key name_field x); [|done].
    by apply NoDup_cons in Hnodup as [_ ?].
Qed.

(** With names that are pairwise different, no assignment overwrites an
    earlier one: the map is the list of the entries in document order. *)
Lemma build_refs_entries items d d' :
  build_refs name_field ref_field items d = Ok d' →
  NoDup (names_of name_field items) →
  (∀ k, k ∈ names_of name_field items → dict_find d k = None) →
  d' = d ++ omap (entry_of name_field ref_field) items.
Proof.
  revert d. induction items as [|it items IH]; intros d Hrun Hnodup Hfresh.
  { injection Hrun as <-. simpl. by rewrite app_nil_r. }
  simpl in Hrun. inv_bind Hrun. unfold names_of in *. simpl in *.
  unfold name_key, entry_of in *. rewrite Ha, Ha0 in *.
  destruct (truthy a) eqn:Hname; simpl in Hrun.
  - destruct (truthy a0) eqn:Href; simpl in Hrun.
    + inv_bind Hrun. destruct a as [b| |]; [|done..]. injection Ha1 as <-.
      rewrite Hname in *. simpl. apply NoDup_cons in Hnodup as [Hnew Hnodup].
      assert (dict_find d (key_of b) = None) as Hb
        by (apply Hfresh, list_elem_of_here).
      rewrite (IH _ Hrun Hnodup).
      * rewrite dict_set_fresh by done. by rewrite <-app_assoc.
      * intros k Hk. rewrite dict_set_fresh by done.
        rewrite dict_find_app_None by (by apply Hfresh, list_elem_of_further).
        simpl. rewrite bool_decide_eq_false_2; [done|]. by intros <-.
    + destruct a as [b| |].
      * rewrite Hname in *. simpl. apply NoDup_cons in Hnodup as [_ Hnodup].
        apply (IH _ Hrun Hnodup). intros k Hk. by apply Hfresh, list_elem_of_further.
      * apply (IH _ Hrun Hnodup), Hfresh.
      * apply (IH _ Hrun Hnodup), Hfresh.
  - destruct a as [b| |].
    + rewrite Hname in *. apply (IH _ Hrun Hnodup), Hfresh.
    + apply (IH _ Hrun Hnodup), Hfresh.
    + apply (IH _ Hrun Hnodup), Hfresh.
Qed.

(** Without any assumption: every key object of the map is the name of a
    record that has both a name and a reference. *)
Lemma build_refs_keys items d d' a r :
  build_refs name_field ref_field items d = Ok d' →
  (a, r) ∈ d' →
  (∃ old, (a, old) ∈ d) ∨
  ∃ it r', it ∈ items ∧ entry_of name_field ref_field it = Some (a, r').
Proof.
  revert d. induction items as [|it items IH]; intros d Hrun Hin.
  { injection Hrun as <-. eauto. }
  simpl in Hrun. inv_bind Hrun.
  assert ((∃ old, (a, old) ∈ d) ∨
          (∃ it' r', it' ∈ items ∧ entry_of name_field ref_field it' = Some (a, r')) →
          (∃ old, (a, old) ∈ d) ∨
          ∃ it' r', it' ∈ it :: items ∧ entry_of name_field ref_field it' = Some (a, r'))
    as Hweaken.
  { intros [?|(it' & r' & ? & ?)]; [by left|right].
    exists it', r'. split; [by apply list_elem_of_further|done]. }
  destruct (truthy a0 && truthy a1) eqn:Hboth.
  - inv_bind Hrun. destruct a0 as [b| |]; [|done..]. injection Ha2 as <-.
    destruct (IH _ Hrun Hin) as [[old Hold]|?]; [|auto].
    apply dict_set_keys in Hold as [->|?]; [|auto].
    right. exists it, a1. split; [apply list_elem_of_here|].
    apply entry_of_Some. by apply andb_true_iff in Hboth as [? ?].
  - apply Hweaken, (IH _ Hrun Hin).
Qed.

End References.


Section Bidirectional.
Import CrossReferenceValidator.

Lemma build_refs_section_records data k name_field ref_field d :
  build_refs_section data k name_field ref_field = Ok d →
  build_refs name_field ref_field (records data k) [] = Ok d.
Proof.
  unfold build_refs_section, records. intros Hrun. inv_bind Hrun. rewrite Ha.
  by destruct a.
Qed.

(** What a completed run of the checks has computed: the two maps and
    the errors of the two loops over them. *)
Lemma bidirectional_checks_Ok parameters_data protocols_data errs :
  bidirectional_checks parameters_data protocols_data = Ok errs →
  ∃ param_to_protocol protocol_to_param e1 e2,
    build_refs "field_name" "protocol_reference"
      (records parameters_data "parameters") [] = Ok param_to_protocol ∧
    build_refs "group_name" "parameter_reference"
      (records protocols_data "protocol_groups") [] = Ok protocol_to_param ∧
    check_parameters protocol_to_param param_to_protocol = Ok e1 ∧
    check_groups param_to_protocol protocol_to_param = Ok e2 ∧
    errs = e1 ++ e2.
Proof.
  unfold bidirectional_checks. intros Hrun. inv_bind Hrun.
  apply build_refs_section_records in Ha, Ha0. eauto 10.
Qed.

Lemma bidirectional_valid fs parameters_file protocols_file
    parameters_data protocols_data :
  fs parameters_file = Yaml parameters_data →
  fs protocols_file = Yaml protocols_data →
  (validate_bidirectional_consistency fs parameters_file protocols_file).1 = true →
  bidirectional_checks parameters_data protocols_data = Ok [].
Proof.
  unfold validate_bidirectional_consistency, _load_yaml_file, safe_load.
  intros -> ->. simpl.
  destruct (bidirectional_checks parameters_data protocols_data); [|done].
  by intros ->%verdict_valid.
Qed.

(** The map of a list with pairwise different names. *)
Lemma build_refs_unique name_field ref_field items d :
  build_refs name_field ref_field items [] = Ok d →
  NoDup (names_of name_field items) →
  d = omap (entry_of name_field ref_field) items.
Proof.
  intros Hrun Hnodup. by apply (build_refs_entries _ _ _ _ _ Hrun Hnodup).
Qed.

Lemma name_key_Some field it a :
  py_get it field VNone = Ok (VAtom a) → truthy (VAtom a) = true →
  name_key field it = Some (key_of a).
Proof. unfold name_key. by intros -> ->. Qed.

(** An entry found under a key in the map of a list with unique names
    comes from the record of that name. *)
Lemma unique_entry name_field ref_field items it a h r :
  NoDup (names_of name_field items) →
  it ∈ items →
  py_get it name_field VNone = Ok (VAtom a) → truthy (VAtom a) = true →
  key_of a = h →
  dict_find (omap (entry_of name_field ref_field) items) h = Some r →
  py_get it ref_field VNone = Ok r ∧ truthy r = true.
Proof.
  intros Hnodup Hit Hname Htruthy <- Hfind.
  apply dict_find_elem in Hfind as (a' & Hin & Hkey).
  apply list_elem_of_omap in Hin as (it' & Hit' & Hentry).
  apply entry_of_Some in Hentry as (Hname' & Htruthy' & Href & Hr).
  assert (it' = it) as ->; [|done].
  eapply (names_unique name_field items); [done..| |].
  - rewrite (name_key_Some _ _ _ Hname' Htruthy'). by rewrite Hkey.
  - by apply name_key_Some.
Qed.

(** C1, as the code has it.  Let no two parameters share a [field_name]
    and no two groups a [group_name], and let the bidirectional check
    return valid.  For a parameter [P] with a [field_name] and a
    [protocol_reference] and a group [G]: if [P.protocol_reference ==
    G.group_name] then [G.parameter_reference == P.field_name]; for a
    group [G] with a [group_name] and a [parameter_reference] and a
    parameter [P] with a [field_name]: if [G.parameter_reference ==
    P.field_name] then [P.protocol_reference == G.group_name]. *)
Theorem unique_names_close_the_cycle (fs : filesystem)
    (parameters_file protocols_file : string) (parameters_data protocols_data P G : value) :
  fs parameters_file = Yaml parameters_data →
  fs protocols_file = Yaml protocols_data →
  NoDup (names_of "field_name" (records parameters_data "parameters")) →
  NoDup (names_of "group_name" (records protocols_data "protocol_groups")) →
  P ∈ records parameters_data "parameters" →
  G ∈ records protocols_data "protocol_groups" →
  (validate_bidirectional_consistency fs parameters_file protocols_file).1 = true →
  (∀ field_name protocol_reference group_name parameter_reference,
     py_get P "field_name" VNone = Ok (VAtom field_name) →
     truthy (VAtom field_name) = true →
     py_get P "protocol_reference" VNone = Ok protocol_reference →
     truthy protocol_reference = true →
     py_get G "group_name" VNone = Ok (VAtom group_name) →
     py_get G "parameter_reference" VNone = Ok parameter_reference →
     py_eq group_name protocol_reference = true →
     py_eq field_name parameter_reference = true) ∧
  (∀ field_name protocol_reference group_name parameter_reference,
     py_get G "group_name" VNone = Ok (VAtom group_name) →
     truthy (VAtom group_name) = true →
     py_get G "parameter_reference" VNone = Ok parameter_reference →
     truthy parameter_reference = true →
     py_get P "field_name" VNone = Ok (VAtom field_name) →
     py_get P "protocol_reference" VNone = Ok protocol_reference →
     py_eq field_name parameter_reference = true →
     py_eq group_name protocol_reference = true).
Proof.
  intros Hfile1 Hfile2 Hparams Hgroups HP HG Hvalid.
  pose proof (bidirectional_valid _ _ _ _ _ Hfile1 Hfile2 Hvalid) as Hrun.
  apply bidirectional_checks_Ok in Hrun as (d1 & d2 & e1 & e2 & Hd1 & Hd2 & He1 & He2 & Hnil).
  symmetry in Hnil. apply app_eq_nil in Hnil as [-> ->].
  apply build_refs_unique in Hd1, Hd2; [|done..]. subst d1 d2.
  split.
  - intros f r n gr Hf Hft Hr Hrt Hn Hgr Heq.
    apply py_eq_true in Heq as (rb & -> & Hkey).
    assert ((f, VAtom rb) ∈
              omap (entry_of "field_name" "protocol_reference")
                (records parameters_data "parameters")) as Hentry.
    { apply list_elem_of_omap. exists P. split; [done|]. by apply entry_of_Some. }
    pose proof (for_each_nil _ _ _ He1 Hentry) as Hbody. simpl in Hbody.
    destruct (dict_find _ (key_of rb)) as [e|] eqn:Hfind; [|done].
    destruct (py_eq f e) eqn:Hfe; [|done].
    assert (truthy (VAtom n) = true) as Hnt by (by rewrite (truthy_key n rb)).
    destruct (unique_entry _ _ _ _ _ _ _ Hgroups HG Hn Hnt Hkey Hfind) as [Hgr' _].
    rewrite Hgr in Hgr'. by injection Hgr' as ->.
  - intros f r n gr Hn Hnt Hgr Hgrt Hf Hr Heq.
    apply py_eq_true in Heq as (gb & -> & Hkey).
    assert ((n, VAtom gb) ∈
              omap (entry_of "group_name" "parameter_reference")
                (records protocols_data "protocol_groups")) as Hentry.
    { apply list_elem_of_omap. exists G. split; [done|]. by apply entry_of_Some. }
    pose proof (for_each_nil _ _ _ He2 Hentry) as Hbody. simpl in Hbody.
    destruct (dict_find _ (key_of gb)) as [e|] eqn:Hfind; [|done].
    destruct (py_eq n e) eqn:Hne; [|done].
    assert (truthy (VAtom f) = true) as Hft by (by rewrite (truthy_key f gb)).
    destruct (unique_entry _ _ _ _ _ _ _ Hparams HP Hf Hft Hkey Hfind) as [Hr' _].
    rewrite Hr in Hr'. by injection Hr' as ->.
Qed.



End Bidirectional.


(** C1, as stated, fails.  In the first sample the parameter "Engine
    Speed" points at "ESPD_protocols"; the first group of that name points
    at "Road Speed", the second one back at "Engine Speed".  The later
    assignment replaces the earlier one in [protocol_to_param], and the
    check returns valid.  In the second sample a parameter without
    [field_name] points at the group of a linked pair, in the third a
    group without [group_name] points at its parameter: neither enters the
    maps, and the check returns valid. *)
Lemma shadowed_group_passes :
  let P := Sample.engine_speed in
  let G := Sample.road_speed_group in
  (records Sample.shadowed_parameters "parameters" = [P] ∧
   records Sample.shadowed_protocols "protocol_groups" = [G; Sample.espd] ∧
   py_get P "protocol_reference" VNone = Ok (VStr "ESPD_protocols") ∧
   py_get G "group_name" VNone = Ok (VStr "ESPD_protocols") ∧
   py_get P "field_name" VNone = Ok (VStr "Engine Speed") ∧
   py_get G "parameter_reference" VNone = Ok (VStr "Road Speed") ∧
   py_eq (AStr "Engine Speed") (VStr "Road Speed") = false ∧
   CrossReferenceValidator.validate_bidirectional_consistency Sample.shadowed_group
     "data/parameters.yaml" "data/protocols.yaml" = (true, [BidirectionalPassed])) ∧
  (records Sample.nameless_parameter_doc "parameters" = [Sample.nameless_parameter; P] ∧
   py_get Sample.nameless_parameter "protocol_reference" VNone
     = py_get Sample.espd "group_name" VNone ∧
   py_get Sample.nameless_parameter "field_name" VNone = Ok VNone ∧
   py_get Sample.espd "parameter_reference" VNone = Ok (VStr "Engine Speed") ∧
   CrossReferenceValidator.validate_bidirectional_consistency Sample.with_nameless_parameter
     "data/parameters.yaml" "data/protocols.yaml" = (true, [BidirectionalPassed])) ∧
  (records Sample.nameless_group_doc "protocol_groups" = [Sample.nameless_group; Sample.espd] ∧
   py_get Sample.nameless_group "parameter_reference" VNone = py_get P "field_name" VNone ∧
   py_get Sample.nameless_group "group_name" VNone = Ok VNone ∧
   py_get P "protocol_reference" VNone = Ok (VStr "ESPD_protocols") ∧
   CrossReferenceValidator.validate_bidirectional_consistency Sample.with_nameless_group
     "data/parameters.yaml" "data/protocols.yaml" = (true, [BidirectionalPassed])).
Proof. repeat split; by vm_compute. Qed.

(** ** Materialisation *)


Section Materialisation.
Import MainValidator CrossReferenceValidator DatabaseGenerator.

Variable schema : Type.
Variable iter_errors : schema → value → result (list schema_error).
Variables parameters_schema protocols_schema : schema.
Variable urlparse : value → result CustomValidator.parse_result.
Variable numeric_of_text : string → sqlval.
Variable draws : table → list Z.

Local Abbreviation store := (store numeric_of_text).
Local Abbreviation store_all := (store_all numeric_of_text).
Local Abbreviation owner_row := (owner_row numeric_of_text draws).
Local Abbreviation dependent_row := (dependent_row numeric_of_text).
Local Abbreviation insert_owner := (insert_owner numeric_of_text draws).

Lemma insert_all_rows (insert : table → list bound → result table) columns
    (R : value → row → Prop) items t t' :
  (∀ record bs t1 t2,
     bind_columns record columns = Ok bs → insert t1 bs = Ok t2 →
     ∃ r, t2 = t1 ++ [r] ∧ R record r) →
  insert_all insert columns items t = Ok t' →
  ∃ rows, t' = t ++ rows ∧ Forall2 R items rows.
Proof.
  intros Hinsert. revert t. induction items as [|record items IH]; intros t Hrun.
  { injection Hrun as <-. exists []. by rewrite app_nil_r. }
  simpl in Hrun. inv_bind Hrun.
  destruct (Hinsert _ _ _ _ Ha Ha0) as (r & -> & Hr).
  destruct (IH _ Hrun) as (rows & -> & Hrows).
  exists (r :: rows). rewrite <-app_assoc. split; [done|by constructor].
Qed.

Lemma insert_section_records data k insert columns t t' :
  insert_section data k insert columns t = Ok t' →
  insert_all insert columns (records data k) t = Ok t'.
Proof.
  unfold insert_section, records. intros Hrun. inv_bind Hrun. rewrite Ha.
  by destruct a.
Qed.

Lemma owners_inserted data k columns affinities t' :
  insert_section data k (insert_owner affinities) ("id" :: columns) [] = Ok t' →
  Forall2 (owner_row columns affinities) (records data k) t'.
Proof.
  intros Hrun%insert_section_records.
  assert (∀ record bs t1 t2,
            bind_columns record ("id" :: columns) = Ok bs →
            insert_owner affinities t1 bs = Ok t2 →
            ∃ r, t2 = t1 ++ [r] ∧ owner_row columns affinities record r) as Hinsert.
  { intros record bs t1 t2 Hbind Hinsert. unfold DatabaseGenerator.insert_owner in Hinsert.
    destruct bs as [|id others]; [done|]. inv_bind Hinsert.
    destruct (DatabaseGenerator.store_all numeric_of_text affinities others)
      as [|name stored] eqn:Hstored; [done|].
    repeat case_bool_decide; try done. injection Hinsert as <-.
    eexists. split; [done|]. exists id, others, t1. by rewrite <-Hstored. }
  by destruct (insert_all_rows _ _ _ _ _ _ Hinsert Hrun) as (rows & -> & Hrows).
Qed.

Lemma dependents_inserted data k columns affinities t' :
  insert_section data k (insert_dependent numeric_of_text affinities) columns [] = Ok t' →
  Forall2 (dependent_row columns affinities) (records data k) t'.
Proof.
  intros Hrun%insert_section_records.
  assert (∀ record bs t1 t2,
            bind_columns record columns = Ok bs →
            insert_dependent numeric_of_text affinities t1 bs = Ok t2 →
            ∃ r, t2 = t1 ++ [r] ∧ dependent_row columns affinities record r) as Hinsert.
  { intros record bs t1 t2 Hbind Hinsert. unfold insert_dependent in Hinsert.
    inv_bind Hinsert. subst t2. eexists. split; [done|]. by exists bs. }
  by destruct (insert_all_rows _ _ _ _ _ _ Hinsert Hrun) as (rows & -> & Hrows).
Qed.


Lemma bind_columns_cons record c columns bs :
  bind_columns record (c :: columns) = Ok bs →
  ∃ v b others,
    py_get record c VNone = Ok v ∧ bind_value v = Ok b ∧
    bind_columns record columns = Ok others ∧ bs = b :: others.
Proof. simpl. intros H. inv_bind H. eauto 10. Qed.






End Materialisation.


(** * The properties on the sample documents *)

Module Witnesses.
Import MainValidator CustomValidator CrossReferenceValidator DatabaseGenerator.

Local Abbreviation validate_all :=
  (validate_all unit Sample.iter_errors tt tt Sample.urlparse).
Local Abbreviation pf := "data/parameters.yaml".
Local Abbreviation gf := "data/protocols.yaml".

Lemma blank_fields_are_not_checked_witness :
  _validate_single_parameter
    (VDict [("id", VInt 1); ("field_name", VStr "Engine Speed"); ("reason_added", VStr "")])
    1 = Ok [].
Proof.
  apply (proj2 (blank_fields_are_not_checked _ 1)).
  intros field Hfield. elems Hfield; [by left | by right | by left].
Defined.

Lemma only_missing_files_short_circuit_witness :
  map fst (validation_steps (validate_all Sample.scenario_a pf gf Sample.wall_clock).1)
    = ["json_schema"; "custom_logic"; "cross_references"] ∧
  map fst (validation_steps (validate_all Sample.no_parameters pf gf Sample.wall_clock).1)
    = ["file_existence"].
Proof.
  split.
  - pose proof (proj1 (only_missing_files_short_circuit unit Sample.iter_errors tt tt
                         Sample.urlparse Sample.scenario_a pf gf Sample.wall_clock)
                  (conj eq_refl eq_refl)) as H.
    cbv zeta in H. rewrite H. reflexivity.
  - pose proof (proj2 (only_missing_files_short_circuit unit Sample.iter_errors tt tt
                         Sample.urlparse Sample.no_parameters pf gf Sample.wall_clock)
                  (or_introl eq_refl)) as [H _].
    cbv zeta in H. rewrite H. reflexivity.
Defined.

Lemma status_of_missing_files_raises_witness :
  (get_validation_status unit Sample.iter_errors tt tt Sample.urlparse
     Sample.no_parameters pf gf Sample.wall_clock).1 = Raise KeyError.
Proof.
  apply (status_of_missing_files_raises unit Sample.iter_errors tt tt Sample.urlparse
           Sample.no_parameters pf gf Sample.wall_clock).
  left. reflexivity.
Defined.



Lemma dangling_reference_is_reported_witness :
  validate_cross_references Sample.scenario_d pf gf
  = (false, [BreadcrumbRef 2 (VInt 99)]).
Proof.
  assert (("breadcrumb_fields", "parameters", "parameter_id", BreadcrumbRef,
           Sample.scenario_d_parameters) ∈
          [("breadcrumb_fields", "parameters", "parameter_id", BreadcrumbRef,
            Sample.scenario_d_parameters);
           ("vg5_fields", "parameters", "parameter_id", Vg5Ref,
            Sample.scenario_d_parameters);
           ("abbr_metrics", "parameters", "parameter_id", AbbrMetricRef,
            Sample.scenario_d_parameters);
           ("protocols", "protocol_groups", "group_id", ProtocolRef,
            Sample.scenario_a_protocols)]) as Hkind by apply list_elem_of_here.
  assert (AInt 99 ≠ ANone) as Hnone by discriminate.
  assert (∀ owner id, owner ∈ records Sample.scenario_d_parameters "parameters" →
            py_get owner "id" VNone = Ok (VAtom id) → key_of id ≠ key_of (AInt 99))
    as Hfresh.
  { intros owner id Howner Hid. vm_compute in Howner.
    apply list_elem_of_singleton in Howner. subst owner.
    injection Hid as <-. discriminate. }
  apply (proj2 (dangling_reference_is_reported Sample.scenario_d pf gf
                  Sample.scenario_d_parameters Sample.scenario_a_protocols
                  "breadcrumb_fields" "parameters" "parameter_id" BreadcrumbRef
                  Sample.scenario_d_parameters 1%nat (Sample.breadcrumb 99) (AInt 99)
                  Hkind eq_refl eq_refl eq_refl eq_refl Hnone Hfresh)).
  vm_compute. reflexivity.
Defined.

Lemma unique_names_close_the_cycle_witness :
  py_eq (AStr "Engine Speed") (VStr "Engine Speed") = true.
Proof.
  assert (NoDup (names_of "field_name" (records Sample.scenario_a_parameters "parameters")))
    as Hparameters by (vm_compute; apply NoDup_singleton).
  assert (NoDup (names_of "group_name"
                   (records Sample.scenario_a_protocols "protocol_groups")))
    as Hgroups by (vm_compute; apply NoDup_singleton).
  assert (Sample.engine_speed ∈ records Sample.scenario_a_parameters "parameters")
    as HP by apply list_elem_of_here.
  assert (Sample.espd ∈ records Sample.scenario_a_protocols "protocol_groups")
    as HG by apply list_elem_of_here.
  assert ((validate_bidirectional_consistency Sample.scenario_a pf gf).1 = true)
    as Hvalid by (vm_compute; reflexivity).
  exact (proj1 (unique_names_close_the_cycle Sample.scenario_a pf gf
                  Sample.scenario_a_parameters Sample.scenario_a_protocols
                  Sample.engine_speed Sample.espd
                  eq_refl eq_refl Hparameters Hgroups HP HG Hvalid)
           (AStr "Engine Speed") (VStr "ESPD_protocols") (AStr "ESPD_protocols")
           (VStr "Engine Speed") eq_refl eq_refl eq_refl eq_refl eq_refl eq_refl eq_refl).
Defined.



End Witnesses.

(** * Further properties of the code

    Properties read off the source, beyond those the specification
    states. *)

(** ** The report of a run *)

Section Report.
Import MainValidator.

Lemma count_statuses (l : list (string * step)) :
  (length (filter (λ x, step_status x.2 = passed) l)
   + length (filter (λ x, step_status x.2 = failed) l) = length l)%nat ∧
  (length (filter (λ x, step_status x.2 = failed) l) = 0%nat ↔
   Forall (λ x, step_status x.2 = passed) l).
Proof.
  induction l as [|[name st] l [IH1 IH2]]; [by split|].
  rewrite !filter_cons. simpl. destruct (step_status st) eqn:Hst; simpl.
  - split; [lia|].
    rewrite IH2. split; [by constructor|by intros [_ ?]%Forall_cons].
  - split; [lia|].
    split; [done|]. intros [? _]%Forall_cons. simpl in *. congruence.
Qed.

(** X1. The summary of any list of steps: [total_steps] is the number of
    steps, every step is counted once, as passed or as failed,
    [all_passed] holds exactly when no step failed, which is when every
    step passed, and [step_results] lists the status of every step in
    order. *)
Theorem summary_counts_every_step (validation_steps : list (string * step)) :
  let s := _generate_summary validation_steps in
  total_steps s = length validation_steps ∧
  passed_steps s = length (filter (λ x, step_status x.2 = passed) validation_steps) ∧
  failed_steps s = length (filter (λ x, step_status x.2 = failed) validation_steps) ∧
  (passed_steps s + failed_steps s = total_steps s)%nat ∧
  (all_passed s = true ↔ failed_steps s = 0%nat) ∧
  (all_passed s = true ↔ Forall (λ x, step_status x.2 = passed) validation_steps) ∧
  step_results s = map (λ x, (x.1, step_status x.2)) validation_steps.
Proof.
  unfold _generate_summary.
  match goal with
  | |- context [fold_left ?f _ ?init] => set (body := f); set (start := init)
  end.
  assert (∀ steps acc,
            let s := fold_left body steps acc in
            total_steps s = total_steps acc ∧
            passed_steps s =
              (passed_steps acc
               + length (filter (λ x, step_status x.2 = passed) steps))%nat ∧
            failed_steps s =
              (failed_steps acc
               + length (filter (λ x, step_status x.2 = failed) steps))%nat ∧
            (all_passed s = true ↔
             all_passed acc = true ∧ Forall (λ x, step_status x.2 = passed) steps) ∧
            step_results s = step_results acc ++ map (λ x, (x.1, step_status x.2)) steps)
    as Hloop.
  { induction steps as [|[name st] steps IH]; intros acc.
    { simpl. split; [done|]. split; [lia|]. split; [lia|]. split; [|by rewrite app_nil_r].
      split; [by split|by intros [? _]]. }
    specialize (IH (body acc (name, st))).
    destruct IH as (Htotal & Hpassed & Hfailed & Hall & Hresults).
    cbv zeta.
    change (fold_left body ((name, st) :: steps) acc)
      with (fold_left body steps (body acc (name, st))).
    rewrite Htotal, Hpassed, Hfailed, Hall, Hresults.
    rewrite !filter_cons. unfold body at 1 2 3 4 5. simpl.
    destruct (step_status st) eqn:Hst; simpl; rewrite <-app_assoc.
    - split; [done|]. split; [lia|]. split; [lia|]. split; [|done].
      split.
      + intros [? ?]. split; [done|]. by constructor.
      + intros [? [_ ?]%Forall_cons]. done.
    - split; [done|]. split; [lia|]. split; [lia|]. split; [|done].
      split.
      + by intros [? _].
      + intros [_ [? _]%Forall_cons]. simpl in *. congruence. }
  destruct (Hloop validation_steps start) as (Htotal & Hpassed & Hfailed & Hall & Hresults).
  destruct (count_statuses validation_steps) as [Hsum Hnone].
  cbv zeta in *. simpl in *.
  rewrite Htotal, Hpassed, Hfailed, Hall, Hresults.
  split; [done|]. split; [done|]. split; [done|]. split; [done|].
  split; [|split; [|done]].
  - rewrite Hnone. tauto.
  - tauto.
Qed.

End Report.

(** Every call of a validator returns at least one message. *)
Lemma verdict_messages passed errors : (verdict passed errors).2 ≠ [].
Proof. by destruct errors. Qed.

Section Messages.
Import MainValidator CrossReferenceValidator.

Variable schema : Type.
Variable iter_errors : schema → value → result (list schema_error).
Variables parameters_schema protocols_schema : schema.
Variable urlparse : value → result parse_result.

Lemma validate_file_messages fs yaml_file_path sch data_type :
  (JSONSchemaValidator.validate_file schema iter_errors fs yaml_file_path sch data_type).2
  ≠ [].
Proof.
  unfold JSONSchemaValidator.validate_file, JSONSchemaValidator._validate_data.
  destruct (safe_load fs yaml_file_path) as [data|[]]; try done.
  by destruct (iter_errors sch data) as [[|]|].
Qed.

Lemma parameters_business_logic_messages fs yaml_file_path :
  (validate_parameters_business_logic urlparse fs yaml_file_path).2 ≠ [].
Proof.
  unfold validate_parameters_business_logic.
  destruct (_ ≫= _); [apply verdict_messages|done].
Qed.

Lemma protocols_business_logic_messages fs yaml_file_path :
  (validate_protocols_business_logic fs yaml_file_path).2 ≠ [].
Proof.
  unfold validate_protocols_business_logic.
  destruct (_ ≫= _); [apply verdict_messages|done].
Qed.

Lemma cross_references_messages fs parameters_file protocols_file :
  (validate_cross_references fs parameters_file protocols_file).2 ≠ [].
Proof.
  unfold validate_cross_references.
  destruct (_ ≫= _); [apply verdict_messages|done].
Qed.

Lemma bidirectional_consistency_messages fs parameters_file protocols_file :
  (validate_bidirectional_consistency fs parameters_file protocols_file).2 ≠ [].
Proof.
  unfold validate_bidirectional_consistency.
  destruct (_ ≫= _); [apply verdict_messages|done].
Qed.

(** X2. Whatever the files hold, the report of [validate_all] is valid
    exactly when its list of errors is empty, and its list of warnings is
    always empty: no validator produces a warning. *)
Theorem valid_iff_no_errors (fs : filesystem) (parameters_file protocols_file : string)
    (c : clock) :
  let results :=
    (validate_all schema iter_errors parameters_schema protocols_schema urlparse
       fs parameters_file protocols_file c).1 in
  (overall_valid results = true ↔ errors results = []) ∧
  warnings results = [].
Proof.
  unfold validate_all. simpl.
  destruct (_check_file_existence fs parameters_file protocols_file); [|done].
  simpl. unfold _generate_summary, _run_json_schema_validation, _run_custom_validation,
    _run_cross_reference_validation, stage, collect_errors, collect_warnings,
    JSONSchemaValidator.validate_parameters_file,
    JSONSchemaValidator.validate_protocols_file.
  pose proof (validate_file_messages fs parameters_file parameters_schema "parameters").
  pose proof (validate_file_messages fs protocols_file protocols_schema "protocols").
  pose proof (parameters_business_logic_messages fs parameters_file).
  pose proof (protocols_business_logic_messages fs protocols_file).
  pose proof (cross_references_messages fs parameters_file protocols_file).
  pose proof (bidirectional_consistency_messages fs parameters_file protocols_file).
  destruct (JSONSchemaValidator.validate_file _ _ fs parameters_file _ _) as [[] [|? ?]],
    (JSONSchemaValidator.validate_file _ _ fs protocols_file _ _) as [[] [|? ?]],
    (validate_parameters_business_logic _ _ _) as [[] [|? ?]],
    (validate_protocols_business_logic _ _) as [[] [|? ?]],
    (validate_cross_references _ _ _) as [[] [|? ?]],
    (validate_bidirectional_consistency _ _ _) as [[] [|? ?]]; done.
Qed.

(** X3. The exit status of the command-line tool, in its quick and in
    its full mode, is 0 when [validate_all] reports the files valid and 1
    otherwise.  When a file is missing the status is 1 in both modes: the
    quick mode catches the [KeyError] of [get_validation_status], the full
    mode returns it in verbose mode and catches the [KeyError] of the
    concise summary otherwise. *)
Theorem exit_status_tells_validity (fs : filesystem) (a : Cli.args) (c : clock) :
  let results :=
    (validate_all schema iter_errors parameters_schema protocols_schema urlparse
       fs (Cli.parameters a) (Cli.protocols a) c).1 in
  let quick :=
    (Cli.run_quick_validation schema iter_errors parameters_schema protocols_schema
       urlparse fs a c).1 in
  let full :=
    (Cli.run_full_validation schema iter_errors parameters_schema protocols_schema
       urlparse fs a c).1 in
  quick = (if overall_valid results then 0 else 1) ∧
  full = (if overall_valid results then 0 else 1) ∧
  (_check_file_existence fs (Cli.parameters a) (Cli.protocols a) = false →
   quick = 1 ∧ full = 1).
Proof.
  unfold Cli.run_quick_validation, Cli.run_full_validation, get_validation_status,
    Cli.print_concise_summary, validate_all.
  simpl.
  destruct (_check_file_existence fs (Cli.parameters a) (Cli.protocols a)); simpl.
  - split; [done|]. split; [|done]. by destruct (Cli.verbose a).
  - by destruct (Cli.verbose a).
Qed.

End Messages.


(** ** References between the two files *)

Section CrossFile.
Import CrossReferenceValidator.

(** The loop shared by [_validate_parameter_to_protocol_refs] and
    [_validate_protocol_to_parameter_refs]: the messages are those of the
    records whose reference is truthy and outside the collected names. *)
Lemma cross_file_loop (names : gset key) (name_field ref_field : string)
    (report : value → value → msg) (items : list value) (errs : list msg) :
  for_each (λ it,
    name ← py_get it name_field (VStr "Unknown");
    ref ← py_get it ref_field VNone;
    if truthy ref then
      h ← py_hash ref;
      if bool_decide (h ∉ names)
      then mret [report name ref]
      else mret []
    else mret []) items = Ok errs →
  ∀ m, m ∈ errs ↔
       ∃ it name ref, it ∈ items ∧
         py_get it name_field (VStr "Unknown") = Ok name ∧
         py_get it ref_field VNone = Ok (VAtom ref) ∧
         truthy (VAtom ref) = true ∧ (key_of ref ∉ names) ∧
         m = report name (VAtom ref).
Proof.
  intros Hrun m. split.
  - intros Hm. destruct (for_each_origin _ _ _ _ Hrun Hm) as (it & e & Hit & Hbody & Hme).
    simpl in Hbody. inv_bind Hbody.
    destruct (truthy a0) eqn:Htruthy; [|inv_bind Hbody; subst; by apply elem_of_nil in Hme].
    inv_bind Hbody. apply py_hash_Ok in Ha1 as (ref & -> & ->).
    destruct (bool_decide_reflect (key_of ref ∉ names)) as [Hout|Hin];
      inv_bind Hbody; subst; [|by apply elem_of_nil in Hme].
    apply list_elem_of_singleton in Hme. eauto 10.
  - intros (it & name & ref & Hit & Hname & Href & Htruthy & Hout & ->).
    eapply (for_each_elem _ _ _ _ [report name (VAtom ref)] Hrun Hit);
      [|apply list_elem_of_here].
    cbn -[truthy]. rewrite Hname. cbn -[truthy]. rewrite Href. cbn -[truthy].
    rewrite Htruthy. cbn. by rewrite bool_decide_eq_true_2.
Qed.

(** The collected names, read on the records. *)
Lemma collected_names data k field names ref :
  collect_section data k field truthy = Ok names →
  (key_of ref ∉ names) ↔
  (∀ owner name, owner ∈ records data k →
     py_get owner field VNone = Ok (VAtom name) → truthy (VAtom name) = true →
     key_of name ≠ key_of ref).
Proof.
  intros Hnames. rewrite (collect_section_spec _ _ _ _ _ Hnames). split.
  - intros Hout owner name Howner Hget Htruthy Hkey. apply Hout.
    exists owner, (VAtom name). by rewrite <-Hkey.
  - intros Hfresh (owner & v & Howner & Hget & Htruthy & Hhash).
    apply py_hash_Ok in Hhash as (name & -> & Hkey).
    by apply (Hfresh owner name).
Qed.

(** X4. Let the two checks of the references between the files run to
    completion.  [_validate_parameter_to_protocol_refs] reports exactly
    the parameters whose [protocol_reference] is truthy and is the truthy
    [group_name] of no protocol group, each with the message that names
    the parameter and the reference; [_validate_protocol_to_parameter_refs]
    reports exactly the groups whose [parameter_reference] is truthy and is
    the truthy [field_name] of no parameter. *)
Theorem cross_file_references_are_exact (parameters_data protocols_data : value) :
  (∀ errs, _validate_parameter_to_protocol_refs parameters_data protocols_data = Ok errs →
     ∀ m, m ∈ errs ↔
       ∃ P field_name protocol_ref,
         P ∈ records parameters_data "parameters" ∧
         py_get P "field_name" (VStr "Unknown") = Ok field_name ∧
         py_get P "protocol_reference" VNone = Ok (VAtom protocol_ref) ∧
         truthy (VAtom protocol_ref) = true ∧
         (∀ G group_name, G ∈ records protocols_data "protocol_groups" →
            py_get G "group_name" VNone = Ok (VAtom group_name) →
            truthy (VAtom group_name) = true →
            key_of group_name ≠ key_of protocol_ref) ∧
         m = NonExistentGroup field_name (VAtom protocol_ref)) ∧
  (∀ errs, _validate_protocol_to_parameter_refs parameters_data protocols_data = Ok errs →
     ∀ m, m ∈ errs ↔
       ∃ G group_name param_ref,
         G ∈ records protocols_data "protocol_groups" ∧
         py_get G "group_name" (VStr "Unknown") = Ok group_name ∧
         py_get G "parameter_reference" VNone = Ok (VAtom param_ref) ∧
         truthy (VAtom param_ref) = true ∧
         (∀ P field_name, P ∈ records parameters_data "parameters" →
            py_get P "field_name" VNone = Ok (VAtom field_name) →
            truthy (VAtom field_name) = true →
            key_of field_name ≠ key_of param_ref) ∧
         m = NonExistentParameter group_name (VAtom param_ref)).
Proof.
  split.
  - intros errs Hrun m.
    unfold _validate_parameter_to_protocol_refs in Hrun.
    apply bind_Ok in Hrun as (names & Hnames & Hrun).
    apply in_section_records in Hrun as [[Hnil ->]|Hrun].
    + rewrite Hnil. split; [by intros ?%elem_of_nil|].
      by intros (? & ? & ? & ?%elem_of_nil & _).
    + rewrite (cross_file_loop _ _ _ _ _ _ Hrun m).
      split; intros (P & name & ref & HP & Hname & Href & Htruthy & Hout & ->);
        exists P, name, ref; repeat split; try done;
        by apply (collected_names _ _ _ _ _ Hnames).
  - intros errs Hrun m.
    unfold _validate_protocol_to_parameter_refs in Hrun.
    apply bind_Ok in Hrun as (names & Hnames & Hrun).
    apply in_section_records in Hrun as [[Hnil ->]|Hrun].
    + rewrite Hnil. split; [by intros ?%elem_of_nil|].
      by intros (? & ? & ? & ?%elem_of_nil & _).
    + rewrite (cross_file_loop _ _ _ _ _ _ Hrun m).
      split; intros (G & name & ref & HG & Hname & Href & Htruthy & Hout & ->);
        exists G, name, ref; repeat split; try done;
        by apply (collected_names _ _ _ _ _ Hnames).
Qed.

End CrossFile.

(** ** Foreign keys inside a file *)

Lemma for_enumerate_origin {A} (body : nat → A → result (list msg)) start l errs m :
  for_enumerate body start l = Ok errs → m ∈ errs →
  ∃ i x e, l !! i = Some x ∧ body (start + i)%nat x = Ok e ∧ m ∈ e.
Proof.
  revert start errs. induction l as [|y l IH]; intros start errs Hrun Hm.
  { injection Hrun as <-. by apply elem_of_nil in Hm. }
  simpl in Hrun. inv_bind Hrun. subst errs.
  apply elem_of_app in Hm as [Hm|Hm].
  - exists 0%nat, y, a. by rewrite Nat.add_0_r.
  - destruct (IH _ _ Ha0 Hm) as (i & x & e & Hi & He & Hme).
    exists (S i), x, e. split; [done|].
    by replace (start + S i)%nat with (S start + i)%nat by lia.
Qed.

Section Dangling.
Import CrossReferenceValidator.

(** A message of a foreign-key loop comes from a record at the position
    it gives, whose reference is not null and not among the ids. *)
Lemma check_refs_origin ids field report items errs m :
  check_refs ids field report items = Ok errs → m ∈ errs →
  ∃ i record ref,
    items !! i = Some record ∧
    py_get record field VNone = Ok (VAtom ref) ∧
    ref ≠ ANone ∧ (key_of ref ∉ ids) ∧
    m = report (i + 1)%nat (VAtom ref).
Proof.
  intros Hrun Hm.
  destruct (for_enumerate_origin _ _ _ _ _ Hrun Hm) as (i & record & e & Hi & Hbody & Hme).
  simpl in Hbody. inv_bind Hbody.
  destruct (is_not_none a) eqn:Hnone; [|inv_bind Hbody; subst; by apply elem_of_nil in Hme].
  inv_bind Hbody. apply py_hash_Ok in Ha0 as (ref & -> & ->).
  destruct (bool_decide_reflect (key_of ref ∉ ids)) as [Hout|Hin];
    inv_bind Hbody; subst; [|by apply elem_of_nil in Hme].
  apply list_elem_of_singleton in Hme.
  exists i, record, ref. repeat split; try done.
  by intros ->.
Qed.

Lemma collected_ids data k ids ref :
  collect_section data k "id" is_not_none = Ok ids →
  ref ≠ ANone → key_of ref ∉ ids →
  ∀ owner id, owner ∈ records data k →
    py_get owner "id" VNone = Ok (VAtom id) → key_of id ≠ key_of ref.
Proof.
  intros Hids Hnone Hout owner id Howner Hget Hkey. apply Hout.
  rewrite (collect_section_spec _ _ _ _ _ Hids).
  exists owner, (VAtom id). rewrite <-Hkey. repeat split; try done.
  destruct id; try done. by destruct ref as [|[]| |].
Qed.

(** X5. Let the cross-reference checks run to completion.  Every message
    about a dangling foreign key is backed by the file: a message of
    kind "Breadcrumb field", "VG5 field", "Abbreviation metric" or
    "Protocol" with position [pos] and id [ref] comes from the record at
    index [pos - 1] of its list, whose foreign key is [ref], is not null
    and is the [id] of no record of the owning list. *)
Theorem reported_references_dangle (parameters_data protocols_data : value)
    (errs : list msg) (section owners field : string) (report : nat → value → msg)
    (data : value) (pos : nat) (ref : value) :
  cross_references_checks parameters_data protocols_data = Ok errs →
  (section, owners, field, report, data) ∈
    [("breadcrumb_fields", "parameters", "parameter_id", BreadcrumbRef,
      parameters_data);
     ("vg5_fields", "parameters", "parameter_id", Vg5Ref,
      parameters_data);
     ("abbr_metrics", "parameters", "parameter_id", AbbrMetricRef,
      parameters_data);
     ("protocols", "protocol_groups", "group_id", ProtocolRef,
      protocols_data)] →
  report pos ref ∈ errs →
  ∃ i record a,
    pos = (i + 1)%nat ∧ ref = VAtom a ∧ a ≠ ANone ∧
    records data section !! i = Some record ∧
    py_get record field VNone = Ok ref ∧
    ∀ owner id, owner ∈ records data owners →
      py_get owner "id" VNone = Ok (VAtom id) → key_of id ≠ key_of a.
Proof.
  intros Hrun Hkind Hm.
  unfold cross_references_checks in Hrun. inv_bind Hrun. subst errs.
  unfold _validate_parameter_to_protocol_refs in Ha.
  apply bind_Ok in Ha as (names1 & _ & Ha).
  unfold _validate_protocol_to_parameter_refs in Ha0.
  apply bind_Ok in Ha0 as (names2 & _ & Ha0).
  unfold _validate_internal_parameter_refs in Ha1. inv_bind Ha1. subst.
  unfold _validate_internal_protocol_refs in Ha2. inv_bind Ha2.
  assert (∀ pos ref (rep : nat → value → msg) (names : gset key) name_field ref_field
            (report2 : value → value → msg) d k e,
            (∀ x y, rep pos ref ≠ report2 x y) →
            in_section d k (for_each (λ it,
              name ← py_get it name_field (VStr "Unknown");
              r ← py_get it ref_field VNone;
              if truthy r then
                h ← py_hash r;
                if bool_decide (h ∉ names)
                then mret [report2 name r]
                else mret []
              else mret [])) = Ok e →
            rep pos ref ∉ e) as Hother.
  { intros pos' ref' rep names name_field ref_field report2 d k e Hdiff Hloop Hin.
    apply in_section_records in Hloop as [[_ ->]|Hloop]; [by apply elem_of_nil in Hin|].
    apply (cross_file_loop names name_field ref_field report2 _ _ Hloop) in Hin
      as (? & ? & ? & _ & _ & _ & _ & _ & Heq).
    by apply Hdiff in Heq. }
  assert (∀ pos ref (rep rep' : nat → value → msg) (ids : gset key) d k f e,
            (∀ x y, rep pos ref ≠ rep' x y) →
            in_section d k (check_refs ids f rep') = Ok e →
            rep pos ref ∉ e) as Hforeign.
  { intros pos' ref' rep rep' ids d k f e Hdiff Hloop Hin.
    apply in_section_records in Hloop as [[_ ->]|Hloop]; [by apply elem_of_nil in Hin|].
    apply (check_refs_origin _ _ _ _ _ _ Hloop) in Hin as (? & ? & ? & _ & _ & _ & _ & Heq).
    by apply Hdiff in Heq. }
  assert (∀ (ids : gset key) loop_errs,
            collect_section data owners "id" is_not_none = Ok ids →
            in_section data section (check_refs ids field report) = Ok loop_errs →
            (∀ i a, report pos ref = report (i + 1)%nat (VAtom a) →
                    pos = (i + 1)%nat ∧ ref = VAtom a) →
            report pos ref ∈ loop_errs →
            ∃ i record a,
              pos = (i + 1)%nat ∧ ref = VAtom a ∧ a ≠ ANone ∧
              records data section !! i = Some record ∧
              py_get record field VNone = Ok ref ∧
              ∀ owner id, owner ∈ records data owners →
                py_get owner "id" VNone = Ok (VAtom id) → key_of id ≠ key_of a)
    as Hloop.
  { intros ids loop_errs Hids Hsection Hinj Hin.
    apply in_section_records in Hsection as [[_ ->]|Hsection];
      [by apply elem_of_nil in Hin|].
    apply (check_refs_origin _ _ _ _ _ _ Hsection) in Hin
      as (i & record & key_ & Hi & Hget & Hnone & Hout & Heq).
    apply Hinj in Heq as [-> ->].
    exists i, record, key_. repeat split; try done.
    by apply (collected_ids _ _ _ _ Hids). }
  rewrite !elem_of_app in Hm.
  elems Hkind; simplify_eq;
    repeat match goal with
    | H : _ ∨ _ |- _ => destruct H as [H|H]
    end;
    match goal with
    | Hin : ?rep ?pos ?ref ∈ ?e, Hl : in_section _ _ (for_each _) = Ok ?e |- _ =>
        exfalso; refine (Hother pos ref rep _ _ _ _ _ _ e _ Hl Hin); done
    | Hin : ?rep ?pos ?ref ∈ ?e, Hl : in_section _ _ (check_refs _ _ ?rep') = Ok ?e |- _ =>
        first
          [ eapply Hloop; [eassumption | exact Hl | by intros ? ? [= -> ->] | exact Hin]
          | exfalso; refine (Hforeign pos ref rep rep' _ _ _ _ e _ Hl Hin); done ]
    end.
Qed.

End Dangling.


(** ** The maps of the bidirectional check *)

Lemma dict_find_set d k v h :
  dict_find (dict_set d k v) h =
  if bool_decide (key_of k = h) then Some v else dict_find d h.
Proof.
  induction d as [|[k' v'] d IH]; simpl; [done|].
  destruct (bool_decide_reflect (key_of k' = key_of k)) as [Hsame|Hother]; simpl.
  - rewrite Hsame. by destruct (bool_decide (key_of k = h)).
  - rewrite IH. destruct (bool_decide_reflect (key_of k' = h)) as [<-|?]; [|done].
    by rewrite bool_decide_eq_false_2 by done.
Qed.

Lemma dict_set_key_list d k v :
  (key_of ∘ fst) <$> dict_set d k v =
  if bool_decide (key_of k ∈ (key_of ∘ fst) <$> d) then (key_of ∘ fst) <$> d
  else ((key_of ∘ fst) <$> d) ++ [key_of k].
Proof.
  induction d as [|[k' v'] d IH]; [done|].
  cbn [dict_set].
  destruct (bool_decide_reflect (key_of k' = key_of k)) as [Hsame|Hother].
  - rewrite !fmap_cons. change ((key_of ∘ fst) (k', v')) with (key_of k').
    rewrite bool_decide_eq_true_2; [done|]. rewrite Hsame. apply list_elem_of_here.
  - rewrite !fmap_cons, IH. change ((key_of ∘ fst) (k', v')) with (key_of k').
    destruct (bool_decide_reflect (key_of k ∈ (key_of ∘ fst) <$> d)).
    + rewrite bool_decide_eq_true_2; [done|]. by apply list_elem_of_further.
    + rewrite bool_decide_eq_false_2; [done|].
      intros [?|?]%elem_of_cons; [congruence|done].
Qed.

Lemma dict_set_NoDup d k v :
  NoDup ((key_of ∘ fst) <$> d) → NoDup ((key_of ∘ fst) <$> dict_set d k v).
Proof.
  intros Hd. rewrite dict_set_key_list. case_bool_decide; [done|].
  apply NoDup_app. split; [done|]. split; [|apply NoDup_singleton].
  intros x Hx ->%list_elem_of_singleton. done.
Qed.

Lemma dict_find_key d h r : dict_find d h = Some r → h ∈ (key_of ∘ fst) <$> d.
Proof.
  intros (a & Hin & <-)%dict_find_elem.
  apply list_elem_of_fmap. by exists (a, r).
Qed.

Lemma dict_find_NoDup d a r :
  NoDup ((key_of ∘ fst) <$> d) → (a, r) ∈ d → dict_find d (key_of a) = Some r.
Proof.
  induction d as [|[a' r'] d IH]; intros Hnodup Hin; [by apply elem_of_nil in Hin|].
  simpl in *. apply NoDup_cons in Hnodup as [Hfresh Hnodup].
  apply elem_of_cons in Hin as [[= -> ->]|Hin].
  - by rewrite bool_decide_eq_true_2.
  - rewrite bool_decide_eq_false_2; [by apply IH|].
    intros Hkey. apply Hfresh. rewrite Hkey.
    apply list_elem_of_fmap. by exists (a, r).
Qed.

Section Links.
Import CrossReferenceValidator.

Variables name_field ref_field : string.

Lemma entry_of_None it name ref :
  py_get it name_field VNone = Ok name →
  py_get it ref_field VNone = Ok ref →
  truthy name && truthy ref = false →
  entry_of name_field ref_field it = None.
Proof.
  unfold entry_of. intros -> -> Hboth.
  destruct name as [a| |]; [|done..]. by rewrite Hboth.
Qed.

Lemma build_refs_NoDup items d d' :
  build_refs name_field ref_field items d = Ok d' →
  NoDup ((key_of ∘ fst) <$> d) → NoDup ((key_of ∘ fst) <$> d').
Proof.
  revert d. induction items as [|it items IH]; intros d Hrun Hd.
  { by injection Hrun as <-. }
  simpl in Hrun. inv_bind Hrun.
  destruct (truthy a && truthy a0); [|by apply (IH d)].
  inv_bind Hrun. apply (IH _ Hrun). by apply dict_set_NoDup.
Qed.

(** What the map holds under a key: the reference of the last record of
    that name, or what it held before the loop. *)
Lemma build_refs_find items d d' h :
  build_refs name_field ref_field items d = Ok d' →
  dict_find d' h =
  match last (filter (λ e, key_of e.1 = h) (omap (entry_of name_field ref_field) items)) with
  | Some e => Some e.2
  | None => dict_find d h
  end.
Proof.
  revert d. induction items as [|it items IH]; intros d Hrun.
  { by injection Hrun as <-. }
  simpl in Hrun. inv_bind Hrun.
  destruct (truthy a && truthy a0) eqn:Hboth.
  - inv_bind Hrun. destruct a as [b| |]; [|done..]. injection Ha1 as <-.
    assert (entry_of name_field ref_field it = Some (b, a0)) as Hentry.
    { apply entry_of_Some. by apply andb_true_iff in Hboth as [? ?]. }
    rewrite (IH _ Hrun). simpl. rewrite Hentry. rewrite filter_cons. simpl.
    rewrite dict_find_set.
    destruct (decide (key_of b = h)) as [Hkey|Hkey].
    + rewrite last_cons. rewrite bool_decide_eq_true_2 by done.
      by destruct (last _).
    + by rewrite bool_decide_eq_false_2 by done.
  - rewrite (IH _ Hrun). simpl.
    by rewrite (entry_of_None _ _ _ Ha Ha0 Hboth).
Qed.

(** X6. In the map that the bidirectional check (and the reference
    summary) builds from a list of records, no two entries have equal
    keys, and the entry under a name is the reference of the last record
    that has this name and a reference: a later record replaces what an
    earlier record of the same name has set.  In particular a record
    appended to any list determines the entry under its name. *)
Theorem later_reference_wins (items : list value) (d : pydict) :
  build_refs name_field ref_field items [] = Ok d →
  NoDup ((key_of ∘ fst) <$> d) ∧
  (∀ h, dict_find d h =
        snd <$> last (filter (λ e, key_of e.1 = h)
                        (omap (entry_of name_field ref_field) items))) ∧
  (∀ earlier it a r,
     items = earlier ++ [it] →
     entry_of name_field ref_field it = Some (a, r) →
     dict_find d (key_of a) = Some r).
Proof.
  intros Hrun.
  assert (∀ h, dict_find d h =
               snd <$> last (filter (λ e, key_of e.1 = h)
                               (omap (entry_of name_field ref_field) items))) as Hfind.
  { intros h. rewrite (build_refs_find _ _ _ h Hrun). by destruct (last _). }
  split; [|split; [done|]].
  - apply (build_refs_NoDup _ _ _ Hrun). constructor.
  - intros earlier it a r -> Hentry.
    rewrite Hfind, omap_app, filter_app. simpl. rewrite Hentry.
    rewrite filter_cons. simpl. rewrite decide_True by done.
    rewrite filter_nil. by rewrite last_snoc.
Qed.

End Links.

(** Entries of a map are told apart by their keys. *)
Lemma same_key_same_entry (d : pydict) x y :
  NoDup ((key_of ∘ fst) <$> d) → x ∈ d → y ∈ d → key_of x.1 = key_of y.1 → x = y.
Proof.
  intros Hnodup Hx Hy Hkey. destruct x as [a r], y as [a' r']. simpl in Hkey.
  pose proof (dict_find_NoDup _ _ _ Hnodup Hx) as Hfx.
  pose proof (dict_find_NoDup _ _ _ Hnodup Hy) as Hfy.
  rewrite Hkey, Hfy in Hfx. injection Hfx as ->.
  clear Hfy. induction d as [|[b w] d IH]; [by apply elem_of_nil in Hx|].
  simpl in Hnodup. apply NoDup_cons in Hnodup as [Hfresh Hnodup].
  assert (∀ c v, (c, v) ∈ d → key_of c ≠ key_of b) as Hother.
  { intros c v Hin Hc. apply Hfresh. rewrite <-Hc.
    apply list_elem_of_fmap. by exists (c, v). }
  apply elem_of_cons in Hx as [Hx|Hx], Hy as [Hy|Hy].
  - congruence.
  - injection Hx as -> ->. symmetry in Hkey. by destruct (Hother _ _ Hy).
  - injection Hy as -> ->. by destruct (Hother _ _ Hx).
  - by apply IH.
Qed.

(** When every entry of [d1] is answered by an entry of [d2], [d2] has
    at least as many entries. *)
Lemma answered_links (d1 d2 : pydict) :
  NoDup ((key_of ∘ fst) <$> d1) →
  (∀ a r, (a, r) ∈ d1 →
     ∃ rb e, r = VAtom rb ∧ dict_find d2 (key_of rb) = Some e ∧ py_eq a e = true) →
  (length d1 ≤ length d2)%nat.
Proof.
  intros Hnodup Hanswered.
  assert (NoDup (link <$> d1)) as Hlinks.
  { apply NoDup_fmap_2_strong; [|by apply NoDup_fmap_1 in Hnodup].
    intros [a r] [a' r'] Hx Hy Hlink.
    apply (same_key_same_entry d1); [done..|]. simpl.
    destruct (Hanswered _ _ Hx) as (rb & e & -> & Hfind & Heq).
    destruct (Hanswered _ _ Hy) as (rb' & e' & -> & Hfind' & Heq').
    unfold link in Hlink. simpl in Hlink. rewrite Hlink, Hfind' in Hfind.
    injection Hfind as ->.
    apply py_eq_true in Heq as (eb & -> & Hkey).
    apply py_eq_true in Heq' as (eb' & [= <-] & Hkey'). congruence. }
  assert (link <$> d1 ⊆+ (key_of ∘ fst) <$> d2) as Hsub.
  { apply NoDup_submseteq; [done|].
    intros h ([a r] & -> & Hin)%list_elem_of_fmap.
    destruct (Hanswered _ _ Hin) as (rb & e & -> & Hfind & _).
    by apply dict_find_key in Hfind. }
  apply submseteq_length in Hsub. by rewrite !length_fmap in Hsub.
Qed.

Section Pairing.
Import CrossReferenceValidator.

(** X7. When the bidirectional check passes, the two maps it has built
    answer each other: the group a parameter points at is in the map of
    the groups and points back at the parameter, and the other way round.
    So the maps have the same number of entries: passing the check pairs
    the linked parameters with the linked groups one to one. *)
Theorem consistent_links_pair_up (parameters_data protocols_data : value) :
  bidirectional_checks parameters_data protocols_data = Ok [] →
  ∃ param_to_protocol protocol_to_param,
    build_refs "field_name" "protocol_reference"
      (records parameters_data "parameters") [] = Ok param_to_protocol ∧
    build_refs "group_name" "parameter_reference"
      (records protocols_data "protocol_groups") [] = Ok protocol_to_param ∧
    (∀ param_name protocol_name, (param_name, protocol_name) ∈ param_to_protocol →
       ∃ group expected_param,
         protocol_name = VAtom group ∧
         dict_find protocol_to_param (key_of group) = Some expected_param ∧
         py_eq param_name expected_param = true) ∧
    (∀ protocol_name param_name, (protocol_name, param_name) ∈ protocol_to_param →
       ∃ param protocol,
         param_name = VAtom param ∧
         dict_find param_to_protocol (key_of param) = Some protocol ∧
         py_eq protocol_name protocol = true) ∧
    length param_to_protocol = length protocol_to_param.
Proof.
  intros Hrun.
  apply bidirectional_checks_Ok in Hrun
    as (d1 & d2 & e1 & e2 & Hd1 & Hd2 & He1 & He2 & Hnil).
  symmetry in Hnil. apply app_eq_nil in Hnil as [-> ->].
  exists d1, d2.
  assert (∀ a r, (a, r) ∈ d1 →
            ∃ rb e, r = VAtom rb ∧ dict_find d2 (key_of rb) = Some e ∧ py_eq a e = true)
    as H12.
  { intros a r Hin. pose proof (for_each_nil _ _ _ He1 Hin) as Hbody.
    simpl in Hbody. apply bind_Ok in Hbody as (h & Hhash & Hbody).
    apply py_hash_Ok in Hhash as (rb & -> & ->).
    destruct (dict_find d2 (key_of rb)) as [e|] eqn:Hfind; [|done].
    destruct (py_eq a e) eqn:Heq; [|done]. by exists rb, e. }
  assert (∀ a r, (a, r) ∈ d2 →
            ∃ rb e, r = VAtom rb ∧ dict_find d1 (key_of rb) = Some e ∧ py_eq a e = true)
    as H21.
  { intros a r Hin. pose proof (for_each_nil _ _ _ He2 Hin) as Hbody.
    simpl in Hbody. apply bind_Ok in Hbody as (h & Hhash & Hbody).
    apply py_hash_Ok in Hhash as (rb & -> & ->).
    destruct (dict_find d1 (key_of rb)) as [e|] eqn:Hfind; [|done].
    destruct (py_eq a e) eqn:Heq; [|done]. by exists rb, e. }
  repeat split; try done.
  apply Nat.le_antisymm; apply answered_links; try done.
  - apply (build_refs_NoDup _ _ _ _ _ Hd1). constructor.
  - apply (build_refs_NoDup _ _ _ _ _ Hd2). constructor.
Qed.

End Pairing.


(** ** Rule validation of protocol entries *)

Lemma for_enumerate_body {A} (body : nat → A → result (list msg)) start l errs x :
  for_enumerate body start l = Ok errs → x ∈ l → ∃ i e, body i x = Ok e.
Proof.
  revert start errs. induction l as [|y l IH]; intros start errs Hrun Hx;
    [by apply elem_of_nil in Hx|].
  simpl in Hrun. apply bind_Ok in Hrun as (e & He & Hrun).
  apply bind_Ok in Hrun as (es & Hes & _).
  apply elem_of_cons in Hx as [->|Hx]; [by exists start, e|].
  by apply (IH _ _ Hes).
Qed.

Lemma unless_valid_raises v ok m e :
  unless_valid v ok m = Raise e → ok v = Raise e.
Proof.
  unfold unless_valid, mret, result_ret. destruct (truthy v); [|done].
  destruct (ok v); simpl; congruence.
Qed.

Section ProtocolEntries.
Import CustomValidator.

(** X8. A protocol entry of standard J1939 or J1979 whose [pgn_pid] is a
    number other than 0, as YAML reads an unquoted [61444], makes
    [_validate_single_protocol] raise: the J1939 rule calls [isdigit] on
    it, the J1979 rule matches a pattern against it.  A protocols document
    that lists such an entry is invalid for the rule validator, and the
    only message is the one made from an exception: whatever errors the
    other entries hold are not reported. *)
Theorem numeric_pgn_pid_ends_validation (fs : filesystem) (yaml_file_path : string)
    (entries : list (string * value)) (items : list value)
    (fields : list (string * value)) (standard : string) (z : Z) :
  fs yaml_file_path = Yaml (VDict entries) →
  assoc "protocols" entries = Some (VList items) →
  VDict fields ∈ items →
  assoc "protocol_standard" fields = Some (VStr standard) →
  standard ∈ ["J1939"; "J1979"] →
  assoc "pgn_pid" fields = Some (VInt z) →
  z ≠ 0 →
  (∀ protocol_num,
     _validate_single_protocol (VDict fields) protocol_num = Raise TypeError ∨
     _validate_single_protocol (VDict fields) protocol_num = Raise AttributeError) ∧
  ∃ e, validate_protocols_business_logic fs yaml_file_path
       = (false, [CustomValidationError e]).
Proof.
  intros Hfile Hsection Hin Hstandard Hknown Hpgn Hz.
  assert (∀ protocol_num,
            _validate_single_protocol (VDict fields) protocol_num = Raise TypeError ∨
            _validate_single_protocol (VDict fields) protocol_num = Raise AttributeError)
    as Hraises.
  { intros n. unfold _validate_single_protocol. cbn -[unless_valid].
    rewrite Hstandard, Hpgn. cbn -[unless_valid _is_valid_abbreviation].
    assert (truthy (VInt z) = true) as Htruthy.
    { simpl. by apply negb_true_iff, Z.eqb_neq. }
    destruct (unless_valid (default (VStr "") (assoc "abbr" fields)) _ _)
      as [e2|e] eqn:Habbr.
    - elems Hknown; cbn -[_is_valid_j1979_pid]; unfold unless_valid; rewrite Htruthy;
        cbn; auto.
    - apply unless_valid_raises in Habbr.
      unfold _is_valid_abbreviation, re_match in Habbr.
      destruct (default _ _) as [[]| |]; simplify_eq;
        elems Hknown; cbn; auto. }
  split; [done|].
  unfold validate_protocols_business_logic, safe_load. rewrite Hfile. simpl.
  destruct (protocols_checks (VDict entries)) as [errs|e] eqn:Hchecks; [exfalso|eauto].
  unfold protocols_checks in Hchecks. inv_bind Hchecks.
  rewrite (when_present_found _ _ _ _ Hsection) in Ha0.
  unfold protocols_rules in Ha0. simpl in Ha0.
  destruct (for_enumerate_body _ _ _ _ _ Ha0 Hin) as (i & e & Hbody).
  simpl in Hbody. destruct (Hraises (i + 1)%nat); congruence.
Qed.

End ProtocolEntries.

(** ** The patterns *)

Lemma list_ascii_of_string_app (s t : string) :
  String.list_ascii_of_string (s +:+ t)
  = String.list_ascii_of_string s ++ String.list_ascii_of_string t.
Proof. induction s as [|c s IH]; simpl; [done|by rewrite IH]. Qed.

Lemma list_ascii_of_string_length (s : string) :
  length (String.list_ascii_of_string s) = String.length s.
Proof. induction s as [|c s IH]; simpl; [done|by rewrite IH]. Qed.

(** A text without line break matches [^body$] only as a whole, and
    then the text followed by a line break matches too. *)
Lemma anchored_one_line body s :
  one_line s = true → anchored body s = true →
  body (String.list_ascii_of_string s) = true ∧ anchored body (s +:+ newline) = true.
Proof.
  unfold anchored, one_line. intros Hline Hmatch.
  assert (body (String.list_ascii_of_string s) = true) as Hbody.
  { apply orb_true_iff in Hmatch as [?|Hmatch]; [done|].
    destruct (rev (String.list_ascii_of_string s)) as [|c before] eqn:Hrev; [done|].
    apply andb_true_iff in Hmatch as [Hc _].
    rewrite forallb_forall in Hline. specialize (Hline c).
    rewrite Hc in Hline. discriminate Hline.
    apply List.in_rev. rewrite Hrev. by left. }
  split; [done|].
  rewrite list_ascii_of_string_app, rev_app_distr. simpl.
  rewrite rev_involutive, Hbody. apply orb_true_r.
Qed.

Section Patterns.
Import CustomValidator.

(** X9. The three pattern checks, for snake case, abbreviations and
    J1979 identifiers, accept a text followed by one line break whenever
    they accept the text: [$] also matches before a final line break.
    The snake-case check accepts no text of fewer than two characters,
    and none that does not start with a lowercase letter. *)
Theorem patterns_at_the_edges :
  (∀ check s,
     check ∈ [_is_valid_snake_case; _is_valid_abbreviation; _is_valid_j1979_pid] →
     one_line s = true →
     check (VStr s) = Ok true →
     check (VStr (s +:+ newline)) = Ok true) ∧
  (∀ s, _is_valid_snake_case (VStr s) = Ok true →
     (2 ≤ String.length s)%nat ∧
     ∃ c rest, s = String c rest ∧ is_lower c = true).
Proof.
  split.
  - intros check s Hcheck Hline Hmatch.
    elems Hcheck; simpl in *; injection Hmatch as Hmatch;
      by destruct (anchored_one_line _ _ Hline Hmatch) as [_ ->].
  - intros s [= Hmatch]. unfold anchored in Hmatch.
    rewrite <-list_ascii_of_string_length.
    assert (∀ l, snake_case_body l = true →
              (2 ≤ length l)%nat ∧ ∃ c rest, l = c :: rest ∧ is_lower c = true) as Hbody.
    { intros [|c rest]; [done|]. simpl.
      intros [Hc Hrest]%andb_true_iff. split; [|eauto].
      destruct rest; [done|simpl; lia]. }
    assert (∀ l, (2 ≤ length l)%nat ∧ (∃ c rest, l = c :: rest ∧ is_lower c = true) →
              String.list_ascii_of_string s = l ∨
              (∃ c, rev (String.list_ascii_of_string s) = c :: rev l) →
              (2 ≤ length (String.list_ascii_of_string s))%nat ∧
              ∃ c rest, s = String c rest ∧ is_lower c = true) as Hlift.
    { intros l [Hlen (c & rest & -> & Hc)] Hs.
      assert (∃ tail, String.list_ascii_of_string s = c :: tail ∧
                      (1 ≤ length tail)%nat) as (tail & Htail & Hlen').
      { destruct Hs as [->|[c' Hrev]].
        - exists rest. simpl in Hlen. split; [done|lia].
        - apply (f_equal (@rev ascii)) in Hrev. rewrite rev_involutive in Hrev.
          simpl in Hrev. rewrite rev_app_distr, rev_involutive in Hrev. simpl in Hrev.
          rewrite Hrev. exists (rest ++ [c']). split; [done|].
          rewrite length_app. simpl. lia. }
      rewrite Htail. simpl. split; [lia|].
      destruct s as [|c0 s0]; [done|]. simpl in Htail. injection Htail as -> _.
      eauto. }
    apply orb_true_iff in Hmatch as [Hmatch|Hmatch].
    + apply (Hlift _ (Hbody _ Hmatch)). by left.
    + destruct (rev (String.list_ascii_of_string s)) as [|c before] eqn:Hrev; [done|].
      apply andb_true_iff in Hmatch as [_ Hmatch].
      apply (Hlift _ (Hbody _ Hmatch)). right. exists c. by rewrite rev_involutive.
Qed.

End Patterns.

(** ** The rules on links *)

Lemma is_prefix_app (p s : list ascii) : is_prefix p (p ++ s) = true.
Proof.
  induction p as [|c p IH]; simpl; [done|].
  rewrite IH, andb_true_r. by apply Ascii.eqb_eq.
Qed.

Lemma is_infix_app (p before after : list ascii) :
  is_infix p (before ++ p ++ after) = true.
Proof.
  induction before as [|c before IH]; simpl.
  - destruct (p ++ after) eqn:Happ; simpl; rewrite <-?Happ, is_prefix_app; done.
  - rewrite IH. apply orb_true_r.
Qed.

Lemma str_contains_inside (needle before after : string) :
  str_contains needle (before +:+ needle +:+ after) = true.
Proof.
  unfold str_contains. rewrite !list_ascii_of_string_app. apply is_infix_app.
Qed.

Section Links.
Import CustomValidator.

Variable urlparse : value → result parse_result.

(** X10. The four checks on links never raise: whatever the link is, a
    number included, they answer yes or no.  What they ask of the host is
    containment, not equality: a link of scheme http or https whose host
    merely contains "docs.motive.com", with anything before or after it,
    passes the documentation check, and passes the VG5 and abbreviation
    checks when its path contains "/vg5/" and "/abbr/" in turn; likewise
    for "redash.motive.com" and the metrics check.  A link that passes the
    VG5 or the abbreviation check passes the documentation check. *)
Theorem host_is_checked_by_containment (url : value) :
  (∃ b1 b2 b3 b4,
     _is_valid_motive_docs_url urlparse url = Ok b1 ∧
     _is_valid_vg5_url urlparse url = Ok b2 ∧
     _is_valid_abbr_url urlparse url = Ok b3 ∧
     _is_valid_metrics_url urlparse url = Ok b4) ∧
  (∀ parsed before after,
     urlparse url = Ok parsed →
     scheme parsed ∈ ["http"; "https"] →
     (netloc parsed = before +:+ "docs.motive.com" +:+ after →
      _is_valid_motive_docs_url urlparse url = Ok true ∧
      _is_valid_vg5_url urlparse url = Ok (str_contains "/vg5/" (path parsed)) ∧
      _is_valid_abbr_url urlparse url = Ok (str_contains "/abbr/" (path parsed))) ∧
     (netloc parsed = before +:+ "redash.motive.com" +:+ after →
      _is_valid_metrics_url urlparse url = Ok true)) ∧
  (_is_valid_vg5_url urlparse url = Ok true ∨ _is_valid_abbr_url urlparse url = Ok true →
   _is_valid_motive_docs_url urlparse url = Ok true).
Proof.
  unfold _is_valid_motive_docs_url, _is_valid_vg5_url, _is_valid_abbr_url,
    _is_valid_metrics_url, url_rule.
  split; [|split].
  - destruct (urlparse url); eauto 10.
  - intros parsed before after -> Hscheme.
    assert (http_or_https parsed = true) as ->
      by (unfold http_or_https; by apply bool_decide_eq_true_2).
    split; intros ->; rewrite str_contains_inside; done.
  - destruct (urlparse url) as [parsed|]; [|by intros [?|?]].
    intros [[= H]|[= H]]; apply andb_true_iff in H as [-> _]; done.
Qed.

End Links.

(** ** Documents without lists *)

Section EmptyDocuments.
Import CustomValidator CrossReferenceValidator.

Variable urlparse : value → result parse_result.

(** X11. Two documents that are mappings without any of the lists
    ([parameters], [breadcrumb_fields], [vg5_fields], [abbr_metrics];
    [protocol_groups], [protocols]) pass the rule validators, the
    cross-reference validator and the bidirectional validator: there is
    nothing to check.  A parameters document that is empty, which YAML
    loads as null, is invalid for each of them, with the single message
    made from the exception that the first test for a key raises. *)
Theorem documents_without_lists (fs : filesystem) (parameters_file protocols_file : string) :
  (∀ parameters protocols,
     fs parameters_file = Yaml (VDict parameters) →
     fs protocols_file = Yaml (VDict protocols) →
     (∀ k, k ∈ ["parameters"; "breadcrumb_fields"; "vg5_fields"; "abbr_metrics"] →
           assoc k parameters = None) →
     (∀ k, k ∈ ["protocol_groups"; "protocols"] → assoc k protocols = None) →
     validate_parameters_business_logic urlparse fs parameters_file
       = (true, [CustomValidationPassed]) ∧
     validate_protocols_business_logic fs protocols_file
       = (true, [CustomValidationPassed]) ∧
     validate_cross_references fs parameters_file protocols_file
       = (true, [CrossReferencePassed]) ∧
     validate_bidirectional_consistency fs parameters_file protocols_file
       = (true, [BidirectionalPassed])) ∧
  (∀ protocols_data,
     fs parameters_file = Yaml VNone →
     fs protocols_file = Yaml protocols_data →
     validate_parameters_business_logic urlparse fs parameters_file
       = (false, [CustomValidationError TypeError]) ∧
     (∃ e, validate_cross_references fs parameters_file protocols_file
           = (false, [CrossReferenceError e])) ∧
     validate_bidirectional_consistency fs parameters_file protocols_file
       = (false, [BidirectionalError TypeError])).
Proof.
  split.
  - intros parameters protocols Hfile1 Hfile2 Hparameters Hprotocols.
    assert (∀ k, k ∈ ["parameters"; "breadcrumb_fields"; "vg5_fields"; "abbr_metrics"] →
                 ∀ loop, in_section (VDict parameters) k loop = Ok []) as Hin1.
    { intros k Hk loop. unfold in_section, section_items. simpl.
      by rewrite (Hparameters k Hk). }
    assert (∀ k, k ∈ ["protocol_groups"; "protocols"] →
                 ∀ loop, in_section (VDict protocols) k loop = Ok []) as Hin2.
    { intros k Hk loop. unfold in_section, section_items. simpl.
      by rewrite (Hprotocols k Hk). }
    assert (∀ k field keep,
              k ∈ ["parameters"; "breadcrumb_fields"; "vg5_fields"; "abbr_metrics"] →
              collect_section (VDict parameters) k field keep = Ok ∅) as Hcollect1.
    { intros k field keep Hk. unfold collect_section, section_items. simpl.
      by rewrite (Hparameters k Hk). }
    assert (∀ k field keep, k ∈ ["protocol_groups"; "protocols"] →
              collect_section (VDict protocols) k field keep = Ok ∅) as Hcollect2.
    { intros k field keep Hk. unfold collect_section, section_items. simpl.
      by rewrite (Hprotocols k Hk). }
    assert (∀ (l : list string) k, bool_decide (k ∈ l) = true → k ∈ l) as Hdec
      by (intros l k; apply bool_decide_eq_true_1).
    unfold validate_parameters_business_logic, validate_protocols_business_logic,
      validate_cross_references, validate_bidirectional_consistency, _load_yaml_file,
      safe_load.
    rewrite Hfile1, Hfile2. cbn [mbind result_bind].
    split; [|split; [|split]].
    + unfold parameters_checks.
      rewrite !when_present_missing by (apply Hparameters; by apply Hdec). done.
    + unfold protocols_checks.
      rewrite !when_present_missing by (apply Hprotocols; by apply Hdec). done.
    + unfold cross_references_checks, _validate_parameter_to_protocol_refs,
        _validate_protocol_to_parameter_refs, _validate_internal_parameter_refs,
        _validate_internal_protocol_refs.
      rewrite !Hcollect1, !Hcollect2 by (by apply Hdec). cbn [mbind result_bind].
      rewrite !Hin1, !Hin2 by (by apply Hdec). done.
    + unfold bidirectional_checks, build_refs_section, section_items. simpl.
      rewrite (Hparameters "parameters"), (Hprotocols "protocol_groups")
        by (by apply Hdec).
      done.
  - intros protocols_data Hfile1 Hfile2.
    unfold validate_parameters_business_logic, validate_cross_references,
      validate_bidirectional_consistency, _load_yaml_file, safe_load.
    rewrite Hfile1, Hfile2. simpl. split; [done|]. split; [|done].
    unfold cross_references_checks, _validate_parameter_to_protocol_refs.
    destruct (collect_section protocols_data _ _ _); simpl; eauto.
Qed.

End EmptyDocuments.


(** ** The keys of the generated database *)

Section Keys.
Import DatabaseGenerator.

Variable numeric_of_text : string → sqlval.
Variable draws : table → list Z.

Local Abbreviation insert_owner := (insert_owner numeric_of_text draws).
Local Abbreviation insert_dependent := (insert_dependent numeric_of_text).
Local Abbreviation owner_row := (owner_row numeric_of_text draws).
Local Abbreviation store_all := (store_all numeric_of_text).
Local Abbreviation generate_database := (generate_database numeric_of_text draws).

Lemma largest_rowid_bounds (t : table) :
  match largest_rowid t with
  | None => t = []
  | Some largest => ∀ r, r ∈ t → row_id r ≤ largest
  end.
Proof.
  induction t as [|r0 t IH]; simpl; [done|].
  intros r [->|Hr]%elem_of_cons.
  - destruct (largest_rowid t); simpl; lia.
  - destruct (largest_rowid t) as [largest|]; simpl.
    + specialize (IH r Hr). lia.
    + subst t. by apply elem_of_nil in Hr.
Qed.

Lemma assign_rowid_fresh (t : table) supplied z :
  assign_rowid draws t supplied = Ok z → z ∉ map row_id t.
Proof.
  unfold assign_rowid. pose proof (largest_rowid_bounds t) as Hbounds.
  destruct supplied as [|z'| |]; [| |done..].
  - destruct (largest_rowid t) as [largest|].
    + case_bool_decide.
      * intros [= <-] Hin.
        apply list_elem_of_In, in_map_iff in Hin as (r & Hr & Hin).
        apply list_elem_of_In, Hbounds in Hin. lia.
      * destruct (filter _ (draws t)) as [|z0 rest] eqn:Hdraws; [done|].
        intros [= <-].
        assert (z0 ∈ filter (λ z, z ∉ map row_id t) (draws t)) as Hz
          by (rewrite Hdraws; apply list_elem_of_here).
        by apply list_elem_of_filter in Hz as [Hz _].
    + subst t. intros _ Hin. by apply elem_of_nil in Hin.
  - case_bool_decide; [done|]. by intros [= <-].
Qed.

(** What an INSERT into an owning table adds: one row, under a rowid
    that was not in use, with a name that is not null. *)
Lemma insert_owner_adds affinities (t : table) bs t' :
  insert_owner affinities t bs = Ok t' →
  ∃ r, t' = t ++ [r] ∧ (row_id r ∉ map row_id t) ∧ head (cells r) ≠ Some SNull.
Proof.
  unfold DatabaseGenerator.insert_owner. destruct bs as [|id others]; [done|].
  intros Hrun. apply bind_Ok in Hrun as (rowid & Hrowid & Hrun).
  destruct (store_all affinities others) as [|name stored] eqn:Hstored; [done|].
  repeat case_bool_decide; try done. injection Hrun as <-.
  eexists. split; [done|]. simpl. split; [by apply assign_rowid_fresh in Hrowid|].
  congruence.
Qed.

Lemma insert_owners_keep affinities columns items (t t' : table) :
  insert_all (insert_owner affinities) columns items t = Ok t' →
  NoDup (map row_id t) → Forall (λ r, head (cells r) ≠ Some SNull) t →
  NoDup (map row_id t') ∧ Forall (λ r, head (cells r) ≠ Some SNull) t'.
Proof.
  revert t. induction items as [|record items IH]; intros t Hrun Hnodup Hnames.
  { by injection Hrun as <-. }
  simpl in Hrun. apply bind_Ok in Hrun as (bs & _ & Hrun).
  apply bind_Ok in Hrun as (t1 & Hinsert & Hrun).
  apply insert_owner_adds in Hinsert as (r & -> & Hfresh & Hname).
  apply (IH _ Hrun).
  - rewrite map_app. simpl. apply NoDup_app. split; [done|].
    split; [|apply NoDup_singleton].
    by intros z Hz ->%list_elem_of_singleton.
  - apply Forall_app. split; [done|]. by constructor.
Qed.

(** The rows of an owning table after the generator has filled it. *)
Lemma owning_table data k columns affinities t' :
  insert_section data k (insert_owner affinities) ("id" :: columns) [] = Ok t' →
  Forall2 (owner_row columns affinities) (records data k) t' ∧
  NoDup (map row_id t') ∧
  Forall (λ r, head (cells r) ≠ Some SNull) t'.
Proof.
  intros Hrun. split; [by apply owners_inserted|].
  apply insert_section_records in Hrun.
  apply (insert_owners_keep _ _ _ _ _ Hrun); constructor.
Qed.

Lemma nameless_owner data k name_field columns affinities t' record :
  insert_section data k (insert_owner (TEXT :: affinities))
    ("id" :: name_field :: columns) [] = Ok t' →
  record ∈ records data k →
  py_get record name_field VNone = Ok VNone →
  False.
Proof.
  intros (Hrows & _ & Hnames)%owning_table Hin Hname.
  apply list_elem_of_lookup in Hin as [i Hi].
  destruct (Forall2_lookup_l _ _ _ _ _ Hrows Hi)
    as (r & Hr & id & others & t0 & Hbind & _ & Hcells).
  apply bind_columns_cons in Hbind as (? & ? & ? & _ & _ & Hbind & [= -> ->]).
  apply bind_columns_cons in Hbind as (v & b & rest & Hget & Hbound & _ & ->).
  rewrite Hname in Hget. injection Hget as <-. injection Hbound as <-.
  rewrite Forall_forall in Hnames. apply (Hnames r).
  - apply list_elem_of_lookup. eauto.
  - by rewrite Hcells.
Qed.

Lemma duplicate_owner data k columns affinities t' i j ri rj z :
  insert_section data k (insert_owner affinities) ("id" :: columns) [] = Ok t' →
  i ≠ j →
  records data k !! i = Some ri → records data k !! j = Some rj →
  py_get ri "id" VNone = Ok (VInt z) → py_get rj "id" VNone = Ok (VInt z) →
  False.
Proof.
  intros (Hrows & Hnodup & _)%owning_table Hne Hi Hj Hidi Hidj.
  assert (∀ n record, records data k !! n = Some record →
            py_get record "id" VNone = Ok (VInt z) →
            map row_id t' !! n = Some z) as Hrow.
  { intros n record Hn Hid.
    destruct (Forall2_lookup_l _ _ _ _ _ Hrows Hn)
      as (r & Hr & id & others & t0 & Hbind & Hassign & _).
    apply bind_columns_cons in Hbind as (v & b & ? & Hget & Hbound & _ & [= -> ->]).
    rewrite Hid in Hget. injection Hget as <-.
    simpl in Hbound. case_bool_decide; [|done]. injection Hbound as <-.
    simpl in Hassign. case_bool_decide; [done|]. injection Hassign as Hz.
    change (map row_id t') with (row_id <$> t').
    rewrite list_lookup_fmap, Hr. simpl. by rewrite Hz. }
  apply Hne. eapply NoDup_lookup; [exact Hnodup|by eapply Hrow..].
Qed.

(** Two parameters with the same integer [id] make the generator fail,
    whatever the protocols file holds: when that file does not load the
    database file is as it was, otherwise it holds the six empty
    tables. *)
Lemma duplicate_parameters_fail output_path fs parameters_file protocols_file
    parameters_data artifact i j ri rj z :
  fs parameters_file = Yaml parameters_data →
  i ≠ j →
  records parameters_data "parameters" !! i = Some ri →
  records parameters_data "parameters" !! j = Some rj →
  py_get ri "id" VNone = Ok (VInt z) → py_get rj "id" VNone = Ok (VInt z) →
  ∃ e, generate_database output_path fs parameters_file protocols_file artifact
       = ((false, GenerationFailed e),
          match fs protocols_file with
          | Yaml _ => Some _create_tables
          | _ => artifact
          end).
Proof.
  intros Hfile Hne Hi Hj Hidi Hidj.
  unfold DatabaseGenerator.generate_database, safe_load. rewrite Hfile. simpl.
  destruct (fs protocols_file) as [| | |protocols_data]; simpl; [eauto..|].
  destruct (_insert_parameters_data _ _ _ _) as [db1|] eqn:Hdb1; simpl; [exfalso|eauto].
  unfold _insert_parameters_data in Hdb1.
  apply bind_Ok in Hdb1 as (t1 & Ht1 & _). simpl in Ht1.
  exact (duplicate_owner _ _ _ _ _ _ _ _ _ _ Ht1 Hne Hi Hj Hidi Hidj).
Qed.

(** X12. The generator enforces what its tables declare, whether the
    validators have been run or not.  When a parameter has no
    [field_name] or a protocol group no [group_name] (the key is absent or
    null), and when two parameters or two protocol groups carry the same
    integer [id], [generate_database] fails: it returns the failure message
    made from an exception.  By then the previous database file is gone:
    what is left at the output path is a database of the six tables
    without a single row. *)
Theorem generation_enforces_the_keys (output_path : string) (fs : filesystem)
    (parameters_file protocols_file : string) (parameters_data protocols_data : value)
    (artifact : option database) (data : value) (section name_field : string) :
  fs parameters_file = Yaml parameters_data →
  fs protocols_file = Yaml protocols_data →
  (data, section, name_field) ∈
    [(parameters_data, "parameters", "field_name");
     (protocols_data, "protocol_groups", "group_name")] →
  (∃ record, record ∈ records data section ∧
             py_get record name_field VNone = Ok VNone) ∨
  (∃ i j ri rj z, i ≠ j ∧
     records data section !! i = Some ri ∧ records data section !! j = Some rj ∧
     py_get ri "id" VNone = Ok (VInt z) ∧ py_get rj "id" VNone = Ok (VInt z)) →
  ∃ e, generate_database output_path fs parameters_file protocols_file artifact
       = ((false, GenerationFailed e), Some _create_tables) ∧
       Forall (λ t, t = [])
         [parameters _create_tables; breadcrumb_fields _create_tables;
          vg5_fields _create_tables; abbr_metrics _create_tables;
          protocol_groups _create_tables; protocols _create_tables].
Proof.
  intros Hfile1 Hfile2 Hkind Hbad.
  assert (∃ e, generate_database output_path fs parameters_file protocols_file artifact
               = ((false, GenerationFailed e), Some _create_tables)) as [e He];
    [|exists e; split; [done|by repeat constructor]].
  unfold DatabaseGenerator.generate_database, safe_load. rewrite Hfile1, Hfile2. simpl.
  destruct (_insert_parameters_data _ _ _ _) as [db1|] eqn:Hdb1; simpl; [|eauto].
  destruct (_insert_protocols_data _ _ _ _) as [db2|] eqn:Hdb2; [exfalso|eauto].
  unfold _insert_parameters_data in Hdb1.
  apply bind_Ok in Hdb1 as (t1 & Ht1 & Hdb1). inv_bind Hdb1. subst db1.
  unfold _insert_protocols_data in Hdb2.
  apply bind_Ok in Hdb2 as (t2 & Ht2 & _).
  simpl in Ht1, Ht2.
  unfold parameters_affinities, parameters_columns in Ht1.
  unfold groups_affinities, groups_columns in Ht2.
  elems Hkind; simplify_eq.
  - destruct Hbad as [(record & Hin & Hname)|(i & j & ri & rj & z & Hne & Hi & Hj & Hidi & Hidj)].
    + exact (nameless_owner _ _ _ _ _ _ _ Ht1 Hin Hname).
    + exact (duplicate_owner _ _ _ _ _ _ _ _ _ _ Ht1 Hne Hi Hj Hidi Hidj).
  - destruct Hbad as [(record & Hin & Hname)|(i & j & ri & rj & z & Hne & Hi & Hj & Hidi & Hidj)].
    + exact (nameless_owner _ _ _ _ _ _ _ Ht2 Hin Hname).
    + exact (duplicate_owner _ _ _ _ _ _ _ _ _ _ Ht2 Hne Hi Hj Hidi Hidj).
Qed.

(** Rowids that count up from [k + 1]. *)
Lemma largest_rowid_numbered (k : Z) (t : table) :
  (∀ i r, t !! i = Some r → row_id r = k + Z.of_nat i + 1) →
  largest_rowid t =
  match t with
  | [] => None
  | _ :: _ => Some (k + Z.of_nat (length t))
  end.
Proof.
  revert k. induction t as [|r0 t IH]; intros k Hnumbered; [done|].
  pose proof (Hnumbered 0%nat r0 eq_refl) as Hr0.
  change (largest_rowid (r0 :: t))
    with (Some (from_option (Z.max (row_id r0)) (row_id r0) (largest_rowid t))).
  rewrite (IH (k + 1)).
  - destruct t as [|r1 t]; simpl; f_equal; lia.
  - intros i r Hi. rewrite (Hnumbered (S i) r Hi). lia.
Qed.

Lemma insert_dependents_numbered affinities columns items (t t' : table) :
  insert_all (insert_dependent affinities) columns items t = Ok t' →
  (∀ i r, t !! i = Some r → row_id r = Z.of_nat i + 1) →
  ∀ i r, t' !! i = Some r → row_id r = Z.of_nat i + 1.
Proof.
  revert t. induction items as [|record items IH]; intros t Hrun Hnumbered.
  { by injection Hrun as <-. }
  simpl in Hrun. apply bind_Ok in Hrun as (bs & _ & Hrun).
  apply bind_Ok in Hrun as (t1 & Hinsert & Hrun).
  apply (IH _ Hrun). clear IH Hrun.
  unfold DatabaseGenerator.insert_dependent, autoincrement_rowid in Hinsert.
  rewrite (largest_rowid_numbered 0 t) in Hinsert
    by (intros i r Hi; rewrite (Hnumbered i r Hi); lia).
  assert (∃ r0, t1 = t ++ [r0] ∧ row_id r0 = Z.of_nat (length t) + 1)
    as (r0 & -> & Hr0).
  { destruct t as [|r1 t].
    - injection Hinsert as <-. by eexists.
    - cbn [mbind result_bind] in Hinsert. case_bool_decide; [|done].
      injection Hinsert as <-. eexists. split; [done|]. simpl. lia. }
  intros i r Hi. apply lookup_app_Some in Hi as [Hi|[Hlen Hi]]; [by apply Hnumbered|].
  apply list_lookup_singleton_Some in Hi as [Hi <-].
  rewrite Hr0. f_equal. f_equal. lia.
Qed.

(** The rows of a dependent table after the generator has filled it:
    the row at index [i] holds the columns of the record at index [i],
    under the id [i + 1]. *)
Lemma dependent_table data k columns affinities t' :
  insert_section data k (insert_dependent affinities) columns [] = Ok t' →
  length t' = length (records data k) ∧
  ∀ i record, records data k !! i = Some record →
    ∃ bs, bind_columns record columns = Ok bs ∧
          t' !! i = Some {| row_id := Z.of_nat (i + 1); cells := store_all affinities bs |}.
Proof.
  intros Hrun. pose proof (dependents_inserted _ _ _ _ _ _ Hrun) as Hrows.
  split; [symmetry; by eapply Forall2_length|].
  intros i record Hi.
  destruct (Forall2_lookup_l _ _ _ _ _ Hrows Hi) as (r & Hr & bs & Hbind & Hcells).
  exists bs. split; [done|].
  apply insert_section_records in Hrun.
  assert (row_id r = Z.of_nat i + 1) as Hid.
  { eapply insert_dependents_numbered; [exact Hrun|done|exact Hr]. }
  assert (r = {| row_id := Z.of_nat (i + 1); cells := store_all affinities bs |}) as <-;
    [|exact Hr].
  destruct r as [id cs]. simpl in *. subst. f_equal. lia.
Qed.

(** X13. In a database that [generate_database] has created, each of the
    four dependent tables has one row per record of its list, in the order
    of the document: the row at index [i] holds the columns of the record
    at index [i] as the engine stores them, and its id is [i + 1], the
    position the validators give in their messages. *)
Theorem dependent_rows_are_numbered (output_path : string) (fs : filesystem)
    (parameters_file protocols_file : string) (parameters_data protocols_data : value)
    (artifact : option database) (message : outcome) (db : database)
    (data : value) (k : string) (columns : list string) (affinities : list affinity)
    (t : table) :
  fs parameters_file = Yaml parameters_data →
  fs protocols_file = Yaml protocols_data →
  generate_database output_path fs parameters_file protocols_file artifact
    = ((true, message), Some db) →
  (data, k, columns, affinities, t) ∈
    [(parameters_data, "breadcrumb_fields", breadcrumb_columns, breadcrumb_affinities,
      breadcrumb_fields db);
     (parameters_data, "vg5_fields", vg5_columns, vg5_affinities, vg5_fields db);
     (parameters_data, "abbr_metrics", abbr_columns, abbr_affinities, abbr_metrics db);
     (protocols_data, "protocols", protocols_columns, protocols_affinities,
      protocols db)] →
  length t = length (records data k) ∧
  ∀ i record, records data k !! i = Some record →
    ∃ bs, bind_columns record columns = Ok bs ∧
          t !! i = Some {| row_id := Z.of_nat (i + 1); cells := store_all affinities bs |}.
Proof.
  intros Hfile1 Hfile2 Hgenerate Ht.
  unfold DatabaseGenerator.generate_database, safe_load in Hgenerate.
  rewrite Hfile1, Hfile2 in Hgenerate. simpl in Hgenerate.
  destruct (_insert_parameters_data _ _ _ _) as [db1|] eqn:Hdb1; [|done].
  simpl in Hgenerate.
  destruct (_insert_protocols_data _ _ _ _) as [db2|] eqn:Hdb2; [|done].
  injection Hgenerate as _ <-.
  unfold _insert_parameters_data in Hdb1. inv_bind Hdb1. subst db1.
  unfold _insert_protocols_data in Hdb2. inv_bind Hdb2. subst db2.
  simpl in *.
  elems Ht; simplify_eq; by apply dependent_table.
Qed.

End Keys.


(** ** Additions to the files *)

Lemma assoc_assign k' k v entries :
  assoc k' (assign k v entries) = if String.eqb k' k then Some v else assoc k' entries.
Proof.
  induction entries as [|[k0 v0] entries IH]; simpl.
  { by destruct (String.eqb k' k). }
  destruct (String.eqb k k0) eqn:Hk0; simpl.
  - apply String.eqb_eq in Hk0 as <-. by destruct (String.eqb k' k).
  - rewrite IH. destruct (String.eqb k' k0) eqn:Hk'; [|done].
    apply String.eqb_eq in Hk' as ->. by rewrite String.eqb_sym, Hk0.
Qed.

Lemma records_dict entries k :
  records (VDict entries) k =
  match assoc k entries with
  | Some v => match py_iter v with Ok l => l | Raise _ => [] end
  | None => []
  end.
Proof.
  unfold records, section_items. simpl.
  destruct (assoc k entries) as [v|]; simpl; [|done].
  by destruct (py_iter v).
Qed.

Lemma records_absent data k : py_in k data = Ok false → records data k = [].
Proof. unfold records, section_items. by intros ->. Qed.

(** The records read with [data.get(k, [])] are those read with
    [if k in data: ... data[k]]. *)
Lemma records_get data k section items :
  py_get data k (VList []) = Ok section → py_iter section = Ok items →
  records data k = items.
Proof.
  destruct data as [| |entries]; try done. simpl. intros [= <-] Hitems.
  rewrite records_dict. destruct (assoc k entries) as [v|]; simpl in *.
  - by rewrite Hitems.
  - by injection Hitems as <-.
Qed.

Lemma mapM_Ok {A B} (f : A → result B) (l : list A) (k : list B) :
  mapM f l = Ok k → Forall2 (λ x y, f x = Ok y) l k.
Proof.
  revert k. induction l as [|x l IH]; intros k Hrun.
  { injection Hrun as <-. constructor. }
  simpl in Hrun. apply bind_Ok in Hrun as (y & Hy & Hrun).
  apply bind_Ok in Hrun as (k' & Hk' & Hrun). injection Hrun as <-.
  constructor; [done|by apply IH].
Qed.

Lemma py_contains_true l x : py_contains l x = true ↔ ∃ e, e ∈ l ∧ py_equal e x = true.
Proof.
  unfold py_contains. rewrite existsb_exists. split.
  - intros (e & He & Heq). exists e. by rewrite list_elem_of_In.
  - intros (e & He & Heq). exists e. by rewrite <-list_elem_of_In.
Qed.

Lemma py_equal_atoms a b : py_equal (VAtom a) (VAtom b) = bool_decide (key_of a = key_of b).
Proof. done. Qed.

Section Additions.
Import App.

Variables id_field name_field : string.
Variables id_exists name_exists : value → note.

(** The values of a field across the records of a list. *)
Lemma column_records existing_data k field values :
  column existing_data k field = Ok values →
  (∃ entries, existing_data = VDict entries) ∧
  Forall2 (λ p v, py_getitem p field = Ok v) (records existing_data k) values.
Proof.
  unfold column. intros Hrun.
  apply bind_Ok in Hrun as (section & Hsection & Hrun).
  apply bind_Ok in Hrun as (items & Hitems & Hrun).
  rewrite (records_get _ _ _ _ Hsection Hitems).
  split; [|by apply mapM_Ok].
  destruct existing_data; try done. eauto.
Qed.

(** What the loop over the new records has established when it ends
    without a clash. *)
Lemma first_clash_None existing_ids existing_names items :
  first_clash id_field name_field id_exists name_exists existing_ids existing_names items
    = Ok None →
  Forall (λ record, ∃ id name,
    py_getitem record id_field = Ok id ∧ py_contains existing_ids id = false ∧
    py_getitem record name_field = Ok name ∧ py_contains existing_names name = false)
    items.
Proof.
  induction items as [|record items IH]; intros Hrun; [constructor|].
  simpl in Hrun. apply bind_Ok in Hrun as (id & Hid & Hrun).
  destruct (py_contains existing_ids id) eqn:Hids; [done|].
  apply bind_Ok in Hrun as (name & Hname & Hrun).
  destruct (py_contains existing_names name) eqn:Hnames; [done|].
  constructor; [by exists id, name|by apply IH].
Qed.


(** One [setdefault(k, []).extend(...)] statement: the list under [k]
    grows by the new records, the other keys keep their values. *)
Lemma extend_section_records new_data entries k updated :
  extend_section new_data (VDict entries) k = Ok updated →
  ∃ entries', updated = VDict entries' ∧
    records updated k = records (VDict entries) k ++ records new_data k ∧
    ∀ k', k' ≠ k → assoc k' entries' = assoc k' entries.
Proof.
  unfold extend_section. intros Hrun. apply bind_Ok in Hrun as ([] & Hin & Hrun).
  - destruct (default (VList []) (assoc k entries)) as [|l|] eqn:Hlist; try done.
    apply bind_Ok in Hrun as (addition & Haddition & Hrun).
    apply bind_Ok in Hrun as (items & Hitems & Hrun). injection Hrun as <-.
    eexists. split; [done|]. split.
    + rewrite !records_dict, assoc_assign, String.eqb_refl. simpl.
      assert (records new_data k = items) as ->.
      { unfold records, section_items. rewrite Hin. simpl.
        rewrite Haddition. simpl. by rewrite Hitems. }
      destruct (assoc k entries) as [v|]; simpl in Hlist.
      * by subst v.
      * by injection Hlist as <-.
    + intros k' Hne. rewrite assoc_assign.
      by apply String.eqb_neq in Hne as ->.
  - injection Hrun as <-. exists entries. split; [done|].
    rewrite (records_absent _ _ Hin), app_nil_r. done.
Qed.

Lemma extend_sections_records new_data entries sections updated :
  in_turn (extend_section new_data) (VDict entries) sections = Ok updated →
  NoDup sections →
  ∃ entries', updated = VDict entries' ∧
    (∀ k, k ∈ sections →
       records updated k = records (VDict entries) k ++ records new_data k) ∧
    ∀ k, k ∉ sections → assoc k entries' = assoc k entries.
Proof.
  revert entries. induction sections as [|k sections IH]; intros entries Hrun Hnodup.
  { injection Hrun as <-. exists entries. split; [done|]. split; [|done].
    by intros k ?%elem_of_nil. }
  simpl in Hrun. apply bind_Ok in Hrun as (data1 & Hstep & Hrun).
  apply NoDup_cons in Hnodup as [Hfresh Hnodup].
  apply extend_section_records in Hstep as (entries1 & -> & Hk & Hothers).
  destruct (IH _ Hrun Hnodup) as (entries' & -> & Hsections & Hrest).
  exists entries'. split; [done|]. split.
  - intros k' [->|Hk']%elem_of_cons.
    + rewrite <-Hk. rewrite !records_dict. by rewrite (Hrest k Hfresh).
    + rewrite (Hsections k' Hk'). f_equal. rewrite !records_dict.
      rewrite Hothers; [done|]. by intros ->.
  - intros k' Hk'. rewrite Hrest by (intros ?; apply Hk'; by apply list_elem_of_further).
    apply Hothers. intros ->. apply Hk', list_elem_of_here.
Qed.

(** What [merged] has established when it returns a document to write. *)
Lemma merged_document fs file owners sections new_data updated :
  merged fs file owners id_field name_field id_exists name_exists sections new_data
    = Ok (inr updated) →
  NoDup sections →
  ∃ entries entries',
    fs file = Yaml (VDict entries) ∧ updated = VDict entries' ∧
    (∀ k, k ∈ sections →
       records updated k = records (VDict entries) k ++ records new_data k) ∧
    (∀ k, k ∉ sections → assoc k entries' = assoc k entries) ∧
    Forall (λ record, ∃ id name,
      py_getitem record id_field = Ok id ∧ py_getitem record name_field = Ok name ∧
      ∀ existing, existing ∈ records (VDict entries) owners →
        ∃ id' name',
          py_getitem existing id_field = Ok id' ∧ py_equal id' id = false ∧
          py_getitem existing name_field = Ok name' ∧ py_equal name' name = false)
      (records new_data owners).
Proof.
  unfold merged. intros Hrun Hnodup.
  apply bind_Ok in Hrun as (existing_data & Hload & Hrun).
  apply bind_Ok in Hrun as (existing_ids & Hids & Hrun).
  apply bind_Ok in Hrun as (existing_names & Hnames & Hrun).
  apply bind_Ok in Hrun as (section & Hsection & Hrun).
  apply bind_Ok in Hrun as (items & Hitems & Hrun).
  apply bind_Ok in Hrun as ([message|] & Hclash & Hrun); [done|].
  apply bind_Ok in Hrun as (updated' & Hupdated & Hrun). injection Hrun as ->.
  apply column_records in Hids as [[entries ->] Hids].
  apply column_records in Hnames as [_ Hnames].
  destruct (extend_sections_records _ _ _ _ Hupdated Hnodup)
    as (entries' & -> & Hsections & Hrest).
  exists entries, entries'.
  split. { unfold safe_load in Hload. by destruct (fs file); simplify_eq. }
  split; [done|]. split; [done|]. split; [done|].
  rewrite (records_get _ _ _ _ Hsection Hitems).
  apply first_clash_None in Hclash.
  eapply Forall_impl; [exact Hclash|].
  intros record (id & name & Hid & Hfresh_id & Hname & Hfresh_name). simpl.
  exists id, name. split; [done|]. split; [done|].
  intros existing [i Hi]%list_elem_of_lookup.
  destruct (Forall2_lookup_l _ _ _ _ _ Hids Hi) as (id' & Hid' & Hget_id).
  destruct (Forall2_lookup_l _ _ _ _ _ Hnames Hi) as (name' & Hname' & Hget_name).
  exists id', name'. split; [done|]. split; [|split; [done|]].
  - destruct (py_equal id' id) eqn:Heq; [|done].
    rewrite <-Hfresh_id. symmetry. apply py_contains_true.
    exists id'. split; [|done]. apply list_elem_of_lookup. eauto.
  - destruct (py_equal name' name) eqn:Heq; [|done].
    rewrite <-Hfresh_name. symmetry. apply py_contains_true.
    exists name'. split; [|done]. apply list_elem_of_lookup. eauto.
Qed.


End Additions.

Section Service.
Import MainValidator DatabaseGenerator App.

Variable schema : Type.
Variable iter_errors : schema → value → result (list schema_error).
Variables parameters_schema protocols_schema : schema.
Variable numeric_of_text : string → sqlval.
Variable draws : table → list Z.

Local Abbreviation add_new_parameter_with_validation :=
  (add_new_parameter_with_validation schema iter_errors parameters_schema
     numeric_of_text draws).
Local Abbreviation add_new_protocol_with_validation :=
  (add_new_protocol_with_validation schema iter_errors protocols_schema
     numeric_of_text draws).
Local Abbreviation regenerate_database := (regenerate_database numeric_of_text draws).

Lemma validate_new_data_invalid json_result passed messages :
  validate_new_data json_result passed = (false, messages) →
  ∃ json_messages, messages = Reported <$> json_messages.
Proof.
  unfold validate_new_data. destruct json_result as [[] json_messages]; simpl.
  { intros [=]. }
  destruct json_messages as [|m l]; simpl.
  { intros [=]. }
  intros [= <-]. by exists (m :: l).
Qed.

(** The ways [add_new_parameter_with_validation] returns. *)
Lemma add_parameter_cases fs artifact new_parameter_data ok notes fs' artifact' :
  add_new_parameter_with_validation fs artifact new_parameter_data
    = ((ok, notes), (fs', artifact')) →
  (ok = true ∧ notes = [ParameterAdded] ∧
   ∃ updated,
     merged fs "data/parameters.yaml" "parameters" "id" "field_name"
       ParameterIdExists ParameterNameExists
       ["parameters"; "breadcrumb_fields"; "vg5_fields"; "abbr_metrics"]
       new_parameter_data = Ok (inr updated) ∧
     fs' = write fs "data/parameters.yaml" updated ∧
     artifact' = (regenerate_database fs' artifact).2) ∨
  (ok = false ∧ (fs' = fs ∧ artifact' = artifact) ∧
   ((∃ message,
       merged fs "data/parameters.yaml" "parameters" "id" "field_name"
         ParameterIdExists ParameterNameExists
         ["parameters"; "breadcrumb_fields"; "vg5_fields"; "abbr_metrics"]
         new_parameter_data = Ok (inl message) ∧
       notes = [message]) ∨
    (∃ e, notes = [ErrorAddingParameter e]) ∨
    (∃ json_messages, notes = Reported <$> json_messages))).
Proof.
  unfold App.add_new_parameter_with_validation, validate_new_parameter_data.
  destruct (validate_new_data _ _) as [[] messages] eqn:Hvalid; simpl.
  - destruct (merged _ _ _ _ _ _ _ _ _) as [[message|updated]|e];
      intros [= <- <- <- <-]; [right|left|right]; eauto 10.
  - intros [= <- <- <- <-]. right. split; [done|]. split; [done|].
    right. right. by apply validate_new_data_invalid in Hvalid.
Qed.

Lemma add_protocol_cases fs artifact new_protocol_data ok notes fs' artifact' :
  add_new_protocol_with_validation fs artifact new_protocol_data
    = ((ok, notes), (fs', artifact')) →
  (ok = true ∧ notes = [ProtocolAdded] ∧
   ∃ updated,
     merged fs "data/protocols.yaml" "protocol_groups" "id" "group_name"
       GroupIdExists GroupNameExists ["protocol_groups"; "protocols"]
       new_protocol_data = Ok (inr updated) ∧
     fs' = write fs "data/protocols.yaml" updated ∧
     artifact' = (regenerate_database fs' artifact).2) ∨
  (ok = false ∧ (fs' = fs ∧ artifact' = artifact) ∧
   ((∃ message,
       merged fs "data/protocols.yaml" "protocol_groups" "id" "group_name"
         GroupIdExists GroupNameExists ["protocol_groups"; "protocols"]
         new_protocol_data = Ok (inl message) ∧
       notes = [message]) ∨
    (∃ e, notes = [ErrorAddingProtocol e]) ∨
    (∃ json_messages, notes = Reported <$> json_messages))).
Proof.
  unfold App.add_new_protocol_with_validation, validate_new_protocol_data.
  destruct (validate_new_data _ _) as [[] messages] eqn:Hvalid; simpl.
  - destruct (merged _ _ _ _ _ _ _ _ _) as [[message|updated]|e];
      intros [= <- <- <- <-]; [right|left|right]; eauto 10.
  - intros [= <- <- <- <-]. right. split; [done|]. split; [done|].
    right. right. by apply validate_new_data_invalid in Hvalid.
Qed.

Lemma parameter_sections_NoDup :
  NoDup ["parameters"; "breadcrumb_fields"; "vg5_fields"; "abbr_metrics"].
Proof.
  repeat (apply NoDup_cons; split; [intros H; elems H; discriminate|]).
  apply NoDup_nil_2.
Qed.

Lemma protocol_sections_NoDup : NoDup ["protocol_groups"; "protocols"].
Proof.
  repeat (apply NoDup_cons; split; [intros H; elems H; discriminate|]).
  apply NoDup_nil_2.
Qed.

(** X15. An addition is all or nothing.  When
    [add_new_parameter_with_validation] refuses, for whatever reason, the
    files and the database file are as they were.  When it accepts, the
    only file it has rewritten is the parameters file: each of the four
    lists is the existing list followed by the new records of that list,
    in their order, and every other key of the document keeps its value;
    and it has run the regeneration on the files it leaves, so that the
    database file is what that regeneration left, whether it succeeded or
    not.  The same holds of [add_new_protocol_with_validation], the
    protocols file and its two lists. *)
Theorem additions_append_or_leave (fs : filesystem) (artifact : option database)
    (new_data : value) :
  (∀ notes fs' artifact',
     add_new_parameter_with_validation fs artifact new_data
       = ((false, notes), (fs', artifact')) →
     fs' = fs ∧ artifact' = artifact) ∧
  (∀ notes fs' artifact',
     add_new_parameter_with_validation fs artifact new_data
       = ((true, notes), (fs', artifact')) →
     notes = [ParameterAdded] ∧
     artifact' = (regenerate_database fs' artifact).2 ∧
     ∃ existing updated,
       fs "data/parameters.yaml" = Yaml (VDict existing) ∧
       fs' = write fs "data/parameters.yaml" (VDict updated) ∧
       (∀ k, k ∈ ["parameters"; "breadcrumb_fields"; "vg5_fields"; "abbr_metrics"] →
          records (VDict updated) k = records (VDict existing) k ++ records new_data k) ∧
       (∀ k, k ∉ ["parameters"; "breadcrumb_fields"; "vg5_fields"; "abbr_metrics"] →
          assoc k updated = assoc k existing)) ∧
  (∀ notes fs' artifact',
     add_new_protocol_with_validation fs artifact new_data
       = ((false, notes), (fs', artifact')) →
     fs' = fs ∧ artifact' = artifact) ∧
  (∀ notes fs' artifact',
     add_new_protocol_with_validation fs artifact new_data
       = ((true, notes), (fs', artifact')) →
     notes = [ProtocolAdded] ∧
     artifact' = (regenerate_database fs' artifact).2 ∧
     ∃ existing updated,
       fs "data/protocols.yaml" = Yaml (VDict existing) ∧
       fs' = write fs "data/protocols.yaml" (VDict updated) ∧
       (∀ k, k ∈ ["protocol_groups"; "protocols"] →
          records (VDict updated) k = records (VDict existing) k ++ records new_data k) ∧
       (∀ k, k ∉ ["protocol_groups"; "protocols"] →
          assoc k updated = assoc k existing)).
Proof.
  split; [|split; [|split]].
  - intros notes fs' artifact' Hrun.
    by apply add_parameter_cases in Hrun as [(? & _)|(_ & ? & _)].
  - intros notes fs' artifact' Hrun.
    apply add_parameter_cases in Hrun
      as [(_ & -> & updated & Hmerged & -> & ->)|(? & _)]; [|done].
    split; [done|]. split; [done|].
    destruct (merged_document _ _ _ _ _ _ _ _ _ _ Hmerged parameter_sections_NoDup)
      as (entries & entries' & Hfile & -> & Hsections & Hrest & _).
    by exists entries, entries'.
  - intros notes fs' artifact' Hrun.
    by apply add_protocol_cases in Hrun as [(? & _)|(_ & ? & _)].
  - intros notes fs' artifact' Hrun.
    apply add_protocol_cases in Hrun
      as [(_ & -> & updated & Hmerged & -> & ->)|(? & _)]; [|done].
    split; [done|]. split; [done|].
    destruct (merged_document _ _ _ _ _ _ _ _ _ _ Hmerged protocol_sections_NoDup)
      as (entries & entries' & Hfile & -> & Hsections & Hrest & _).
    by exists entries, entries'.
Qed.


End Service.


(** ** The files after an addition *)

Lemma py_getitem_get record field v dflt :
  py_getitem record field = Ok v → py_get record field dflt = Ok v.
Proof.
  destruct record as [| |entries]; try done. simpl.
  by destruct (assoc field entries); intros [= ->].
Qed.

Lemma write_same fs p v : write fs p v p = Yaml v.
Proof. unfold write. by rewrite String.eqb_refl. Qed.

Lemma write_other fs p v q : q ≠ p → write fs p v q = fs q.
Proof. unfold write. by intros ->%String.eqb_neq. Qed.

(** A list of records that is not empty sits under its key. *)
Lemma records_present entries k record :
  record ∈ records (VDict entries) k →
  ∃ v, assoc k entries = Some v ∧ py_iter v = Ok (records (VDict entries) k).
Proof.
  rewrite records_dict. destruct (assoc k entries) as [v|]; [|by intros ?%elem_of_nil].
  destruct (py_iter v) as [l|] eqn:Hiter; [|by intros ?%elem_of_nil].
  intros _. by exists v.
Qed.

Section AnsweredLinks.
Import CrossReferenceValidator.

(** A name that enters one map cannot be answered by the other map when
    the other map was consistent with the map without that name. *)
Lemma new_parameter_unanswered (d1 d1' d2 : pydict) (h : key) :
  check_groups d1 d2 = Ok [] →
  check_parameters d2 d1' = Ok [] →
  dict_find d1 h = None → is_Some (dict_find d1' h) → False.
Proof.
  intros Hold Hnew Hfresh [r' Hfind].
  apply dict_find_elem in Hfind as (a' & Hin & Hkey).
  pose proof (for_each_nil _ _ _ Hnew Hin) as Hbody. simpl in Hbody.
  apply bind_Ok in Hbody as (h' & Hhash & Hbody).
  destruct (dict_find d2 h') as [e|] eqn:Hfind2; [|done].
  destruct (py_eq a' e) eqn:Heq; [|done].
  apply py_eq_true in Heq as (eb & -> & Heb).
  apply dict_find_elem in Hfind2 as (g & Hin2 & _).
  pose proof (for_each_nil _ _ _ Hold Hin2) as Hbody2. simpl in Hbody2.
  rewrite <-Heb, Hkey, Hfresh in Hbody2. done.
Qed.

Lemma new_group_unanswered (d1 d2 d2' : pydict) (h : key) :
  check_parameters d2 d1 = Ok [] →
  check_groups d1 d2' = Ok [] →
  dict_find d2 h = None → is_Some (dict_find d2' h) → False.
Proof.
  intros Hold Hnew Hfresh [r' Hfind].
  apply dict_find_elem in Hfind as (a' & Hin & Hkey).
  pose proof (for_each_nil _ _ _ Hnew Hin) as Hbody. simpl in Hbody.
  apply bind_Ok in Hbody as (h' & Hhash & Hbody).
  destruct (dict_find d1 h') as [e|] eqn:Hfind1; [|done].
  destruct (py_eq a' e) eqn:Heq; [|done].
  apply py_eq_true in Heq as (eb & -> & Heb).
  apply dict_find_elem in Hfind1 as (g & Hin1 & _).
  pose proof (for_each_nil _ _ _ Hold Hin1) as Hbody1. simpl in Hbody1.
  rewrite <-Heb, Hkey, Hfresh in Hbody1. done.
Qed.

(** A record with both fields has an entry under its name. *)
Lemma build_refs_has_entry name_field ref_field items d it a r :
  build_refs name_field ref_field items [] = Ok d →
  it ∈ items → entry_of name_field ref_field it = Some (a, r) →
  is_Some (dict_find d (key_of a)).
Proof.
  intros Hrun Hit Hentry. rewrite (build_refs_find _ _ _ _ _ _ Hrun).
  destruct (last _) as [e|] eqn:Hlast; [done|].
  apply last_None in Hlast.
  assert ((a, r) ∈ filter (λ e, key_of e.1 = key_of a)
                     (omap (entry_of name_field ref_field) items)) as Hin.
  { apply list_elem_of_filter. split; [done|]. apply list_elem_of_omap. eauto. }
  rewrite Hlast in Hin. by apply elem_of_nil in Hin.
Qed.

(** A name that no record carries has no entry. *)
Lemma build_refs_no_entry name_field ref_field items d a :
  build_refs name_field ref_field items [] = Ok d →
  (∀ it name, it ∈ items → py_get it name_field VNone = Ok (VAtom name) →
              key_of name ≠ key_of a) →
  dict_find d (key_of a) = None.
Proof.
  intros Hrun Hfresh. destruct (dict_find d (key_of a)) as [r|] eqn:Hfind; [|done].
  apply dict_find_elem in Hfind as (a0 & Hin & Hkey).
  destruct (build_refs_keys _ _ _ _ _ _ _ Hrun Hin) as [[? H]|(it & r' & Hit & Hentry)];
    [by apply elem_of_nil in H|].
  apply entry_of_Some in Hentry as (Hname & _).
  by destruct (Hfresh it a0 Hit Hname).
Qed.

Lemma bidirectional_valid_loaded fs parameters_file protocols_file :
  (validate_bidirectional_consistency fs parameters_file protocols_file).1 = true →
  ∃ parameters_data protocols_data,
    fs parameters_file = Yaml parameters_data ∧
    fs protocols_file = Yaml protocols_data ∧
    bidirectional_checks parameters_data protocols_data = Ok [].
Proof.
  unfold validate_bidirectional_consistency, _load_yaml_file, safe_load.
  destruct (fs parameters_file) as [| | |parameters_data]; try done.
  destruct (fs protocols_file) as [| | |protocols_data]; try done.
  simpl. destruct (bidirectional_checks _ _) as [errs|] eqn:Hchecks; [|done].
  intros ->%verdict_valid. by exists parameters_data, protocols_data.
Qed.

End AnsweredLinks.

Section AfterAdditions.
Import MainValidator CrossReferenceValidator DatabaseGenerator App.

Variable schema : Type.
Variable iter_errors : schema → value → result (list schema_error).
Variables parameters_schema protocols_schema : schema.
Variable urlparse : value → result CustomValidator.parse_result.
Variable numeric_of_text : string → sqlval.
Variable draws : table → list Z.

Local Abbreviation add_new_parameter_with_validation :=
  (add_new_parameter_with_validation schema iter_errors parameters_schema
     numeric_of_text draws).
Local Abbreviation add_new_protocol_with_validation :=
  (add_new_protocol_with_validation schema iter_errors protocols_schema
     numeric_of_text draws).
Local Abbreviation regenerate_database := (regenerate_database numeric_of_text draws).
Local Abbreviation validate_yaml_files :=
  (validate_yaml_files schema iter_errors parameters_schema protocols_schema urlparse).

Lemma overall_valid_bidirectional fs parameters_file protocols_file c :
  overall_valid
    (validate_all schema iter_errors parameters_schema protocols_schema urlparse
       fs parameters_file protocols_file c).1 = true →
  (validate_bidirectional_consistency fs parameters_file protocols_file).1 = true.
Proof.
  unfold validate_all. simpl.
  destruct (_check_file_existence fs parameters_file protocols_file); [|done].
  simpl. unfold _generate_summary, _run_json_schema_validation, _run_custom_validation,
    _run_cross_reference_validation, stage. simpl.
  destruct (JSONSchemaValidator.validate_parameters_file _ _ _ _ _) as [[] ?],
    (JSONSchemaValidator.validate_protocols_file _ _ _ _ _) as [[] ?],
    (CustomValidator.validate_parameters_business_logic _ _ _) as [[] ?],
    (CustomValidator.validate_protocols_business_logic _ _) as [[] ?],
    (validate_cross_references _ _ _) as [[] ?],
    (validate_bidirectional_consistency _ _ _) as [[] ?]; done.
Qed.

(** X17. The new records are compared with the existing ones, not with
    each other.  An addition in which two new parameters carry the same
    integer [id] is accepted when it passes the schema check and clashes
    with no existing parameter; the parameters file it leaves is invalid
    for the rule validator, and the regeneration of the database that
    the addition runs fails, although the message returned says that the
    database was regenerated.  The database file it leaves holds the six
    tables without a row; when the protocols file does not load it is the
    previous file. *)
Theorem duplicates_within_an_addition_pass (fs fs' : filesystem)
    (artifact artifact' : option database) (new_data : value)
    (notes : list note) (i j : nat) (ri rj : value) (z : Z) :
  add_new_parameter_with_validation fs artifact new_data
    = ((true, notes), (fs', artifact')) →
  i ≠ j →
  records new_data "parameters" !! i = Some ri →
  records new_data "parameters" !! j = Some rj →
  py_get ri "id" VNone = Ok (VInt z) →
  py_get rj "id" VNone = Ok (VInt z) →
  notes = [ParameterAdded] ∧
  (CustomValidator.validate_parameters_business_logic urlparse fs'
     "data/parameters.yaml").1 = false ∧
  (∃ e, regenerate_database fs' artifact = ((false, GenerationFailed e), artifact')) ∧
  artifact' = match fs' "data/protocols.yaml" with
              | Yaml _ => Some _create_tables
              | _ => artifact
              end.
Proof.
  intros Hrun Hne Hi Hj Hidi Hidj.
  apply add_parameter_cases in Hrun
    as [(_ & -> & updated & Hmerged & -> & ->)|(? & _)]; [|done].
  split; [done|].
  destruct (merged_document _ _ _ _ _ _ _ _ _ _ Hmerged parameter_sections_NoDup)
    as (entries & entries' & Hfile & -> & Hsections & _ & _).
  pose proof (Hsections "parameters" (list_elem_of_here _ _)) as Hrecords.
  set (n := length (records (VDict entries) "parameters")).
  assert (records (VDict entries') "parameters" !! (n + i)%nat = Some ri) as Hi'
    by (rewrite Hrecords; by rewrite lookup_app_r, Nat.add_comm, Nat.add_sub by lia).
  assert (records (VDict entries') "parameters" !! (n + j)%nat = Some rj) as Hj'
    by (rewrite Hrecords; by rewrite lookup_app_r, Nat.add_comm, Nat.add_sub by lia).
  assert (n + i ≠ n + j)%nat as Hne' by lia.
  split.
  - unfold CustomValidator.validate_parameters_business_logic, safe_load.
    rewrite write_same. simpl.
    destruct (parameters_checks urlparse (VDict entries')) as [errs|e] eqn:Hchecks;
      [|done].
    rewrite verdict_invalid; [done|].
    destruct (records_present entries' "parameters" ri) as (v & Hv & Hiter).
    { apply list_elem_of_lookup. eauto. }
    unfold parameters_checks in Hchecks.
    rewrite (when_present_found _ _ _ _ Hv) in Hchecks.
    unfold parameters_rules, _check_duplicate_parameter_ids in Hchecks.
    rewrite Hiter in Hchecks. cbn [mbind result_bind] in Hchecks.
    apply bind_Ok in Hchecks as (e1 & He1 & Hchecks).
    apply bind_Ok in He1 as (ids & Hids & He1).
    pose proof (check_duplicates_nonempty _ _ _ _ _ _ _ _ (AInt z) (AInt z)
                  Hids Hne' Hi' Hj' Hidi Hidj eq_refl) as Hdup.
    inv_bind He1. inv_bind Hchecks. subst. by destruct ids.
  - destruct (duplicate_parameters_fail numeric_of_text draws DATABASE_NAME
                (write fs "data/parameters.yaml" (VDict entries'))
                "data/parameters.yaml" "data/protocols.yaml" (VDict entries') artifact
                (n + i)%nat (n + j)%nat ri rj z (write_same _ _ _) Hne' Hi' Hj' Hidi Hidj)
      as [e He].
    unfold App.regenerate_database. rewrite He. simpl. eauto.
Qed.

(** X18. A valid pair of files cannot take a linked parameter.  Let the
    bidirectional check pass on the two files, and let an addition of
    parameters be accepted in which some new parameter has a [field_name]
    and a [protocol_reference].  Then the bidirectional check fails on
    the files the addition leaves, and [validate_yaml_files] reports them
    invalid: the group the parameter points at is absent, or it points
    back at an existing parameter, whose name the new one cannot have. *)
Theorem linked_parameter_breaks_consistency (fs fs' : filesystem)
    (artifact artifact' : option database) (new_data : value)
    (notes : list note) (P : value) (c : clock) :
  (validate_bidirectional_consistency fs "data/parameters.yaml" "data/protocols.yaml").1
    = true →
  add_new_parameter_with_validation fs artifact new_data
    = ((true, notes), (fs', artifact')) →
  P ∈ records new_data "parameters" →
  has_both "field_name" "protocol_reference" P →
  (validate_bidirectional_consistency fs' "data/parameters.yaml" "data/protocols.yaml").1
    = false ∧
  overall_valid (validate_yaml_files fs' c).1 = false.
Proof.
  intros Hbefore Hrun HP (a & r & Hentry).
  assert ((validate_bidirectional_consistency fs' "data/parameters.yaml"
             "data/protocols.yaml").1 = false) as Hafter.
  { apply not_true_is_false. intros Hafter.
    apply add_parameter_cases in Hrun
      as [(_ & _ & updated & Hmerged & -> & _)|(? & _)]; [|done].
    destruct (merged_document _ _ _ _ _ _ _ _ _ _ Hmerged parameter_sections_NoDup)
      as (entries & entries' & Hfile & -> & Hsections & _ & Hfresh).
    pose proof (Hsections "parameters" (list_elem_of_here _ _)) as Hrecords.
    apply bidirectional_valid_loaded in Hbefore
      as (parameters_data & protocols_data & Hfile1 & Hfile2 & Hold).
    rewrite Hfile in Hfile1. injection Hfile1 as <-.
    apply bidirectional_valid_loaded in Hafter
      as (parameters_data' & protocols_data' & Hfile1' & Hfile2' & Hnew).
    rewrite write_same in Hfile1'. injection Hfile1' as <-.
    rewrite write_other, Hfile2 in Hfile2' by done. injection Hfile2' as <-.
    apply bidirectional_checks_Ok in Hold
      as (d1 & d2 & e1 & e2 & Hd1 & Hd2 & _ & He2 & Hnil).
    symmetry in Hnil. apply app_eq_nil in Hnil as [_ ->].
    apply bidirectional_checks_Ok in Hnew
      as (d1' & d2' & e1' & e2' & Hd1' & Hd2' & He1' & _ & Hnil).
    symmetry in Hnil. apply app_eq_nil in Hnil as [-> _].
    rewrite Hd2 in Hd2'. injection Hd2' as <-.
    apply (new_parameter_unanswered d1 d1' d2 (key_of a) He2 He1').
    - apply (build_refs_no_entry _ _ _ _ _ Hd1).
      intros old name Hold Hname Hkey.
      rewrite Forall_forall in Hfresh.
      destruct (Hfresh P HP) as (id & name' & _ & HPname & Hothers).
      destruct (Hothers old Hold) as (_ & old_name & _ & _ & Hold_name & Hne).
      apply (py_getitem_get _ _ _ VNone) in HPname, Hold_name.
      apply entry_of_Some in Hentry as (HPname' & _).
      rewrite HPname' in HPname. injection HPname as <-.
      rewrite Hname in Hold_name. injection Hold_name as <-.
      rewrite py_equal_atoms in Hne. by apply bool_decide_eq_false in Hne.
    - apply (build_refs_has_entry _ _ _ _ P a r Hd1'); [|done].
      rewrite Hrecords. apply elem_of_app. by right. }
  split; [done|].
  apply not_true_is_false. intros Hvalid%overall_valid_bidirectional. congruence.
Qed.

(** X19. Nor can it take a linked group.  Let the bidirectional check
    pass on the two files, and let an addition of protocols be accepted in
    which some new group has a [group_name] and a [parameter_reference].
    Then the bidirectional check fails on the files the addition leaves,
    and [validate_yaml_files] reports them invalid: the parameter the
    group points at is absent, or it points at an existing group, whose
    name the new one cannot have. *)
Theorem linked_group_breaks_consistency (fs fs' : filesystem)
    (artifact artifact' : option database) (new_data : value)
    (notes : list note) (G : value) (c : clock) :
  (validate_bidirectional_consistency fs "data/parameters.yaml" "data/protocols.yaml").1
    = true →
  add_new_protocol_with_validation fs artifact new_data
    = ((true, notes), (fs', artifact')) →
  G ∈ records new_data "protocol_groups" →
  has_both "group_name" "parameter_reference" G →
  (validate_bidirectional_consistency fs' "data/parameters.yaml" "data/protocols.yaml").1
    = false ∧
  overall_valid (validate_yaml_files fs' c).1 = false.
Proof.
  intros Hbefore Hrun HG (a & r & Hentry).
  assert ((validate_bidirectional_consistency fs' "data/parameters.yaml"
             "data/protocols.yaml").1 = false) as Hafter.
  { apply not_true_is_false. intros Hafter.
    apply add_protocol_cases in Hrun
      as [(_ & _ & updated & Hmerged & -> & _)|(? & _)]; [|done].
    destruct (merged_document _ _ _ _ _ _ _ _ _ _ Hmerged protocol_sections_NoDup)
      as (entries & entries' & Hfile & -> & Hsections & _ & Hfresh).
    pose proof (Hsections "protocol_groups" (list_elem_of_here _ _)) as Hrecords.
    apply bidirectional_valid_loaded in Hbefore
      as (parameters_data & protocols_data & Hfile1 & Hfile2 & Hold).
    rewrite Hfile in Hfile2. injection Hfile2 as <-.
    apply bidirectional_valid_loaded in Hafter
      as (parameters_data' & protocols_data' & Hfile1' & Hfile2' & Hnew).
    rewrite write_same in Hfile2'. injection Hfile2' as <-.
    rewrite write_other, Hfile1 in Hfile1' by done. injection Hfile1' as <-.
    apply bidirectional_checks_Ok in Hold
      as (d1 & d2 & e1 & e2 & Hd1 & Hd2 & He1 & _ & Hnil).
    symmetry in Hnil. apply app_eq_nil in Hnil as [-> _].
    apply bidirectional_checks_Ok in Hnew
      as (d1' & d2' & e1' & e2' & Hd1' & Hd2' & _ & He2' & Hnil).
    symmetry in Hnil. apply app_eq_nil in Hnil as [_ ->].
    rewrite Hd1 in Hd1'. injection Hd1' as <-.
    apply (new_group_unanswered d1 d2 d2' (key_of a) He1 He2').
    - apply (build_refs_no_entry _ _ _ _ _ Hd2).
      intros old name Hold Hname Hkey.
      rewrite Forall_forall in Hfresh.
      destruct (Hfresh G HG) as (id & name' & _ & HGname & Hothers).
      destruct (Hothers old Hold) as (_ & old_name & _ & _ & Hold_name & Hne).
      apply (py_getitem_get _ _ _ VNone) in HGname, Hold_name.
      apply entry_of_Some in Hentry as (HGname' & _).
      rewrite HGname' in HGname. injection HGname as <-.
      rewrite Hname in Hold_name. injection Hold_name as <-.
      rewrite py_equal_atoms in Hne. by apply bool_decide_eq_false in Hne.
    - apply (build_refs_has_entry _ _ _ _ G a r Hd2'); [|done].
      rewrite Hrecords. apply elem_of_app. by right. }
  split; [done|].
  apply not_true_is_false. intros Hvalid%overall_valid_bidirectional. congruence.
Qed.

End AfterAdditions.


(** ** The merge of pending files *)

Section Merge.
Import MergePendingFiles.

(** One [main_data[k].extend(pending_data[k])] statement, read on the
    records. *)
Lemma merge_section_records pending_data main_data k updated :
  merge_section pending_data main_data k = Ok updated →
  ∀ k', records updated k' =
        records main_data k' ++ (if String.eqb k' k then records pending_data k else []).
Proof.
  unfold merge_section. intros Hrun k'. apply bind_Ok in Hrun as ([] & Hin & Hrun).
  - apply bind_Ok in Hrun as (target & Htarget & Hrun).
    destruct main_data as [| |entries]; try done.
    destruct target as [|l|]; try done.
    apply bind_Ok in Hrun as (addition & Haddition & Hrun).
    apply bind_Ok in Hrun as (items & Hitems & Hrun). injection Hrun as <-.
    assert (records pending_data k = items) as ->.
    { unfold records, section_items. rewrite Hin. simpl.
      rewrite Haddition. simpl. by rewrite Hitems. }
    simpl in Htarget. destruct (assoc k entries) as [v|] eqn:Hk; [|done].
    injection Htarget as ->.
    rewrite !records_dict, assoc_assign.
    destruct (String.eqb k' k) eqn:Hk'.
    + apply String.eqb_eq in Hk' as ->. by rewrite Hk.
    + by rewrite app_nil_r.
  - injection Hrun as <-. rewrite (records_absent _ _ Hin).
    destruct (String.eqb k' k); by rewrite app_nil_r.
Qed.

Lemma merge_sections_records pending_data main_data sections updated :
  in_turn (merge_section pending_data) main_data sections = Ok updated →
  NoDup sections →
  ∀ k, records updated k =
       records main_data k ++ (if bool_decide (k ∈ sections)
                               then records pending_data k else []).
Proof.
  revert main_data. induction sections as [|k0 sections IH]; intros main_data Hrun Hnodup k.
  { injection Hrun as <-. by rewrite app_nil_r. }
  simpl in Hrun. apply bind_Ok in Hrun as (data1 & Hstep & Hrun).
  apply NoDup_cons in Hnodup as [Hfresh Hnodup].
  rewrite (IH _ Hrun Hnodup k), (merge_section_records _ _ _ _ Hstep k).
  rewrite <-app_assoc. f_equal.
  destruct (String.eqb k k0) eqn:Hk.
  - apply String.eqb_eq in Hk as ->.
    rewrite bool_decide_eq_false_2 by done.
    rewrite bool_decide_eq_true_2 by apply list_elem_of_here. by rewrite app_nil_r.
  - apply String.eqb_neq in Hk. simpl.
    destruct (bool_decide_reflect (k ∈ sections)).
    + rewrite bool_decide_eq_true_2; [done|]. by apply list_elem_of_further.
    + rewrite bool_decide_eq_false_2; [done|].
      intros [?|?]%elem_of_cons; done.
Qed.

Lemma os_remove_Ok fs p fs' :
  os_remove fs p = Ok fs' → ∀ q, fs' q = if String.eqb q p then NoFile else fs q.
Proof. unfold os_remove. by destruct (fs p); intros [= <-]. Qed.

Lemma safe_load_Ok fs p data : safe_load fs p = Ok data → fs p = Yaml data.
Proof. unfold safe_load. by destruct (fs p); intros [= <-]. Qed.

(** The loop over the pending files, however it ends: the files it has
    processed had loaded and are deleted, the others are untouched; when
    it ends without exception it has processed all of them and the lists
    have grown by their records. *)
Lemma merge_files_result sections pending_files fs main_data outcome fs' :
  merge_files sections pending_files fs main_data = (outcome, fs') →
  NoDup sections →
  ∃ processed rest docs,
    pending_files = processed ++ rest ∧
    Forall2 (λ f d, fs f = Yaml d) processed docs ∧
    (∀ p, fs' p = if bool_decide (p ∈ processed) then NoFile else fs p) ∧
    match outcome with
    | Ok merged =>
        rest = [] ∧
        ∀ k, records merged k =
             records main_data k ++
             (if bool_decide (k ∈ sections)
              then flat_map (λ d, records d k) docs else [])
    | Raise _ => rest ≠ []
    end.
Proof.
  intros Hrun Hnodup. revert fs main_data Hrun.
  induction pending_files as [|f files IH]; intros fs main_data Hrun.
  { injection Hrun as <- <-. exists [], [], [].
    split; [done|]. split; [constructor|]. split; [done|]. split; [done|].
    intros k. simpl. destruct (bool_decide _); by rewrite app_nil_r. }
  simpl in Hrun.
  destruct (_ ≫= _) as [[main1 fs1]|e] eqn:Hstep.
  - apply bind_Ok in Hstep as (d & Hload & Hstep).
    apply bind_Ok in Hstep as (main1' & Hmerge & Hstep).
    apply bind_Ok in Hstep as (fs1' & Hremove & Hstep).
    injection Hstep as -> ->.
    apply safe_load_Ok in Hload.
    pose proof (os_remove_Ok _ _ _ Hremove) as Hfs1.
    destruct (IH _ _ Hrun) as (processed & rest & docs & -> & Hdocs & Hfs' & Hout).
    exists (f :: processed), rest, (d :: docs). split; [done|]. split; [|split].
    + constructor; [done|].
      eapply Forall2_impl; [exact Hdocs|]. intros f' d'. simpl. rewrite Hfs1.
      by destruct (String.eqb f' f).
    + intros p. rewrite Hfs', Hfs1.
      destruct (String.eqb p f) eqn:Hp.
      * apply String.eqb_eq in Hp as ->.
        rewrite (bool_decide_eq_true_2 (f ∈ f :: processed)) by apply list_elem_of_here.
        by destruct (bool_decide _).
      * apply String.eqb_neq in Hp.
        destruct (bool_decide_reflect (p ∈ processed)).
        -- rewrite bool_decide_eq_true_2; [done|]. by apply list_elem_of_further.
        -- rewrite bool_decide_eq_false_2; [done|].
           intros [?|?]%elem_of_cons; done.
    + destruct outcome as [merged|]; [|done].
      destruct Hout as [-> Hrecords]. split; [done|].
      intros k. rewrite Hrecords, (merge_sections_records _ _ _ _ Hmerge Hnodup k).
      rewrite <-app_assoc. f_equal. simpl. by destruct (bool_decide _).
  - injection Hrun as <- <-. exists [], (f :: files), [].
    split; [done|]. split; [constructor|]. by split.
Qed.

(** X20. When [merge_pending_parameters] ends without exception, every
    pending file had loaded, and the parameters file it writes holds, for
    each of the four lists, the list of the main file followed by the
    records of the pending files, file after file in the order [glob]
    gave them; the other lists of the document are as they were; the
    pending files are deleted and no other file is touched.  Nothing is
    validated on the way.  The same holds of [merge_pending_protocols]
    and its two lists. *)
Theorem merged_files_are_appended (file : string) (sections : list string)
    (merge : list string → filesystem → result unit * filesystem)
    (pending_files : list string) (fs fs' : filesystem) :
  (file, sections, merge) ∈
    [("data/parameters.yaml",
      ["parameters"; "breadcrumb_fields"; "vg5_fields"; "abbr_metrics"],
      merge_pending_parameters);
     ("data/protocols.yaml", ["protocol_groups"; "protocols"],
      merge_pending_protocols)] →
  merge pending_files fs = (Ok tt, fs') →
  ∃ main_data docs merged,
    fs file = Yaml main_data ∧
    Forall2 (λ f d, fs f = Yaml d) pending_files docs ∧
    fs' file = Yaml merged ∧
    (∀ k, k ∈ sections →
       records merged k = records main_data k ++ flat_map (λ d, records d k) docs) ∧
    (∀ k, k ∉ sections → records merged k = records main_data k) ∧
    (∀ p, p ≠ file → fs' p = if bool_decide (p ∈ pending_files) then NoFile else fs p).
Proof.
  intros Hkind Hrun.
  assert (NoDup sections ∧ merge = merge_pending file sections) as [Hnodup ->].
  { elems Hkind; simplify_eq; split; try done;
      [apply parameter_sections_NoDup|apply protocol_sections_NoDup]. }
  clear Hkind. unfold merge_pending in Hrun.
  destruct (safe_load fs file) as [main_data|] eqn:Hload; [|done].
  destruct (merge_files _ _ _ _) as [[merged|] fs1] eqn:Hloop; [|done].
  injection Hrun as <-.
  destruct (merge_files_result _ _ _ _ _ _ Hloop Hnodup)
    as (processed & rest & docs & -> & Hdocs & Hfs1 & -> & Hrecords).
  rewrite app_nil_r in *.
  exists main_data, docs, merged. split; [by apply safe_load_Ok|]. split; [done|].
  split; [apply write_same|]. split; [|split].
  - intros k Hk. by rewrite Hrecords, bool_decide_eq_true_2.
  - intros k Hk. by rewrite Hrecords, bool_decide_eq_false_2, app_nil_r.
  - intros p Hp. by rewrite write_other.
Qed.


End Merge.

(** On the sample disk the second pending file is not YAML: the script
    stops there, the main file is as it was and the first pending file is
    gone. *)
Example torn_pending_file :
  let outcome :=
    MergePendingFiles.merge_pending_parameters
      ["data/pending_parameters/oil.yaml"; "data/pending_parameters/torn.yaml"]
      Sample.pending_disk in
  outcome.1 = Raise YAMLError ∧
  outcome.2 "data/parameters.yaml" = Yaml Sample.scenario_a_parameters ∧
  Sample.pending_disk "data/pending_parameters/oil.yaml"
    = Yaml (VDict [("parameters", VList [Sample.oil_pressure])]) ∧
  outcome.2 "data/pending_parameters/oil.yaml" = NoFile.
Proof. repeat split; by vm_compute. Qed.


(** ** Generation from validated files *)

Lemma occurrences_absent (h : key) (ks : list key) : occurrences h ks = 0%nat → h ∉ ks.
Proof.
  intros Hnone [i Hi]%list_elem_of_lookup.
  pose proof (occurrences_lookup _ _ _ Hi). lia.
Qed.

Lemma occurrences_NoDup (ks : list key) :
  (∀ h, (occurrences h ks ≤ 1)%nat) → NoDup ks.
Proof.
  induction ks as [|k ks IH]; intros Hmost; [constructor|].
  constructor.
  - apply occurrences_absent. specialize (Hmost k).
    rewrite occurrences_cons, decide_True in Hmost by done. lia.
  - apply IH. intros h. specialize (Hmost h). rewrite occurrences_cons in Hmost. lia.
Qed.

(** A duplicate check that finds nothing has seen pairwise different
    values. *)
Lemma check_duplicates_none field report items :
  check_duplicates field report items ∅ = Ok [] →
  ∃ values, hashable_fields field items = Ok values ∧ NoDup (key_of <$> values).
Proof.
  intros Hrun.
  destruct (check_duplicates_counts _ _ _ _ _ Hrun)
    as (values & dups & Hvalues & Hdups & _ & Hcount).
  exists values. split; [done|]. apply occurrences_NoDup. intros h.
  specialize (Hcount h). rewrite decide_False in Hcount by apply not_elem_of_empty.
  destruct dups; [|done]. unfold occurrences in Hcount at 1. simpl in Hcount.
  change (filter (λ k, k = h) []) with (@nil key) in Hcount. simpl in Hcount. lia.
Qed.

Lemma when_present_cases data k check errs :
  when_present data k check = Ok errs →
  (section_items data k = Ok None ∧ errs = []) ∨
  (∃ v, py_in k data = Ok true ∧ py_getitem data k = Ok v ∧ check v = Ok errs).
Proof.
  unfold when_present, section_items. intros Hrun.
  apply bind_Ok in Hrun as ([] & Hin & Hrun); rewrite Hin; simpl.
  - right. apply bind_Ok in Hrun as (v & Hv & Hrun). by exists v.
  - left. by injection Hrun as <-.
Qed.

(** A section that a rule has gone through is read without exception,
    and its records are those the rule has seen. *)
Lemma section_read data k v items :
  py_in k data = Ok true → py_getitem data k = Ok v → py_iter v = Ok items →
  section_items data k = Ok (Some items) ∧ records data k = items.
Proof.
  intros Hin Hv Hitems. unfold records, section_items.
  rewrite Hin. simpl. rewrite Hv. simpl. by rewrite Hitems.
Qed.

Lemma section_unread data k :
  section_items data k = Ok None → records data k = [].
Proof. unfold records. by intros ->. Qed.

Section Generation.
Import DatabaseGenerator.

Variable urlparse : value → result parse_result.
Variable numeric_of_text : string → sqlval.
Variable draws : table → list Z.

Local Abbreviation insert_owner := (insert_owner numeric_of_text draws).
Local Abbreviation insert_dependent := (insert_dependent numeric_of_text).

Lemma insert_section_read data k insert columns t :
  (∃ o, section_items data k = Ok o) →
  insert_section data k insert columns t = insert_all insert columns (records data k) t.
Proof.
  unfold insert_section, records. intros [o ->]. by destruct o.
Qed.

(** The INSERTs into a dependent table go through when every record can
    be bound. *)
Lemma insert_dependents_succeed affinities columns items (t : table) :
  Forall (bindable columns) items →
  (∀ i r, t !! i = Some r → row_id r = Z.of_nat i + 1) →
  Z.of_nat (length t + length items) ≤ 2 ^ 63 - 1 →
  ∃ t', insert_all (insert_dependent affinities) columns items t = Ok t'.
Proof.
  revert t. induction items as [|record items IH]; intros t Hbind Hnumbered Hbound.
  { by exists t. }
  apply Forall_cons in Hbind as [[bs Hbs] Hbind].
  assert (∃ t1, insert_dependent affinities t bs = Ok t1) as [t1 Ht1].
  { unfold DatabaseGenerator.insert_dependent, autoincrement_rowid.
    rewrite (largest_rowid_numbered 0 t)
      by (intros i r Hi; rewrite (Hnumbered i r Hi); lia).
    destruct t as [|r0 t]; [by eexists|].
    rewrite bool_decide_eq_true_2; [by eexists|].
    simpl in Hbound. simpl. lia. }
  assert (insert_all (insert_dependent affinities) columns [record] t = Ok t1) as Hone.
  { simpl. rewrite Hbs. simpl. by rewrite Ht1. }
  pose proof (insert_dependents_numbered _ _ _ _ _ _ Hone Hnumbered) as Hnumbered1.
  assert (length t1 = S (length t)) as Hlength.
  { unfold DatabaseGenerator.insert_dependent in Ht1.
    apply bind_Ok in Ht1 as (rowid & _ & [= <-]). rewrite length_app. simpl. lia. }
  destruct (IH t1 Hbind Hnumbered1) as [t' Ht'].
  { rewrite Hlength. simpl in Hbound. lia. }
  exists t'. simpl. rewrite Hbs. simpl. by rewrite Ht1.
Qed.

(** The INSERTs into an owning table go through when the records are
    typed and their ids and names pairwise different. *)
Lemma insert_owners_succeed affinities name_field columns items idvals namevals
    (t : table) :
  hashable_fields "id" items = Ok idvals → NoDup (key_of <$> idvals) →
  hashable_fields name_field items = Ok namevals → NoDup (key_of <$> namevals) →
  Forall (typed_owner name_field columns) items →
  (∀ z, KInt z ∈ key_of <$> idvals → z ∉ map row_id t) →
  (∀ s, KStr s ∈ key_of <$> namevals →
        Some (SText s) ∉ map (λ r, head (cells r)) t) →
  ∃ t', insert_all (insert_owner (TEXT :: affinities))
          ("id" :: name_field :: columns) items t = Ok t'.
Proof.
  revert idvals namevals t.
  induction items as [|record items IH];
    intros idvals namevals t Hids Hids_nodup Hnames Hnames_nodup Htyped Hfresh_id Hfresh_name.
  { by exists t. }
  simpl in Hids, Hnames.
  apply bind_Ok in Hids as (idv & Hid & Hids).
  apply bind_Ok in Hids as (ida & Hida & Hids).
  apply bind_Ok in Hids as (idvals' & Hidvals' & Hids). injection Hids as <-.
  apply bind_Ok in Hnames as (namev & Hname & Hnames).
  apply bind_Ok in Hnames as (namea & Hnamea & Hnames).
  apply bind_Ok in Hnames as (namevals' & Hnamevals' & Hnames). injection Hnames as <-.
  apply Forall_cons in Htyped as [((z & Hz & Hrange) & (s & Hs) & (bs & Hbs)) Htyped].
  rewrite Hz in Hid. injection Hid as <-. injection Hida as <-.
  rewrite Hs in Hname. injection Hname as <-. injection Hnamea as <-.
  rewrite !fmap_cons in Hids_nodup, Hnames_nodup, Hfresh_id, Hfresh_name.
  simpl in Hids_nodup, Hnames_nodup, Hfresh_id, Hfresh_name.
  apply NoDup_cons in Hids_nodup as [Hz_new Hids_nodup].
  apply NoDup_cons in Hnames_nodup as [Hs_new Hnames_nodup].
  assert (bind_columns record ("id" :: name_field :: columns)
          = Ok (BInteger z :: BText s :: bs)) as Hbound.
  { simpl. rewrite Hz. simpl. rewrite bool_decide_eq_true_2 by done. simpl.
    rewrite Hs. simpl. by rewrite Hbs. }
  set (r := {| row_id := z;
               cells := SText s :: store_all numeric_of_text affinities bs |}).
  assert (insert_owner (TEXT :: affinities) t (BInteger z :: BText s :: bs)
          = Ok (t ++ [r])) as Hinsert.
  { unfold DatabaseGenerator.insert_owner. simpl.
    rewrite (bool_decide_eq_false_2 (z ∈ map row_id t))
      by (apply Hfresh_id, list_elem_of_here).
    simpl.
    rewrite (bool_decide_eq_false_2 (Some (SText s) ∈ map (λ r, head (cells r)) t))
      by (apply Hfresh_name, list_elem_of_here).
    done. }
  destruct (IH idvals' namevals' (t ++ [r]) Hidvals' Hids_nodup Hnamevals' Hnames_nodup
              Htyped) as [t' Ht'].
  - intros z' Hz'. rewrite map_app. simpl. intros [Hin|Hin]%elem_of_app.
    + revert Hin. by apply Hfresh_id, list_elem_of_further.
    + apply list_elem_of_singleton in Hin as ->. done.
  - intros s' Hs'. rewrite map_app. simpl. intros [Hin|Hin]%elem_of_app.
    + revert Hin. by apply Hfresh_name, list_elem_of_further.
    + apply list_elem_of_singleton in Hin. injection Hin as ->. done.
  - exists t'. cbn [insert_all]. rewrite Hbound. cbn [mbind result_bind].
    rewrite Hinsert. done.
Qed.

(** A dependent section that a rule has gone through is inserted. *)
Lemma dependent_section_inserted data k (check : value → result (list msg)) errs
    affinities columns :
  when_present data k check = Ok errs →
  (∀ v e, check v = Ok e → ∃ items, py_iter v = Ok items) →
  Forall (bindable columns) (records data k) →
  Z.of_nat (length (records data k)) ≤ 2 ^ 63 - 1 →
  ∃ t', insert_section data k (insert_dependent affinities) columns [] = Ok t'.
Proof.
  intros Hrule Hiter Hbind Hbound.
  rewrite insert_section_read.
  - apply insert_dependents_succeed; [done|by intros i r ?|done].
  - apply when_present_cases in Hrule as [[Hnone _]|(v & Hin & Hv & Hcheck)]; [eauto|].
    destruct (Hiter _ _ Hcheck) as [items Hitems].
    destruct (section_read _ _ _ _ Hin Hv Hitems) as [Hread _]. eauto.
Qed.

(** An owning section whose two duplicate checks have found nothing is
    inserted. *)
Lemma owning_section_inserted data k (check : value → result (list msg))
    name_field report_id report_name affinities columns :
  when_present data k check = Ok [] →
  (∀ v, check v = Ok [] →
        ∃ items, py_iter v = Ok items ∧
          check_duplicates "id" report_id items ∅ = Ok [] ∧
          check_duplicates name_field report_name items ∅ = Ok []) →
  Forall (typed_owner name_field columns) (records data k) →
  ∃ t', insert_section data k (insert_owner (TEXT :: affinities))
          ("id" :: name_field :: columns) [] = Ok t'.
Proof.
  intros Hrule Hdups Htyped.
  apply when_present_cases in Hrule as [[Hnone _]|(v & Hin & Hv & Hcheck)].
  { rewrite insert_section_read by eauto. rewrite (section_unread _ _ Hnone). by exists []. }
  destruct (Hdups _ Hcheck) as (items & Hitems & Hids & Hnames).
  destruct (section_read _ _ _ _ Hin Hv Hitems) as [Hread Hrecords].
  rewrite insert_section_read by eauto. rewrite Hrecords in *.
  apply check_duplicates_none in Hids as (idvals & Hidvals & Hids_nodup).
  apply check_duplicates_none in Hnames as (namevals & Hnamevals & Hnames_nodup).
  apply (insert_owners_succeed _ _ _ _ idvals namevals); try done.
  - by intros z _ ?%elem_of_nil.
  - by intros s _ ?%elem_of_nil.
Qed.

(** X22. Generation succeeds on validated files of the expected types.
    Let the rule validators pass on the two files; let every parameter
    and every protocol group carry an integer [id] within 64 bits and a
    text as its name, and let the columns of every record be scalars, the
    integers within 64 bits (and, as the engine demands, fewer than 2^63
    records per list).  Then [generate_database] creates the database,
    whatever database file was there before.  The references between the
    records play no part: the foreign keys are not enforced. *)
Theorem validated_files_are_generated (output_path : string) (fs : filesystem)
    (parameters_file protocols_file : string) (parameters_data protocols_data : value)
    (artifact : option database) :
  fs parameters_file = Yaml parameters_data →
  fs protocols_file = Yaml protocols_data →
  (validate_parameters_business_logic urlparse fs parameters_file).1 = true →
  (validate_protocols_business_logic fs protocols_file).1 = true →
  Forall (typed_owner "field_name"
            ["reserved_enum_val"; "description"; "unit"; "reason_added";
             "protobuf_field"; "protocol_reference"])
    (records parameters_data "parameters") →
  Forall (typed_owner "group_name" ["description"; "parameter_reference"])
    (records protocols_data "protocol_groups") →
  (∀ data k columns,
     (data, k, columns) ∈
       [(parameters_data, "breadcrumb_fields", breadcrumb_columns);
        (parameters_data, "vg5_fields", vg5_columns);
        (parameters_data, "abbr_metrics", abbr_columns);
        (protocols_data, "protocols", protocols_columns)] →
     Forall (bindable columns) (records data k) ∧
     Z.of_nat (length (records data k)) ≤ 2 ^ 63 - 1) →
  ∃ db, generate_database numeric_of_text draws output_path fs
          parameters_file protocols_file artifact
        = ((true, Created output_path), Some db).
Proof.
  intros Hfile1 Hfile2 Hvalid1 Hvalid2 Hparameters Hgroups Hdependents.
  assert (parameters_checks urlparse parameters_data = Ok []) as Hchecks1.
  { unfold validate_parameters_business_logic, safe_load in Hvalid1.
    rewrite Hfile1 in Hvalid1. simpl in Hvalid1.
    destruct (parameters_checks urlparse parameters_data); [|done].
    by apply verdict_valid in Hvalid1 as ->. }
  assert (protocols_checks protocols_data = Ok []) as Hchecks2.
  { unfold validate_protocols_business_logic, safe_load in Hvalid2.
    rewrite Hfile2 in Hvalid2. simpl in Hvalid2.
    destruct (protocols_checks protocols_data); [|done].
    by apply verdict_valid in Hvalid2 as ->. }
  unfold parameters_checks in Hchecks1.
  apply bind_Ok in Hchecks1 as (e1 & Hrule1 & Hchecks1).
  apply bind_Ok in Hchecks1 as (e2 & Hrule2 & Hchecks1).
  apply bind_Ok in Hchecks1 as (e3 & Hrule3 & Hchecks1).
  apply bind_Ok in Hchecks1 as (e4 & Hrule4 & Hchecks1).
  injection Hchecks1 as Hnil.
  apply app_eq_nil in Hnil as [-> _].
  unfold protocols_checks in Hchecks2.
  apply bind_Ok in Hchecks2 as (g1 & Hrule5 & Hchecks2).
  apply bind_Ok in Hchecks2 as (g2 & Hrule6 & Hchecks2).
  injection Hchecks2 as Hnil.
  apply app_eq_nil in Hnil as [-> _].
  assert (∀ field report v (errs : list msg),
            (items ← py_iter v; check_duplicates field report items ∅) = Ok errs →
            ∃ items, py_iter v = Ok items ∧
                     check_duplicates field report items ∅ = Ok errs) as Hcheck.
  { intros field report v errs Hrun. apply bind_Ok in Hrun as (items & ? & ?). eauto. }
  destruct (owning_section_inserted parameters_data "parameters"
              parameters_rules "field_name" DuplicateParameterId DuplicateParameterName
              [INTEGER; TEXT; TEXT; TEXT; TEXT; TEXT]
              ["reserved_enum_val"; "description"; "unit"; "reason_added";
               "protobuf_field"; "protocol_reference"] Hrule1) as [t1 Ht1]; [|done|].
  { intros v Hv. unfold parameters_rules in Hv.
    apply bind_Ok in Hv as (d1 & Hd1 & Hv). apply bind_Ok in Hv as (d2 & Hd2 & Hv).
    apply bind_Ok in Hv as (items & Hitems & Hv). apply bind_Ok in Hv as (d3 & _ & Hv).
    injection Hv as Hnil. apply app_eq_nil in Hnil as [-> [-> _]%app_eq_nil].
    apply Hcheck in Hd1 as (items1 & Hitems1 & Hd1).
    apply Hcheck in Hd2 as (items2 & Hitems2 & Hd2).
    rewrite Hitems in Hitems1, Hitems2.
    injection Hitems1 as <-. injection Hitems2 as <-. eauto. }
  destruct (owning_section_inserted protocols_data "protocol_groups"
              groups_rules "group_name" DuplicateGroupId DuplicateGroupName
              [TEXT; TEXT] ["description"; "parameter_reference"] Hrule5)
    as [t5 Ht5]; [|done|].
  { intros v Hv. unfold groups_rules in Hv.
    apply bind_Ok in Hv as (d1 & Hd1 & Hv). apply bind_Ok in Hv as (d2 & Hd2 & Hv).
    injection Hv as Hnil. apply app_eq_nil in Hnil as [-> ->].
    apply Hcheck in Hd1 as (items1 & Hitems1 & Hd1).
    apply Hcheck in Hd2 as (items2 & Hitems2 & Hd2).
    rewrite Hitems1 in Hitems2. injection Hitems2 as <-. eauto. }
  assert (∀ data k columns (check : value → result (list msg)) errs affinities,
            (data, k, columns) ∈
              [(parameters_data, "breadcrumb_fields", breadcrumb_columns);
               (parameters_data, "vg5_fields", vg5_columns);
               (parameters_data, "abbr_metrics", abbr_columns);
               (protocols_data, "protocols", protocols_columns)] →
            when_present data k check = Ok errs →
            (∀ v e, check v = Ok e → ∃ items, py_iter v = Ok items) →
            ∃ t', insert_section data k (insert_dependent affinities) columns [] = Ok t')
    as Hdependent.
  { intros data k columns check errs affinities Hkind Hrule Hiter.
    destruct (Hdependents data k columns Hkind) as [Hbind Hbound].
    by eapply dependent_section_inserted. }
  assert (∀ (loop : list value → result (list msg)) v e,
            (items ← py_iter v; loop items) = Ok e → ∃ items, py_iter v = Ok items)
    as Hiter.
  { intros loop v e Hrun. apply bind_Ok in Hrun as (items & ? & _). eauto. }
  destruct (Hdependent parameters_data "breadcrumb_fields" breadcrumb_columns _ _
              breadcrumb_affinities (list_elem_of_here _ _) Hrule2) as [t2 Ht2].
  { intros v e. apply Hiter. }
  destruct (Hdependent parameters_data "vg5_fields" vg5_columns _ _ vg5_affinities
              (list_elem_of_further _ _ _ (list_elem_of_here _ _)) Hrule3) as [t3 Ht3].
  { intros v e. apply Hiter. }
  destruct (Hdependent parameters_data "abbr_metrics" abbr_columns _ _ abbr_affinities
              (list_elem_of_further _ _ _
                 (list_elem_of_further _ _ _ (list_elem_of_here _ _))) Hrule4)
    as [t4 Ht4].
  { intros v e. apply Hiter. }
  destruct (Hdependent protocols_data "protocols" protocols_columns _ _
              protocols_affinities
              (list_elem_of_further _ _ _
                 (list_elem_of_further _ _ _
                    (list_elem_of_further _ _ _ (list_elem_of_here _ _)))) Hrule6)
    as [t6 Ht6].
  { intros v e. apply Hiter. }
  eexists. unfold generate_database, safe_load. rewrite Hfile1, Hfile2.
  cbn [mbind result_bind mret result_ret].
  unfold _insert_parameters_data, _insert_protocols_data, _create_tables.
  cbn [parameters breadcrumb_fields vg5_fields abbr_metrics protocol_groups protocols].
  change (insert_section parameters_data "parameters" _ _ [])
    with (insert_section parameters_data "parameters"
            (insert_owner (TEXT :: [INTEGER; TEXT; TEXT; TEXT; TEXT; TEXT]))
            ("id" :: "field_name" ::
             ["reserved_enum_val"; "description"; "unit"; "reason_added";
              "protobuf_field"; "protocol_reference"]) []).
  rewrite Ht1, Ht2. cbn [mbind result_bind]. rewrite Ht3. cbn [mbind result_bind].
  rewrite Ht4. cbn [mbind result_bind mret result_ret].
  cbn [parameters breadcrumb_fields vg5_fields abbr_metrics protocol_groups protocols].
  change (insert_section protocols_data "protocol_groups" _ _ [])
    with (insert_section protocols_data "protocol_groups"
            (insert_owner (TEXT :: [TEXT; TEXT]))
            ("id" :: "group_name" :: ["description"; "parameter_reference"]) []).
  rewrite Ht5. cbn [mbind result_bind]. rewrite Ht6. done.
Qed.

End Generation.


(** * The further properties on the sample documents *)

Module FurtherWitnesses.
Import MainValidator CustomValidator CrossReferenceValidator DatabaseGenerator.

Local Abbreviation pf := "data/parameters.yaml".
Local Abbreviation gf := "data/protocols.yaml".
Local Abbreviation add_new_parameter_with_validation :=
  (App.add_new_parameter_with_validation unit Sample.iter_errors tt
     Sample.numeric_of_text Sample.draws).
Local Abbreviation add_new_protocol_with_validation :=
  (App.add_new_protocol_with_validation unit Sample.iter_errors tt
     Sample.numeric_of_text Sample.draws).
Local Abbreviation generate_database :=
  (generate_database Sample.numeric_of_text Sample.draws).

Lemma reported_references_dangle_witness :
  ∃ i record,
    records Sample.scenario_d_parameters "breadcrumb_fields" !! i = Some record ∧
    py_get record "parameter_id" VNone = Ok (VInt 99).
Proof.
  assert (cross_references_checks Sample.scenario_d_parameters Sample.scenario_a_protocols
          = Ok [BreadcrumbRef 2 (VInt 99)]) as Hrun by (vm_compute; reflexivity).
  assert (("breadcrumb_fields", "parameters", "parameter_id", BreadcrumbRef,
           Sample.scenario_d_parameters) ∈
          [("breadcrumb_fields", "parameters", "parameter_id", BreadcrumbRef,
            Sample.scenario_d_parameters);
           ("vg5_fields", "parameters", "parameter_id", Vg5Ref,
            Sample.scenario_d_parameters);
           ("abbr_metrics", "parameters", "parameter_id", AbbrMetricRef,
            Sample.scenario_d_parameters);
           ("protocols", "protocol_groups", "group_id", ProtocolRef,
            Sample.scenario_a_protocols)]) as Hkind by apply list_elem_of_here.
  assert (BreadcrumbRef 2 (VInt 99) ∈ [BreadcrumbRef 2 (VInt 99)]) as Hin
    by apply list_elem_of_here.
  destruct (reported_references_dangle Sample.scenario_d_parameters
              Sample.scenario_a_protocols [BreadcrumbRef 2 (VInt 99)]
              "breadcrumb_fields" "parameters" "parameter_id" BreadcrumbRef
              Sample.scenario_d_parameters 2%nat (VInt 99) Hrun Hkind Hin)
    as (i & record & a & _ & _ & _ & Hi & Hget & _).
  by exists i, record.
Defined.

Lemma later_reference_wins_witness :
  dict_find [(AStr "ESPD_protocols", VStr "Engine Speed")] (KStr "ESPD_protocols")
  = Some (VStr "Engine Speed").
Proof.
  assert (build_refs "group_name" "parameter_reference"
            [Sample.road_speed_group; Sample.espd] []
          = Ok [(AStr "ESPD_protocols", VStr "Engine Speed")]) as Hrun
    by (vm_compute; reflexivity).
  exact (proj2 (proj2 (later_reference_wins "group_name" "parameter_reference"
                         [Sample.road_speed_group; Sample.espd] _ Hrun))
           [Sample.road_speed_group] Sample.espd (AStr "ESPD_protocols")
           (VStr "Engine Speed") eq_refl eq_refl).
Defined.

Lemma consistent_links_pair_up_witness :
  ∃ param_to_protocol protocol_to_param : pydict,
    build_refs "field_name" "protocol_reference"
      (records Sample.scenario_a_parameters "parameters") [] = Ok param_to_protocol ∧
    build_refs "group_name" "parameter_reference"
      (records Sample.scenario_a_protocols "protocol_groups") [] = Ok protocol_to_param ∧
    length param_to_protocol = length protocol_to_param.
Proof.
  assert (bidirectional_checks Sample.scenario_a_parameters Sample.scenario_a_protocols
          = Ok []) as Hrun by (vm_compute; reflexivity).
  destruct (consistent_links_pair_up Sample.scenario_a_parameters
              Sample.scenario_a_protocols Hrun)
    as (d1 & d2 & Hd1 & Hd2 & _ & _ & Hlength).
  by exists d1, d2.
Defined.

Lemma numeric_pgn_pid_ends_validation_witness :
  ∃ e, validate_protocols_business_logic Sample.unquoted_pgn gf
       = (false, [CustomValidationError e]).
Proof.
  assert (61444 ≠ 0) as Hz by lia.
  assert ("J1939" ∈ ["J1939"; "J1979"]) as Hstandard by apply list_elem_of_here.
  assert (Sample.unquoted_pgn_entry ∈ [Sample.unquoted_pgn_entry]) as Hin
    by apply list_elem_of_here.
  exact (proj2 (numeric_pgn_pid_ends_validation Sample.unquoted_pgn gf
                  [("protocol_groups", VList [Sample.espd]);
                   ("protocols", VList [Sample.unquoted_pgn_entry])]
                  [Sample.unquoted_pgn_entry]
                  [("group_id", VInt 1); ("abbr", VStr "ESPD");
                   ("protocol_standard", VStr "J1939"); ("pgn_pid", VInt 61444)]
                  "J1939" 61444 eq_refl eq_refl Hin eq_refl Hstandard eq_refl Hz)).
Defined.

Lemma generation_enforces_the_keys_witness :
  ∃ e, generate_database "output/vehicle_params.db" Sample.duplicate_ids pf gf None
       = ((false, GenerationFailed e), Some _create_tables).
Proof.
  assert ((Sample.parameters_doc [Sample.engine_speed; Sample.road_speed] [],
           "parameters", "field_name") ∈
          [(Sample.parameters_doc [Sample.engine_speed; Sample.road_speed] [],
            "parameters", "field_name");
           (Sample.protocols_doc [] [], "protocol_groups", "group_name")]) as Hkind
    by apply list_elem_of_here.
  assert (0 ≠ 1)%nat as Hne by lia.
  destruct (generation_enforces_the_keys Sample.numeric_of_text Sample.draws
              "output/vehicle_params.db" Sample.duplicate_ids pf gf
              (Sample.parameters_doc [Sample.engine_speed; Sample.road_speed] [])
              (Sample.protocols_doc [] []) None
              (Sample.parameters_doc [Sample.engine_speed; Sample.road_speed] [])
              "parameters" "field_name" eq_refl eq_refl Hkind) as (e & He & _).
  { right. exists 0%nat, 1%nat, Sample.engine_speed, Sample.road_speed, 1.
    repeat split; [exact Hne|reflexivity..]. }
  by exists e.
Defined.

Lemma dependent_rows_are_numbered_witness :
  ∃ db,
    generate_database "output/vehicle_params.db" Sample.scenario_d pf gf None
    = ((true, Created "output/vehicle_params.db"), Some db) ∧
    breadcrumb_fields db !! 1%nat
    = Some {| row_id := 2; cells := [SInteger 99; SNull; SNull] |}.
Proof.
  eexists. split; [vm_compute; reflexivity|].
  match goal with
  | |- breadcrumb_fields ?db !! _ = _ =>
      assert (generate_database "output/vehicle_params.db" Sample.scenario_d pf gf None
              = ((true, Created "output/vehicle_params.db"), Some db))
        as Hgenerate by (vm_compute; reflexivity);
      assert ((Sample.scenario_d_parameters, "breadcrumb_fields", breadcrumb_columns,
               breadcrumb_affinities, breadcrumb_fields db) ∈
              [(Sample.scenario_d_parameters, "breadcrumb_fields", breadcrumb_columns,
                breadcrumb_affinities, breadcrumb_fields db);
               (Sample.scenario_d_parameters, "vg5_fields", vg5_columns, vg5_affinities,
                vg5_fields db);
               (Sample.scenario_d_parameters, "abbr_metrics", abbr_columns,
                abbr_affinities, abbr_metrics db);
               (Sample.scenario_a_protocols, "protocols", protocols_columns,
                protocols_affinities, protocols db)]) as Hkind
        by apply list_elem_of_here;
      destruct (proj2 (dependent_rows_are_numbered Sample.numeric_of_text Sample.draws
                         "output/vehicle_params.db" Sample.scenario_d pf gf
                         Sample.scenario_d_parameters Sample.scenario_a_protocols None
                         (Created "output/vehicle_params.db") db
                         Sample.scenario_d_parameters "breadcrumb_fields"
                         breadcrumb_columns breadcrumb_affinities (breadcrumb_fields db)
                         eq_refl eq_refl Hgenerate Hkind)
                  1%nat (Sample.breadcrumb 99) eq_refl) as (bs & Hbind & Hrow)
  end.
  vm_compute in Hbind. injection Hbind as <-. exact Hrow.
Defined.

Lemma duplicates_within_an_addition_pass_witness :
  let after :=
    (add_new_parameter_with_validation Sample.scenario_a None Sample.twin_addition).2 in
  (validate_parameters_business_logic Sample.urlparse after.1 pf).1 = false ∧
  after.2 = Some _create_tables.
Proof.
  assert (add_new_parameter_with_validation Sample.scenario_a None Sample.twin_addition
          = ((true,
              (add_new_parameter_with_validation Sample.scenario_a None
                 Sample.twin_addition).1.2),
             ((add_new_parameter_with_validation Sample.scenario_a None
                 Sample.twin_addition).2.1,
              (add_new_parameter_with_validation Sample.scenario_a None
                 Sample.twin_addition).2.2))) as Hrun.
  { assert ((add_new_parameter_with_validation Sample.scenario_a None
               Sample.twin_addition).1.1 = true) as Hok by (vm_compute; reflexivity).
    destruct (add_new_parameter_with_validation Sample.scenario_a None
                Sample.twin_addition) as [[ok notes] [fs' artifact']].
    simpl in *. by rewrite Hok. }
  assert (0 ≠ 1)%nat as Hne by lia.
  destruct (duplicates_within_an_addition_pass unit Sample.iter_errors tt
              Sample.urlparse Sample.numeric_of_text Sample.draws Sample.scenario_a _
              None _ Sample.twin_addition _ 0%nat 1%nat Sample.oil_pressure
              Sample.oil_temperature 2 Hrun Hne eq_refl eq_refl eq_refl eq_refl)
    as (_ & Hinvalid & _ & Hleft).
  split; [exact Hinvalid|]. cbv zeta. rewrite Hleft. vm_compute. reflexivity.
Defined.

Lemma linked_parameter_breaks_consistency_witness :
  (validate_bidirectional_consistency
     (add_new_parameter_with_validation Sample.scenario_a None
        Sample.linked_parameter_addition).2.1 pf gf).1
  = false.
Proof.
  assert (add_new_parameter_with_validation Sample.scenario_a None
            Sample.linked_parameter_addition
          = ((true,
              (add_new_parameter_with_validation Sample.scenario_a None
                 Sample.linked_parameter_addition).1.2),
             ((add_new_parameter_with_validation Sample.scenario_a None
                 Sample.linked_parameter_addition).2.1,
              (add_new_parameter_with_validation Sample.scenario_a None
                 Sample.linked_parameter_addition).2.2))) as Hrun.
  { assert ((add_new_parameter_with_validation Sample.scenario_a None
               Sample.linked_parameter_addition).1.1 = true) as Hok
      by (vm_compute; reflexivity).
    destruct (add_new_parameter_with_validation Sample.scenario_a None
                Sample.linked_parameter_addition) as [[ok notes] [fs' artifact']].
    simpl in *. by rewrite Hok. }
  assert ((validate_bidirectional_consistency Sample.scenario_a pf gf).1 = true)
    as Hbefore by (vm_compute; reflexivity).
  assert (Sample.linked_parameter ∈ records Sample.linked_parameter_addition "parameters")
    as HP by apply list_elem_of_here.
  assert (has_both "field_name" "protocol_reference" Sample.linked_parameter) as Hboth
    by (by exists (AStr "Road Speed"), (VStr "RSPD_protocols")).
  exact (proj1 (linked_parameter_breaks_consistency unit Sample.iter_errors tt tt
                  Sample.urlparse Sample.numeric_of_text Sample.draws Sample.scenario_a _
                  None _ Sample.linked_parameter_addition _ Sample.linked_parameter
                  Sample.wall_clock Hbefore Hrun HP Hboth)).
Defined.

Lemma linked_group_breaks_consistency_witness :
  (validate_bidirectional_consistency
     (add_new_protocol_with_validation Sample.scenario_a None
        Sample.linked_group_addition).2.1 pf gf).1
  = false.
Proof.
  assert (add_new_protocol_with_validation Sample.scenario_a None
            Sample.linked_group_addition
          = ((true,
              (add_new_protocol_with_validation Sample.scenario_a None
                 Sample.linked_group_addition).1.2),
             ((add_new_protocol_with_validation Sample.scenario_a None
                 Sample.linked_group_addition).2.1,
              (add_new_protocol_with_validation Sample.scenario_a None
                 Sample.linked_group_addition).2.2))) as Hrun.
  { assert ((add_new_protocol_with_validation Sample.scenario_a None
               Sample.linked_group_addition).1.1 = true) as Hok
      by (vm_compute; reflexivity).
    destruct (add_new_protocol_with_validation Sample.scenario_a None
                Sample.linked_group_addition) as [[ok notes] [fs' artifact']].
    simpl in *. by rewrite Hok. }
  assert ((validate_bidirectional_consistency Sample.scenario_a pf gf).1 = true)
    as Hbefore by (vm_compute; reflexivity).
  assert (Sample.linked_group ∈ records Sample.linked_group_addition "protocol_groups")
    as HG by apply list_elem_of_here.
  assert (has_both "group_name" "parameter_reference" Sample.linked_group) as Hboth
    by (by exists (AStr "RSPD_protocols"), (VStr "Road Speed")).
  exact (proj1 (linked_group_breaks_consistency unit Sample.iter_errors tt tt
                  Sample.urlparse Sample.numeric_of_text Sample.draws Sample.scenario_a _
                  None _ Sample.linked_group_addition _ Sample.linked_group
                  Sample.wall_clock Hbefore Hrun HG Hboth)).
Defined.

Lemma merged_files_are_appended_witness :
  ∃ merged,
    (MergePendingFiles.merge_pending_parameters ["data/pending_parameters/oil.yaml"]
       Sample.pending_disk).2 pf = Yaml merged.
Proof.
  assert (MergePendingFiles.merge_pending_parameters
            ["data/pending_parameters/oil.yaml"] Sample.pending_disk
          = (Ok tt,
             (MergePendingFiles.merge_pending_parameters
                ["data/pending_parameters/oil.yaml"] Sample.pending_disk).2)) as Hrun.
  { assert ((MergePendingFiles.merge_pending_parameters
               ["data/pending_parameters/oil.yaml"] Sample.pending_disk).1 = Ok tt)
      as Hok by (vm_compute; reflexivity).
    destruct (MergePendingFiles.merge_pending_parameters _ _) as [outcome fs'].
    simpl in *. by rewrite Hok. }
  assert ((pf, ["parameters"; "breadcrumb_fields"; "vg5_fields"; "abbr_metrics"],
           MergePendingFiles.merge_pending_parameters) ∈
          [(pf, ["parameters"; "breadcrumb_fields"; "vg5_fields"; "abbr_metrics"],
            MergePendingFiles.merge_pending_parameters);
           (gf, ["protocol_groups"; "protocols"],
            MergePendingFiles.merge_pending_protocols)]) as Hkind
    by apply list_elem_of_here.
  destruct (merged_files_are_appended pf _ _ ["data/pending_parameters/oil.yaml"]
              Sample.pending_disk _ Hkind Hrun)
    as (main_data & docs & merged & _ & _ & Hfile & _).
  by exists merged.
Defined.


Lemma validated_files_are_generated_witness :
  ∃ db, generate_database "output/vehicle_params.db" Sample.scenario_a pf gf None
        = ((true, Created "output/vehicle_params.db"), Some db).
Proof.
  assert ((validate_parameters_business_logic Sample.urlparse Sample.scenario_a pf).1
          = true) as Hvalid1 by (vm_compute; reflexivity).
  assert ((validate_protocols_business_logic Sample.scenario_a gf).1 = true)
    as Hvalid2 by (vm_compute; reflexivity).
  assert (records Sample.scenario_a_parameters "parameters" = [Sample.engine_speed])
    as Hrecords1 by reflexivity.
  assert (records Sample.scenario_a_protocols "protocol_groups" = [Sample.espd])
    as Hrecords2 by reflexivity.
  assert (Forall (typed_owner "field_name"
                    ["reserved_enum_val"; "description"; "unit"; "reason_added";
                     "protobuf_field"; "protocol_reference"])
            (records Sample.scenario_a_parameters "parameters")) as Hparameters.
  { rewrite Hrecords1. apply Forall_cons. split; [|constructor].
    split; [exists 1; split; [reflexivity|lia]|].
    split; [by exists "Engine Speed"|]. eexists. vm_compute. reflexivity. }
  assert (Forall (typed_owner "group_name" ["description"; "parameter_reference"])
            (records Sample.scenario_a_protocols "protocol_groups")) as Hgroups.
  { rewrite Hrecords2. apply Forall_cons. split; [|constructor].
    split; [exists 1; split; [reflexivity|lia]|].
    split; [by exists "ESPD_protocols"|]. eexists. vm_compute. reflexivity. }
  assert (∀ data k columns,
            (data, k, columns) ∈
              [(Sample.scenario_a_parameters, "breadcrumb_fields", breadcrumb_columns);
               (Sample.scenario_a_parameters, "vg5_fields", vg5_columns);
               (Sample.scenario_a_parameters, "abbr_metrics", abbr_columns);
               (Sample.scenario_a_protocols, "protocols", protocols_columns)] →
            Forall (bindable columns) (records data k) ∧
            Z.of_nat (length (records data k)) ≤ 2 ^ 63 - 1) as Hdependents.
  { intros data k columns Hkind. elems Hkind; simplify_eq.
    - assert (records Sample.scenario_a_parameters "breadcrumb_fields"
              = [Sample.breadcrumb 1]) as -> by reflexivity.
      split; [|simpl; lia]. apply Forall_cons. split; [|constructor].
      eexists. vm_compute. reflexivity.
    - assert (records Sample.scenario_a_parameters "vg5_fields" = []) as ->
        by reflexivity.
      split; [constructor|simpl; lia].
    - assert (records Sample.scenario_a_parameters "abbr_metrics" = []) as ->
        by reflexivity.
      split; [constructor|simpl; lia].
    - assert (records Sample.scenario_a_protocols "protocols" = [Sample.espd_entry])
        as -> by reflexivity.
      split; [|simpl; lia]. apply Forall_cons. split; [|constructor].
      eexists. vm_compute. reflexivity. }
  exact (validated_files_are_generated Sample.urlparse Sample.numeric_of_text
           Sample.draws "output/vehicle_params.db" Sample.scenario_a pf gf
           Sample.scenario_a_parameters Sample.scenario_a_protocols None
           eq_refl eq_refl Hvalid1 Hvalid2 Hparameters Hgroups Hdependents).
Defined.

End FurtherWitnesses.
